(** * Zettlr document provider: the DocumentManager and its collaborators

    A shallow embedding of [source/app/service-providers/documents/index.ts].
    The class [DocumentManager] keeps, per window, a tree of editor panes
    (leaves) with their tab strips, the list of loaded documents with their
    version counters, the list of paths whose next watcher event has to be
    ignored, and the file watcher.

    Conventions of the embedding:
    - JavaScript strings are [string]; numbers that count versions are [Z];
    - an object used as a dictionary ([_windows]) is an association list in
      insertion order, which is the order [for ... in] visits string keys;
    - methods run in the monad [M]: they thread the manager, may throw, and
      append what they ask of the outside world (events broadcast, dialogs,
      watcher calls, writes) to a trace;
    - an [await] on an external capability is a point where the answer of
      the capability enters as an argument (an oracle) of the method;
    - log output ([_app.log]) and the navigation history of a tab strip are
      left out: nothing below reads them. *)

From Stdlib Require Import String Ascii List ZArith Bool Arith Lia.
Import ListNotations.
Open Scope string_scope.
Open Scope list_scope.

Set Implicit Arguments.
#[local] Set Warnings "-register-all".

(** ** JavaScript string methods used by the manager *)

Module JSString.

(** [s.startsWith(pre)] *)
Definition startsWith (s pre : string) : bool := String.prefix pre s.

(** [s.indexOf(pat)], [None] standing for -1 *)
Definition indexOf (s pat : string) : option nat := String.index 0 pat s.

(** GetSubstitution of ECMA-262 for a string pattern (no captures): in the
    replacement text [$$] stands for a dollar sign, [$&] for the match,
    [$`] for the text before it and [$'] for the text after it; a dollar
    sign followed by anything else is kept as it is. *)
Fixpoint getSubstitution (matched before after template : string) : string :=
  match template with
  | EmptyString => EmptyString
  | String c rest =>
      if Ascii.eqb c "$" then
        match rest with
        | EmptyString => String c EmptyString
        | String d rest' =>
            if Ascii.eqb d "$" then String "$" (getSubstitution matched before after rest')
            else if Ascii.eqb d "&" then matched ++ getSubstitution matched before after rest'
            else if Ascii.eqb d "`" then before ++ getSubstitution matched before after rest'
            else if Ascii.eqb d "'" then after ++ getSubstitution matched before after rest'
            else String c (getSubstitution matched before after rest)
        end
      else String c (getSubstitution matched before after rest)
  end.

(** [s.replace(pat, repl)] with a string pattern: only the first match is
    replaced, and [repl] goes through [getSubstitution]. *)
Definition replace (s pat repl : string) : string :=
  match indexOf s pat with
  | None => s
  | Some pos =>
      let tailPos := pos + String.length pat in
      let before := substring 0 pos s in
      let after := substring tailPos (String.length s - tailPos) s in
      before ++ getSubstitution pat before after repl ++ after
  end.

(** What a reader expects of [replace]: the first match gives way to the
    replacement text itself. *)
Definition replaceLiteral (s pat repl : string) : string :=
  match indexOf s pat with
  | None => s
  | Some pos =>
      let tailPos := pos + String.length pat in
      substring 0 pos s ++ repl ++ substring tailPos (String.length s - tailPos) s
  end.

(** No dollar sign occurs in [s]. *)
Fixpoint dollarFree (s : string) : bool :=
  match s with
  | EmptyString => true
  | String c rest => negb (Ascii.eqb c "$") && dollarFree rest
  end.

End JSString.

(** ** Tab strips *)

(** Modelled from the spec: an entry of a tab strip. The type
    [OpenDocument] (@dts/common/documents) is not among the sources; the
    fields are the ones [index.ts] reads and sets. *)
Record OpenDocument := mkOpenDocument {
  path : string;
  pinned : bool
}.

(** Modelled from the spec: [TabManager] (document-tree/tab-manager) is not
    among the sources. Section 3 of the specification gives its state: the
    ordered open documents and the active one; pinned paths are the entries
    flagged [pinned]. *)
Record TabManager := mkTabManager {
  openFiles : list OpenDocument;
  activeFile : option string
}.

Module TabMan.

Definition paths (tm : TabManager) : list string := map path (openFiles tm).

(** [openFiles.map(x => x.path).includes(p)] *)
Definition includes (p : string) (l : list string) : bool :=
  existsb (String.eqb p) l.

Definition isOpen (p : string) (tm : TabManager) : bool := includes p (paths tm).

Fixpoint findIndex (p : string) (l : list OpenDocument) : option nat :=
  match l with
  | [] => None
  | f :: rest =>
      if String.eqb (path f) p then Some 0
      else option_map S (findIndex p rest)
  end.

Fixpoint removeAt {A} (i : nat) (l : list A) : list A :=
  match l, i with
  | [], _ => []
  | _ :: rest, 0 => rest
  | x :: rest, S j => x :: removeAt j rest
  end.

(** Modelled from the spec: if the path is present it becomes active and
    the call reports "no-op open" ([false]); otherwise it is appended to
    the end of the order, becomes active, and the call reports "opened". *)
Definition openFile (p : string) (tm : TabManager) : bool * TabManager :=
  if isOpen p tm then (false, mkTabManager (openFiles tm) (Some p))
  else (true, mkTabManager (openFiles tm ++ [mkOpenDocument p false]) (Some p)).

(** The tab that takes over when the active tab at index [idx] is gone:
    the one to its right, else the one to its left, else none. *)
Definition neighbour (idx : nat) (rest : list OpenDocument) : option string :=
  match nth_error rest idx with
  | Some r => Some (path r)
  | None =>
      match idx with
      | 0 => None
      | S i => option_map path (nth_error rest i)
      end
  end.

Definition isActive (p : string) (tm : TabManager) : bool :=
  match activeFile tm with
  | Some a => String.eqb a p
  | None => false
  end.

(** Modelled from the spec: removes the path from the order; if it was
    active, the neighbour becomes active. Reports whether a tab was
    closed. *)
Definition closeFile (p : string) (tm : TabManager) : bool * TabManager :=
  match findIndex p (openFiles tm) with
  | None => (false, tm)
  | Some idx =>
      let rest := removeAt idx (openFiles tm) in
      let act := if isActive p tm then neighbour idx rest else activeFile tm in
      (true, mkTabManager rest act)
  end.

(** Modelled from the spec: the pinned flag of the entry for the path. *)
Definition setPinnedStatus (p : string) (b : bool) (tm : TabManager) : TabManager :=
  mkTabManager
    (map (fun f => if String.eqb (path f) p then mkOpenDocument (path f) b else f)
         (openFiles tm))
    (activeFile tm).

(** Modelled from the spec: renames the entry in place, keeping position,
    active and pinned status; reports whether anything changed. *)
Definition replaceFilePath (old new : string) (tm : TabManager) : bool * TabManager :=
  if isOpen old tm then
    (true,
     mkTabManager
       (map (fun f => if String.eqb (path f) old then mkOpenDocument new (pinned f) else f)
            (openFiles tm))
       (if isActive old tm then Some new else activeFile tm))
  else (false, tm).

Definition isPinned (p : string) (tm : TabManager) : bool :=
  existsb (fun f => String.eqb (path f) p && pinned f) (openFiles tm).

(** The data-model invariant of a tab strip: paths are unique. *)
Definition unique (tm : TabManager) : Prop := NoDup (paths tm).

End TabMan.

(** ** The tree of editor panes of one window *)

Inductive Direction := horizontal | vertical.

(** Modelled from the spec: [DTBranch] and [DTLeaf] (document-tree) are not
    among the sources. A node is a leaf owning a tab strip or a branch over
    an ordered list of children (section 3); the relative sizes of a branch
    are left out. *)
Inductive DTNode :=
| DTLeaf (id : string) (tabMan : TabManager)
| DTBranch (id : string) (direction : Direction) (nodes : list DTNode).

(** Modelled from the spec: [DocumentTree] (document-tree) is not among the
    sources; a window owns exactly one tree, which always has a root. *)
Record DocumentTree := mkDocumentTree { node : DTNode }.

(** What removing a leaf below a node leaves of that node. *)
Inductive Removal :=
| NotFound
| Gone
| Kept (n : DTNode).

Module DocTree.

(** Modelled from the spec: [getAllLeafs()], the leaves from left to right,
    each with its id. *)
Fixpoint leafsOf (n : DTNode) : list (string * TabManager) :=
  match n with
  | DTLeaf i tm => [(i, tm)]
  | DTBranch _ _ ns => flat_map leafsOf ns
  end.

Definition getAllLeafs (t : DocumentTree) : list (string * TabManager) :=
  leafsOf (node t).

Definition hasId (i : string) (l : string * TabManager) : bool := String.eqb (fst l) i.

(** Modelled from the spec: [findLeaf(id)], the first leaf with that id or
    "not found". *)
Definition findLeaf (i : string) (t : DocumentTree) : option TabManager :=
  option_map snd (find (hasId i) (getAllLeafs t)).

(** Children of a branch, from left to right, until [f] succeeds on
    one. *)
Section Children.
Variable f : DTNode -> option DTNode.

Fixpoint updateFirst (l : list DTNode) : option (list DTNode) :=
  match l with
  | [] => None
  | c :: cs =>
      match f c with
      | Some c' => Some (c' :: cs)
      | None => option_map (cons c) (updateFirst cs)
      end
  end.
End Children.

(** The leaf [findLeaf] returns is an object: a call on its [tabMan]
    changes the tree in place. [updateIn i f n] is the node after [f] ran
    on the strip of the first leaf with id [i], if there is one. *)
Fixpoint updateIn (i : string) (f : TabManager -> TabManager) (n : DTNode) : option DTNode :=
  match n with
  | DTLeaf j tm => if String.eqb j i then Some (DTLeaf j (f tm)) else None
  | DTBranch b d ns => option_map (DTBranch b d) (updateFirst (updateIn i f) ns)
  end.

Definition updateLeaf (i : string) (f : TabManager -> TabManager) (t : DocumentTree) : DocumentTree :=
  match updateIn i f (node t) with
  | Some n => mkDocumentTree n
  | None => t
  end.

Section Detach.
Variable f : DTNode -> Removal.

(** The children without the first leaf [f] finds below one of them. *)
Fixpoint detachFirst (l : list DTNode) : option (list DTNode) :=
  match l with
  | [] => None
  | c :: cs =>
      match f c with
      | NotFound => option_map (cons c) (detachFirst cs)
      | Gone => Some cs
      | Kept c' => Some (c' :: cs)
      end
  end.
End Detach.

(** Modelled from the spec: the collapse rule of section 3. A branch left
    with one child gives way to that child, a branch left with none goes
    away itself. *)
Definition collapse (b : string) (d : Direction) (remaining : option (list DTNode)) : Removal :=
  match remaining with
  | None => NotFound
  | Some [] => Gone
  | Some [only] => Kept only
  | Some ns' => Kept (DTBranch b d ns')
  end.

(** Modelled from the spec: [removeNode] below a branch detaches the leaf
    and applies the collapse rule upwards. The leaf is the first with id
    [i], the one [findLeaf] returns. *)
Fixpoint removeFrom (i : string) (n : DTNode) : Removal :=
  match n with
  | DTLeaf j _ => if String.eqb j i then Gone else NotFound
  | DTBranch b d ns => collapse b d (detachFirst (removeFrom i) ns)
  end.

(** Modelled from the spec: [leaf.parent.removeNode(leaf)]. The root leaf
    of a tree has no parent branch and stays in place, as the leaf
    invariant of section 3 asks for a sole leaf. *)
Definition removeNode (i : string) (t : DocumentTree) : DocumentTree :=
  match removeFrom i (node t) with
  | Kept n => mkDocumentTree n
  | Gone | NotFound => t
  end.

(** The list of leaves without its first leaf of id [i]. *)
Fixpoint withoutLeaf (i : string) (l : list (string * TabManager)) : list (string * TabManager) :=
  match l with
  | [] => []
  | x :: rest => if hasId i x then rest else x :: withoutLeaf i rest
  end.

(** The list of leaves after [f] ran on its first leaf of id [i]. *)
Fixpoint withLeaf (i : string) (f : TabManager -> TabManager)
    (l : list (string * TabManager)) : list (string * TabManager) :=
  match l with
  | [] => []
  | x :: rest => if hasId i x then (fst x, f (snd x)) :: rest else x :: withLeaf i f rest
  end.

(** Induction over nodes, the children of a branch included. *)
Section NodeInduction.
Variable P : DTNode -> Prop.
Hypothesis Hleaf : forall i tm, P (DTLeaf i tm).
Hypothesis Hbranch : forall b d ns, Forall P ns -> P (DTBranch b d ns).

Fixpoint node_ind (n : DTNode) : P n :=
  match n with
  | DTLeaf i tm => Hleaf i tm
  | DTBranch b d ns =>
      Hbranch b d
        ((fix all (l : list DTNode) : Forall P l :=
            match l with
            | [] => Forall_nil P
            | c :: cs => Forall_cons c (node_ind c) (all cs)
            end) ns)
  end.
End NodeInduction.

End DocTree.

(** ** Loaded documents

    The entries of [this.documents]: the canonical text with its version
    counters, the backlog of updates and the descriptor of the file. *)

Module Descriptor.

Inductive kind := file | code.

Inductive fmValue := FMString (s : string) | FMOther.

Record t := mk {
  path : string;
  dir : string;
  name : string;
  ext : string;
  type : kind;
  frontmatter : option (list (string * fmValue))
}.

End Descriptor.

(** Modelled from the spec: the glossary's incremental update, "a minimal
    description of a text change (insert/delete ranges)". *)
Inductive Change :=
| Insert (pos : nat) (text : string)
| Delete (from to : nat).

(** Modelled from the spec: an update as a client submits it, the changes
    with the id of the client. *)
Record Update := mkUpdate {
  changes : list Change;
  clientID : string
}.

(** An entry of [this.documents]. The type is not among the sources: the
    fields [filePath], [descriptor], [document], [currentVersion],
    [lastSavedVersion], the counters and [saveTimeout] are the ones
    [index.ts] reads and sets; [updates] (the replay backlog, each update
    with the version it produced) and [pendingPulls] (the parked
    [pullUpdates] callers with the version each knows) are modelled from
    section 4.3 of the specification. *)
Record Document := mkDocument {
  filePath : string;
  descriptor : Descriptor.t;
  document : string;
  currentVersion : Z;
  lastSavedVersion : Z;
  updates : list (Z * Update);
  pendingPulls : list (nat * Z);
  lastSavedWordCount : Z;
  lastSavedCharCount : Z;
  saveTimeout : option nat
}.

(** ** What the manager asks of the outside world *)

Inductive DP_EVENTS :=
| NEW_WINDOW | NEW_LEAF | LEAF_CLOSED | OPEN_FILE | CLOSE_FILE | ACTIVE_FILE
| FILES_SORTED | CHANGE_FILE_STATUS | FILE_SAVED | FILE_REMOTELY_CHANGED.

Record EventContext := mkContext {
  ctxWindow : option string;
  ctxLeaf : option string;
  ctxFile : option string;
  ctxStatus : option string
}.

Inductive Effect :=
| Broadcast (event : DP_EVENTS) (context : EventContext)
| AskSaveChanges
| WatcherAdd (p : string)
| WatcherUnwatch (p : string)
| ConfigSet
| FsSave (d : Descriptor.t) (content : string)
| UpdateWordCount (delta : Z)
| SynchronizeDatabases (libraries : list string)
| HandleRemoteChange (p : string)
| ReleasePull (caller : nat) (news : list (Z * Update)).

Inductive Error :=
| TypeError
| NotFoundError
| StaleBase
| VersionTooOld
| IOFailure
| NoFreshKey.

Inductive Outcome (A : Type) :=
| Ret (a : A)
| Throw (e : Error).

Arguments Throw {A} e.

(** ** The manager *)

Record DocumentManager := mkManager {
  _windows : list (string * DocumentTree);
  documents : list Document;
  _ignoreChanges : list string;
  _watcher : list string;
  _shuttingDown : bool
}.

(** Functions of the platform and of other modules that the manager calls:
    [path.dirname], [path.basename], [path.extname] and [path.isAbsolute] of
    Node, and the counters of [@common/util/counter] applied to the parsed
    text. *)
Class Platform := {
  dirname : string -> string;
  basename : string -> string;
  extname : string -> string;
  isAbsolute : string -> bool;
  countWords : string -> Z;
  countChars : string -> Z
}.

Definition M (A : Type) : Type :=
  DocumentManager -> Outcome A * DocumentManager * list Effect.

Definition ret {A} (a : A) : M A := fun st => (Ret a, st, []).

Definition throw {A} (e : Error) : M A := fun st => (Throw e, st, []).

Definition bind {A B} (m : M A) (k : A -> M B) : M B :=
  fun st =>
    match m st with
    | (Ret a, st1, t1) => let '(o, st2, t2) := k a st1 in (o, st2, t1 ++ t2)
    | (Throw e, st1, t1) => (Throw e, st1, t1)
    end.

Definition gets {A} (f : DocumentManager -> A) : M A := fun st => (Ret (f st), st, []).

Definition modify (f : DocumentManager -> DocumentManager) : M unit :=
  fun st => (Ret tt, f st, []).

Definition emit (e : Effect) : M unit := fun st => (Ret tt, st, [e]).

Declare Scope m_scope.
Delimit Scope m_scope with m.
Notation "x <- c ;; k" := (bind c (fun x => k))
  (at level 61, c at next level, right associativity) : m_scope.
Notation "c ;; k" := (bind c (fun _ => k))
  (at level 61, right associativity) : m_scope.
Open Scope m_scope.

Definition outcomeOf {A} (r : Outcome A * DocumentManager * list Effect) : Outcome A := fst (fst r).
Definition stateOf {A} (r : Outcome A * DocumentManager * list Effect) : DocumentManager := snd (fst r).
Definition traceOf {A} (r : Outcome A * DocumentManager * list Effect) : list Effect := snd r.

Fixpoint forM {A} (l : list A) (body : A -> M unit) : M unit :=
  match l with
  | [] => ret tt
  | x :: rest => body x ;; forM rest body
  end.

Definition when (b : bool) (m : M unit) : M unit := if b then m else ret tt.

(** *** Field updates *)

Definition setWindows (ws : list (string * DocumentTree)) (st : DocumentManager) : DocumentManager :=
  mkManager ws (documents st) (_ignoreChanges st) (_watcher st) (_shuttingDown st).

Definition setDocuments (ds : list Document) (st : DocumentManager) : DocumentManager :=
  mkManager (_windows st) ds (_ignoreChanges st) (_watcher st) (_shuttingDown st).

Definition setIgnoreChanges (l : list string) (st : DocumentManager) : DocumentManager :=
  mkManager (_windows st) (documents st) l (_watcher st) (_shuttingDown st).

Definition setWatcher (l : list string) (st : DocumentManager) : DocumentManager :=
  mkManager (_windows st) (documents st) (_ignoreChanges st) l (_shuttingDown st).

(** *** Plain objects as dictionaries

    [this._windows = {}] is a plain object. Besides its own keys it has the
    names it inherits from [Object.prototype]: the operator [in] and a read
    [obj[name]] find them, while [Object.keys], [Object.values],
    [for ... in] and [delete] go by the own keys only, none of the inherited
    names being enumerable. *)

Module JSObject.

Definition prototypeNames : list string :=
  ["constructor"; "hasOwnProperty"; "isPrototypeOf"; "propertyIsEnumerable";
   "toLocaleString"; "toString"; "valueOf"; "__proto__";
   "__defineGetter__"; "__defineSetter__"; "__lookupGetter__"; "__lookupSetter__"].

Definition inherited (name : string) : bool := existsb (String.eqb name) prototypeNames.

End JSObject.

(** *** The dictionary of windows *)

Module Windows.

(** [w] is an own key of the dictionary, one of [Object.keys(this._windows)]. *)
Definition has (w : string) (ws : list (string * DocumentTree)) : bool :=
  existsb (fun e => String.eqb (fst e) w) ws.

(** [windowId in this._windows]: an own key or an inherited name. *)
Definition hasProperty (w : string) (ws : list (string * DocumentTree)) : bool :=
  has w ws || JSObject.inherited w.

(** [this._windows[windowId]] as a tree. There is none ([None]) under a
    name that is not an own key: the read gives [undefined], or for an
    inherited name a value of [Object.prototype] without any method of a
    tree, and a method call on either throws a TypeError. *)
Definition lookup (w : string) (ws : list (string * DocumentTree)) : option DocumentTree :=
  option_map snd (find (fun e => String.eqb (fst e) w) ws).

(** The dictionary after the tree stored under [w] changed in place. *)
Fixpoint update (w : string) (f : DocumentTree -> DocumentTree)
    (ws : list (string * DocumentTree)) : list (string * DocumentTree) :=
  match ws with
  | [] => []
  | e :: rest =>
      if String.eqb (fst e) w then (fst e, f (snd e)) :: rest
      else e :: update w f rest
  end.

(** [delete this._windows[windowId]] *)
Definition delete (w : string) (ws : list (string * DocumentTree)) : list (string * DocumentTree) :=
  filter (fun e => negb (String.eqb (fst e) w)) ws.

(** Every leaf of every window, in the order the loops visit them. *)
Definition allLeafs (ws : list (string * DocumentTree)) : list (string * TabManager) :=
  flat_map (fun e => DocTree.getAllLeafs (snd e)) ws.

End Windows.

(** *** Loops over every leaf

    [for (const key in this._windows) for (const leaf of getAllLeafs())]:
    the body sees the window key, the leaf id and the tab strip, may change
    the strip in place, updates the variables [S] it has captured, and
    leaves effects. No body adds or removes a leaf or a window. *)

Section Visit.
Variable S : Type.

Section Children.
Variable f : DTNode -> S -> DTNode * S * list Effect.

Fixpoint visitChildren (l : list DTNode) (s : S) : list DTNode * S * list Effect :=
  match l with
  | [] => ([], s, [])
  | c :: cs =>
      let '(c', s1, t1) := f c s in
      let '(cs', s2, t2) := visitChildren cs s1 in
      (c' :: cs', s2, t1 ++ t2)
  end.
End Children.

Fixpoint visitNode (body : string -> TabManager -> S -> TabManager * S * list Effect)
    (n : DTNode) (s : S) : DTNode * S * list Effect :=
  match n with
  | DTLeaf i tm => let '(tm', s', tr) := body i tm s in (DTLeaf i tm', s', tr)
  | DTBranch b d ns =>
      let '(ns', s', tr) := visitChildren (visitNode body) ns s in
      (DTBranch b d ns', s', tr)
  end.

Fixpoint visitWindows (body : string -> string -> TabManager -> S -> TabManager * S * list Effect)
    (ws : list (string * DocumentTree)) (s : S) : list (string * DocumentTree) * S * list Effect :=
  match ws with
  | [] => ([], s, [])
  | (w, t) :: rest =>
      let '(n', s1, t1) := visitNode (body w) (node t) s in
      let '(rest', s2, t2) := visitWindows body rest s1 in
      ((w, mkDocumentTree n') :: rest', s2, t1 ++ t2)
  end.

(** The same loop over the bare list of leaves. *)
Fixpoint visitLeafs (body : string -> TabManager -> S -> TabManager * S * list Effect)
    (l : list (string * TabManager)) (s : S) : list (string * TabManager) * S * list Effect :=
  match l with
  | [] => ([], s, [])
  | (i, tm) :: rest =>
      let '(tm', s1, t1) := body i tm s in
      let '(rest', s2, t2) := visitLeafs body rest s1 in
      ((i, tm') :: rest', s2, t1 ++ t2)
  end.
End Visit.

(** [this.syncToConfig()]: the trees are handed to the persistence
    capability. *)
Definition syncToConfig : M unit := emit ConfigSet.

(** [forEachLeaf(callback)] for the callbacks this class passes to it, in
    [closeFile] and in [hasMovedFile]: closures that read and change the
    strip they are handed and the variables they capture, and that do not
    reject. The callback reports whether it changed the strip; if so the
    configuration is synchronised. A callback that rejects or reaches for
    the manager is outside this definition. *)
Definition forEachLeaf {S} (callback : TabManager -> string -> string -> S -> bool * TabManager * S)
    (init : S) : M S :=
  fun st =>
    let '(ws', s', tr) :=
      visitWindows
        (fun w i tm s =>
           let '(stateHasChanged, tm', s') := callback tm w i s in
           (tm', s', if stateHasChanged : bool then [ConfigSet] else []))
        (_windows st) init in
    (Ret s', setWindows ws' st, tr).

(** *** Open files and the watcher *)

(** [[...new Set(l)]]: duplicates go, first occurrences stay in order. *)
Fixpoint dedupe (seen l : list string) : list string :=
  match l with
  | [] => []
  | x :: rest =>
      if TabMan.includes x seen then dedupe seen rest
      else x :: dedupe (x :: seen) rest
  end.

Definition getOpenFiles (st : DocumentManager) : list string :=
  dedupe [] (flat_map (fun l => TabMan.paths (snd l)) (Windows.allLeafs (_windows st))).

(** Modelled from the spec: the file-watch capability keeps a set of paths;
    [_watcher st] is what [getWatched()] yields once directory and file name
    are joined again. *)
Definition unwatch (p : string) : M unit :=
  emit (WatcherUnwatch p) ;;
  modify (fun st => setWatcher (filter (fun q => negb (String.eqb q p)) (_watcher st)) st).

(** Modelled from the spec: [watch(path)] of the file-watch capability;
    a path already watched is not entered twice. *)
Definition watcherAdd (p : string) : M unit :=
  emit (WatcherAdd p) ;;
  modify (fun st => if TabMan.includes p (_watcher st) then st
                    else setWatcher (_watcher st ++ [p]) st).

Definition syncWatchedFilePaths : M unit :=
  watchedFiles <- gets _watcher ;;
  openFiles <- gets getOpenFiles ;;
  forM watchedFiles (fun watchedFile =>
    when (negb (TabMan.includes watchedFile openFiles)) (unwatch watchedFile)) ;;
  forM openFiles (fun openFile =>
    when (negb (TabMan.includes openFile watchedFiles)) (watcherAdd openFile)).

Definition isWatcherCall (e : Effect) : bool :=
  match e with
  | WatcherAdd _ | WatcherUnwatch _ => true
  | _ => false
  end.

(** *** The list of loaded documents *)

Module Docs.

Definition hasPath (p : string) (d : Document) : bool := String.eqb (filePath d) p.

(** [documents.find(doc => doc.filePath === p)] *)
Definition findDoc (p : string) (ds : list Document) : option Document :=
  find (hasPath p) ds.

(** The position of the document [findDoc] returns: the object itself,
    as long as the list keeps its length. *)
Fixpoint indexOf (p : string) (ds : list Document) : option nat :=
  match ds with
  | [] => None
  | d :: rest => if hasPath p d then Some 0 else option_map S (indexOf p rest)
  end.

(** An assignment to fields of the document at position [idx]. *)
Fixpoint updateAt (idx : nat) (f : Document -> Document) (ds : list Document) : list Document :=
  match ds, idx with
  | [], _ => []
  | d :: rest, 0 => f d :: rest
  | d :: rest, S i => d :: updateAt i f rest
  end.

Definition setLastSaved (v : Z) (d : Document) : Document :=
  mkDocument (filePath d) (descriptor d) (document d) (currentVersion d) v
    (updates d) (pendingPulls d) (lastSavedWordCount d) (lastSavedCharCount d) (saveTimeout d).

Definition modified (d : Document) : bool :=
  negb (Z.eqb (lastSavedVersion d) (currentVersion d)).

End Docs.

(** *** The document authority

    [DocumentAuthoritySingleton] (document-authority) is not among the
    sources; [index.ts] only forwards to it. Section 4.3 of the
    specification gives [pullUpdates], [pushUpdates] and [isModified]. The
    authority works on the documents the manager lists. *)

Module Authority.

(** Modelled from the spec: a change applied to the canonical text;
    positions beyond the end of the text act at its end. *)
Definition applyChange (t : string) (c : Change) : string :=
  match c with
  | Insert pos text =>
      substring 0 pos t ++ text ++ substring pos (String.length t - pos) t
  | Delete from to =>
      substring 0 from t ++ substring to (String.length t - to) t
  end.

Definition applyUpdate (t : string) (u : Update) : string :=
  fold_left applyChange (changes u) t.

(** Modelled from the spec: each update tagged with the version it
    produces, counting on from [v]. *)
Fixpoint tagFrom (v : Z) (us : list Update) : list (Z * Update) :=
  match us with
  | [] => []
  | u :: rest => (v + 1, u)%Z :: tagFrom (v + 1)%Z rest
  end.

(** Modelled from the spec: the updates produced since version [known]. *)
Definition updatesSince (known : Z) (log : list (Z * Update)) : list (Z * Update) :=
  filter (fun e => Z.ltb known (fst e)) log.

(** Modelled from the spec: the document after a push was accepted. *)
Definition accept (us : list Update) (d : Document) : Document :=
  mkDocument (filePath d) (descriptor d)
    (fold_left applyUpdate us (document d))
    (currentVersion d + Z.of_nat (List.length us))
    (lastSavedVersion d)
    (updates d ++ tagFrom (currentVersion d) us)
    []
    (lastSavedWordCount d) (lastSavedCharCount d) (saveTimeout d).

(** Modelled from the spec: [pushUpdates(path, baseVersion, updates)] of
    the authority, which is not among the sources. Accepted only on the
    current version; then the updates are applied in order, the version
    advances by their number, they join the backlog and every parked
    [pullUpdates] caller is released with the updates since the version
    it knew. Returns the new version. *)
Definition pushUpdates (p : string) (baseVersion : Z) (us : list Update) : M Z :=
  docs <- gets documents ;;
  match Docs.indexOf p docs, Docs.findDoc p docs with
  | Some idx, Some doc =>
      if negb (Z.eqb baseVersion (currentVersion doc)) then throw StaleBase
      else
        let doc' := accept us doc in
        modify (setDocuments (Docs.updateAt idx (fun _ => doc') docs)) ;;
        forM (pendingPulls doc) (fun waiter =>
          emit (ReleasePull (fst waiter) (updatesSince (snd waiter) (updates doc')))) ;;
        ret (currentVersion doc')
  | _, _ => throw NotFoundError
  end.

(** Modelled from the spec: a [pullUpdates] caller waits for the next
    push. *)
Definition park (caller : nat) (known : Z) (d : Document) : Document :=
  mkDocument (filePath d) (descriptor d) (document d) (currentVersion d)
    (lastSavedVersion d) (updates d) (pendingPulls d ++ [(caller, known)])
    (lastSavedWordCount d) (lastSavedCharCount d) (saveTimeout d).

(** Modelled from the spec: [pullUpdates(path, knownVersion)] of the
    authority, which is not among the sources. [Some] backlog when the
    caller is behind, [None] when the caller is parked until the next
    push. The specification is silent on a caller ahead of the current
    version; it is parked like one that is up to date. *)
Definition pullUpdates (caller : nat) (p : string) (known : Z) : M (option (list (Z * Update))) :=
  docs <- gets documents ;;
  match Docs.indexOf p docs, Docs.findDoc p docs with
  | Some idx, Some doc =>
      if Z.ltb known (currentVersion doc) then
        if Z.ltb known (currentVersion doc - Z.of_nat (List.length (updates doc)))
        then throw VersionTooOld
        else ret (Some (updatesSince known (updates doc)))
      else
        modify (setDocuments (Docs.updateAt idx (park caller known) docs)) ;;
        ret None
  | _, _ => throw NotFoundError
  end.

(** Modelled from the spec: [isModified(path)] of the authority, which is
    not among the sources, is [lastSavedVersion != currentVersion]; a path
    that is not loaded is not modified (see the note in [closeFile]). *)
Definition isModified (p : string) (st : DocumentManager) : bool :=
  match Docs.findDoc p (documents st) with
  | Some doc => Docs.modified doc
  | None => false
  end.

(** Modelled from the spec: all loaded documents that are modified. *)
Definition getModifiedDocumentPaths (st : DocumentManager) : list string :=
  map filePath (filter Docs.modified (documents st)).

End Authority.

(** *** Methods of the manager *)

Section Manager.
Context {platform : Platform}.

Definition broadcastEvent (event : DP_EVENTS) (context : EventContext) : M unit :=
  emit (Broadcast event context).

Definition leafContext (windowId leafId : string) (file : option string) : EventContext :=
  mkContext (Some windowId) (Some leafId) file None.

(** [this._windows[windowId]]; a method call on [undefined] throws. *)
Definition theWindow (windowId : string) : M DocumentTree :=
  ws <- gets _windows ;;
  match Windows.lookup windowId ws with
  | Some t => ret t
  | None => throw TypeError
  end.

Definition leafOf (windowId leafId : string) (st : DocumentManager) : option TabManager :=
  match Windows.lookup windowId (_windows st) with
  | Some t => DocTree.findLeaf leafId t
  | None => None
  end.

(** Reads from the strip of a leaf held by reference. *)
Definition readLeaf {A} (windowId leafId : string) (f : TabManager -> A) : M A :=
  fun st =>
    match leafOf windowId leafId st with
    | Some tm => (Ret (f tm), st, [])
    | None => (Throw TypeError, st, [])
    end.

(** A call on the strip of a leaf held by reference: the strip changes in
    place and the call returns a value. *)
Definition leafCall {A} (windowId leafId : string) (f : TabManager -> A * TabManager) : M A :=
  fun st =>
    match leafOf windowId leafId st with
    | Some tm =>
        (Ret (fst (f tm)),
         setWindows
           (Windows.update windowId
              (DocTree.updateLeaf leafId (fun tm' => snd (f tm'))) (_windows st)) st,
         [])
    | None => (Throw TypeError, st, [])
    end.

(** [leaf.parent.removeNode(leaf)] *)
Definition removeLeaf (windowId leafId : string) : M unit :=
  modify (fun st =>
    setWindows (Windows.update windowId (DocTree.removeNode leafId) (_windows st)) st).

Definition libraryOf (d : Document) : list string :=
  match Descriptor.type (descriptor d) with
  | Descriptor.code => []
  | Descriptor.file =>
      match Descriptor.frontmatter (descriptor d) with
      | None => []
      | Some fm =>
          match find (fun kv => String.eqb (fst kv) "bibliography") fm with
          | Some (_, Descriptor.FMString bib) => if isAbsolute bib then [bib] else []
          | _ => []
          end
      end
  end.

Definition synchronizeDatabases : M unit :=
  docs <- gets documents ;;
  emit (SynchronizeDatabases (flat_map libraryOf docs)).

Definition isModified (filePath : string) : M bool :=
  gets (Authority.isModified filePath).

(** **** saveFile

    The method runs up to the call of the I/O capability
    ([saveFile_prepare]), waits for the write, and on success goes on
    ([saveFile_finish]); a failed write rejects the call there. *)

Definition isFile (d : Descriptor.t) : bool :=
  match Descriptor.type d with
  | Descriptor.file => true
  | Descriptor.code => false
  end.

Definition clearSaveTimeout (d : Document) : Document :=
  mkDocument (filePath d) (descriptor d) (document d) (currentVersion d) (lastSavedVersion d)
    (updates d) (pendingPulls d) (lastSavedWordCount d) (lastSavedCharCount d) None.

Definition setCounts (words chars : Z) (d : Document) : Document :=
  mkDocument (filePath d) (descriptor d) (document d) (currentVersion d) (lastSavedVersion d)
    (updates d) (pendingPulls d) words chars (saveTimeout d).

Definition assignDoc (idx : nat) (f : Document -> Document) : M unit :=
  modify (fun st => setDocuments (Docs.updateAt idx f (documents st)) st).

Definition saveFile_prepare (filePath : string) : M (option (Descriptor.t * string)) :=
  docs <- gets documents ;;
  match Docs.indexOf filePath docs, Docs.findDoc filePath docs with
  | Some idx, Some doc =>
      assignDoc idx clearSaveTimeout ;;
      let content := document doc in
      assignDoc idx (fun d => Docs.setLastSaved (currentVersion d) d) ;;
      when (isFile (descriptor doc))
        (let newWordCount := countWords content in
         let newCharCount := countChars content in
         emit (UpdateWordCount (newWordCount - lastSavedWordCount doc)) ;;
         assignDoc idx (setCounts newWordCount newCharCount)) ;;
      modify (fun st => setIgnoreChanges (_ignoreChanges st ++ [filePath]) st) ;;
      emit (FsSave (descriptor doc) content) ;;
      ret (Some (descriptor doc, content))
  | _, _ => ret None
  end.

Definition saveFile_finish (filePath : string) (d : Descriptor.t) : M bool :=
  when (isFile d) synchronizeDatabases ;;
  broadcastEvent CHANGE_FILE_STATUS (mkContext None None (Some filePath) (Some "modification")) ;;
  broadcastEvent FILE_SAVED (mkContext None None (Some filePath) None) ;;
  ret true.

(** [saveFile] with nothing else running while the write is in flight;
    [ioOk] tells whether the write succeeds. *)
Definition saveFile (ioOk : bool) (filePath : string) : M bool :=
  request <- saveFile_prepare filePath ;;
  match request with
  | None => ret false
  | Some (d, _) => if ioOk then saveFile_finish filePath d else throw IOFailure
  end.

(** **** closeFile

    [response] is what [askSaveChanges] answers if it is asked:
    0 = Save, 1 = Don't save, anything else = Cancel. *)

Definition countInstance (filePath : string)
    (tabMan : TabManager) (_ _ : string) (numOpenInstances : nat) : bool * TabManager * nat :=
  (false, tabMan,
   if TabMan.isOpen filePath tabMan then S numOpenInstances else numOpenInstances).

Definition dropDocument (idx : nat) : M unit :=
  modify (fun st => setDocuments (TabMan.removeAt idx (documents st)) st).

Definition afterClose (windowId leafId filePath : string) : M unit :=
  syncToConfig ;;
  syncWatchedFilePaths ;;
  broadcastEvent CLOSE_FILE (leafContext windowId leafId (Some filePath)) ;;
  active <- readLeaf windowId leafId activeFile ;;
  broadcastEvent ACTIVE_FILE (leafContext windowId leafId active) ;;
  remaining <- readLeaf windowId leafId openFiles ;;
  when (Nat.eqb (List.length remaining) 0)
    (removeLeaf windowId leafId ;;
     broadcastEvent LEAF_CLOSED (leafContext windowId leafId None) ;;
     syncToConfig) ;;
  synchronizeDatabases.

(** [closeFile] from the dialog to the end of the branches on its answer
    ([askSaveChanges] up to, not including, the [splice]): "Don't save"
    clears the modification of the document [openFile], "Save" saves the
    file, and any other answer says not to close the file. *)
Definition closeFile_consent (response : Z) (ioOk : bool) (filePath : string)
    (openFile : nat) : M bool :=
  emit AskSaveChanges ;;
  if Z.eqb response 1 then
    assignDoc openFile (fun d => Docs.setLastSaved (currentVersion d) d) ;;
    ret true
  else if Z.eqb response 0 then
    saveFile ioOk filePath ;;
    ret true
  else ret false.

Definition closeFile (response : Z) (ioOk : bool) (windowId leafId filePath : string) : M bool :=
  tree <- theWindow windowId ;;
  match DocTree.findLeaf leafId tree with
  | None => ret false
  | Some _ =>
      numOpenInstances <- forEachLeaf (countInstance filePath) 0 ;;
      docs <- gets documents ;;
      modified <- isModified filePath ;;
      mayClose <-
        match Docs.indexOf filePath docs with
        | Some openFile =>
            if modified && Nat.eqb numOpenInstances 1 then
              consent <- closeFile_consent response ioOk filePath openFile ;;
              if consent : bool then
                dropDocument openFile ;;
                ret true
              else ret false
            else ret true
        | None => ret true
        end ;;
      if mayClose : bool then
        closed <- leafCall windowId leafId (TabMan.closeFile filePath) ;;
        when closed (afterClose windowId leafId filePath) ;;
        ret closed
      else ret false
  end.

(** **** closeFileEverywhere *)

Definition forceClose (filePath : string)
    (key leafId : string) (tabMan : TabManager) (u : unit) : TabManager * unit * list Effect :=
  if TabMan.isOpen filePath tabMan then
    let unpinned := TabMan.setPinnedStatus filePath false tabMan in
    let '(success, closed) := TabMan.closeFile filePath unpinned in
    (closed, u,
     if success : bool then [Broadcast CLOSE_FILE (leafContext key leafId (Some filePath))] else [])
  else (tabMan, u, []).

Definition closeFileEverywhere (filePath : string) : M unit :=
  fun st =>
    let '(ws', _, tr) := visitWindows (forceClose filePath) (_windows st) tt in
    (Ret tt, setWindows ws' st, tr).

(** **** openFile

    [avoidNewTabs] is the configuration value [system.avoidNewTabs] at the
    time of the call; [leafId] and [newTab] may be [undefined]. *)

Definition targetLeaf (leafId : option string) (tree : DocumentTree) : option (string * TabManager) :=
  match leafId with
  | None => nth_error (DocTree.getAllLeafs tree) 0
  | Some l => option_map (fun tm => (l, tm)) (DocTree.findLeaf l tree)
  end.

Definition isTrue (newTab : option bool) : bool :=
  match newTab with
  | Some true => true
  | _ => false
  end.

Definition openFile (avoidNewTabs : bool) (windowId : string) (leafId : option string)
    (filePath : string) (newTab : option bool) : M bool :=
  tree <- theWindow windowId ;;
  match targetLeaf leafId tree with
  | None => ret false
  | Some (leafId, tabMan) =>
      if TabMan.isOpen filePath tabMan then
        leafCall windowId leafId (TabMan.openFile filePath) ;;
        broadcastEvent ACTIVE_FILE (leafContext windowId leafId (Some filePath)) ;;
        ret true
      else
        let active := activeFile tabMan in
        opened <- leafCall windowId leafId (TabMan.openFile filePath) ;;
        match active with
        | Some activePath =>
            modified <- isModified activePath ;;
            when (avoidNewTabs && negb (isTrue newTab) && negb modified)
              (leafCall windowId leafId (TabMan.closeFile activePath) ;;
               syncWatchedFilePaths ;;
               broadcastEvent CLOSE_FILE (leafContext windowId leafId (Some filePath)) ;;
               now <- readLeaf windowId leafId activeFile ;;
               broadcastEvent ACTIVE_FILE (leafContext windowId leafId now))
        | None => ret tt
        end ;;
        when opened (broadcastEvent OPEN_FILE (leafContext windowId leafId (Some filePath))) ;;
        now <- readLeaf windowId leafId activeFile ;;
        broadcastEvent ACTIVE_FILE (leafContext windowId leafId now) ;;
        synchronizeDatabases ;;
        syncToConfig ;;
        ret opened
  end.

(** **** Windows *)

Definition closeWindow (windowId : string) : M unit :=
  shuttingDown <- gets _shuttingDown ;;
  if shuttingDown : bool then ret tt
  else
    ws <- gets _windows ;;
    let isLastWindow := Nat.eqb (List.length ws) 1 in
    when (Windows.hasProperty windowId ws && negb isLastWindow)
      (modify (setWindows (Windows.delete windowId ws)) ;;
       syncToConfig).

Definition windowCount (st : DocumentManager) : nat := List.length (_windows st).

(** [uuid4()] drawn until the key is new; [draws] are the keys the
    generator yields after [key]. *)
Fixpoint freshKey (existingKeys : list string) (key : string) (draws : list string) : option string :=
  if TabMan.includes key existingKeys then
    match draws with
    | [] => None
    | next :: rest => freshKey existingKeys next rest
    end
  else Some key.

(** Modelled from the spec: [new DocumentTree()] is a tree of one empty
    leaf. *)
Definition newTree (leafId : string) : DocumentTree :=
  mkDocumentTree (DTLeaf leafId (mkTabManager [] None)).

Definition newWindow (leafId key : string) (draws : list string) : M unit :=
  ws <- gets _windows ;;
  match freshKey (map fst ws) key draws with
  | None => throw NoFreshKey
  | Some key =>
      modify (setWindows (ws ++ [(key, newTree leafId)])) ;;
      broadcastEvent NEW_WINDOW (mkContext (Some key) None None None) ;;
      syncToConfig
  end.

(** **** Renames *)

Definition moved (newPath : string) (d : Document) : Document :=
  mkDocument newPath
    (Descriptor.mk newPath (dirname newPath) (basename newPath) (extname newPath)
       (Descriptor.type (descriptor d)) (Descriptor.frontmatter (descriptor d)))
    (document d) (currentVersion d) (lastSavedVersion d) (updates d) (pendingPulls d)
    (lastSavedWordCount d) (lastSavedCharCount d) (saveTimeout d).

Definition renameTab (oldPath newPath : string)
    (tabMan : TabManager) (windowId leafId : string) (leafsToNotify : list (string * string))
    : bool * TabManager * list (string * string) :=
  let '(res, tabMan') := TabMan.replaceFilePath oldPath newPath tabMan in
  (res, tabMan', if res : bool then leafsToNotify ++ [(windowId, leafId)] else leafsToNotify).

Definition hasMovedFile (oldPath newPath : string) : M unit :=
  docs <- gets documents ;;
  match Docs.indexOf oldPath docs with
  | None => ret tt
  | Some openDoc =>
      assignDoc openDoc (moved newPath) ;;
      leafsToNotify <- forEachLeaf (renameTab oldPath newPath) [] ;;
      syncWatchedFilePaths ;;
      forM leafsToNotify (fun target =>
        broadcastEvent CLOSE_FILE (leafContext (fst target) (snd target) (Some oldPath)) ;;
        broadcastEvent OPEN_FILE (leafContext (fst target) (snd target) (Some newPath)))
  end.

(** The positions of the documents [filter] keeps: the objects the loop
    of [hasMovedDir] goes through. *)
Fixpoint positionsWhere (f : Document -> bool) (i : nat) (ds : list Document) : list nat :=
  match ds with
  | [] => []
  | d :: rest => if f d then i :: positionsWhere f (S i) rest else positionsWhere f (S i) rest
  end.

Definition hasMovedDir (oldPath newPath : string) : M unit :=
  docs <- gets documents ;;
  forM (positionsWhere (fun doc => JSString.startsWith (filePath doc) oldPath) 0 docs)
    (fun doc =>
       current <- gets (fun st => nth_error (documents st) doc) ;;
       match current with
       | Some d => hasMovedFile (filePath d) (JSString.replace (filePath d) oldPath newPath)
       | None => ret tt
       end).

(** **** The watcher *)

(** [l.splice(l.indexOf(p), 1)] for a [p] that [l] includes. *)
Fixpoint removeFirst (p : string) (l : list string) : list string :=
  match l with
  | [] => []
  | q :: rest => if String.eqb q p then rest else q :: removeFirst p rest
  end.

(** Modelled from the spec: [handleRemoteChange] is not among the sources;
    a change event "asks the DocumentAuthority to reconcile content",
    which is recorded as a request. *)
Definition handleRemoteChange (filePath : string) : M unit :=
  emit (HandleRemoteChange filePath).

(** What the handler does with an event it does not ignore. *)
Definition processEvent (event filePath : string) : M unit :=
  if String.eqb event "unlink" then closeFileEverywhere filePath
  else if String.eqb event "change" then handleRemoteChange filePath
  else ret tt.

(** [this._watcher.on('all', (event, filePath) => ...)] *)
Definition onWatcherEvent (event filePath : string) : M unit :=
  ignored <- gets _ignoreChanges ;;
  if TabMan.includes filePath ignored then
    modify (setIgnoreChanges (removeFirst filePath ignored))
  else processEvent event filePath.

(** **** Smaller requests *)

Definition setPinnedStatus (windowId leafId filePath : string) (shouldBePinned : bool) : M unit :=
  tree <- theWindow windowId ;;
  match DocTree.findLeaf leafId tree with
  | None => ret tt
  | Some _ =>
      leafCall windowId leafId (fun tm => (tt, TabMan.setPinnedStatus filePath shouldBePinned tm)) ;;
      broadcastEvent CHANGE_FILE_STATUS
        (mkContext (Some windowId) (Some leafId) (Some filePath) (Some "pinned")) ;;
      syncToConfig
  end.

Definition closeLeaf (windowId leafId : string) : M unit :=
  tree <- theWindow windowId ;;
  match DocTree.findLeaf leafId tree with
  | None => ret tt
  | Some _ =>
      removeLeaf windowId leafId ;;
      broadcastEvent LEAF_CLOSED (leafContext windowId leafId None)
  end.

(** [splice(idx, 1)] with the result of [findIndex]: an index of -1 takes
    the last element away. *)
Definition notifyRemoteChange (filePath : string) : M unit :=
  docs <- gets documents ;;
  modify (setDocuments
    (match Docs.indexOf filePath docs with
     | Some idx => TabMan.removeAt idx docs
     | None => removelast docs
     end)) ;;
  broadcastEvent FILE_REMOTELY_CHANGED (mkContext None None (Some filePath) None).

(** **** Requests

    The requests modelled here, as one type, with the answers of the
    collaborators they wait for. *)
Inductive Request :=
| ReqOpenFile (avoidNewTabs : bool) (windowId : string) (leafId : option string)
    (filePath : string) (newTab : option bool)
| ReqCloseFile (response : Z) (ioOk : bool) (windowId leafId filePath : string)
| ReqCloseFileEverywhere (filePath : string)
| ReqSaveFile (ioOk : bool) (filePath : string)
| ReqPushUpdates (filePath : string) (version : Z) (updates : list Update)
| ReqPullUpdates (caller : nat) (filePath : string) (version : Z)
| ReqCloseWindow (windowId : string)
| ReqNewWindow (leafId key : string) (draws : list string)
| ReqHasMovedFile (oldPath newPath : string)
| ReqHasMovedDir (oldPath newPath : string)
| ReqWatcherEvent (event filePath : string)
| ReqSetPinned (windowId leafId filePath : string) (pinned : bool)
| ReqCloseLeaf (windowId leafId : string)
| ReqNotifyRemoteChange (filePath : string)
| ReqSyncWatchedFilePaths.

Definition discard {A} (m : M A) : M unit := m ;; ret tt.

Definition handle (r : Request) : M unit :=
  match r with
  | ReqOpenFile a w l f n => discard (openFile a w l f n)
  | ReqCloseFile r io w l f => discard (closeFile r io w l f)
  | ReqCloseFileEverywhere f => closeFileEverywhere f
  | ReqSaveFile io f => discard (saveFile io f)
  | ReqPushUpdates f v us => discard (Authority.pushUpdates f v us)
  | ReqPullUpdates c f v => discard (Authority.pullUpdates c f v)
  | ReqCloseWindow w => closeWindow w
  | ReqNewWindow l k ds => newWindow l k ds
  | ReqHasMovedFile o n => hasMovedFile o n
  | ReqHasMovedDir o n => hasMovedDir o n
  | ReqWatcherEvent e f => onWatcherEvent e f
  | ReqSetPinned w l f b => setPinnedStatus w l f b
  | ReqCloseLeaf w l => closeLeaf w l
  | ReqNotifyRemoteChange f => notifyRemoteChange f
  | ReqSyncWatchedFilePaths => syncWatchedFilePaths
  end.

(** The manager after a run of requests, each taken up where the one
    before left the manager, whether it returned or threw. *)
Fixpoint runAll (rs : list Request) (st : DocumentManager) : DocumentManager :=
  match rs with
  | [] => st
  | r :: rest => runAll rest (stateOf (handle r st))
  end.
End Manager.

(** ** A platform for the examples

    POSIX readings of the path functions and plain counters, to run the
    manager on concrete inputs. *)

Module Posix.

Fixpoint hasChar (c : ascii) (s : string) : bool :=
  match s with
  | EmptyString => false
  | String x rest => Ascii.eqb x c || hasChar c rest
  end.

Fixpoint afterLast (c : ascii) (s : string) : string :=
  match s with
  | EmptyString => EmptyString
  | String x rest =>
      if hasChar c rest then afterLast c rest
      else if Ascii.eqb x c then rest else s
  end.

Fixpoint beforeLast (c : ascii) (s : string) : string :=
  match s with
  | EmptyString => EmptyString
  | String x rest => if hasChar c rest then String x (beforeLast c rest) else EmptyString
  end.

Definition dirname (s : string) : string :=
  if hasChar "/" s then
    match beforeLast "/" s with
    | EmptyString => "/"
    | d => d
    end
  else ".".

Definition basename (s : string) : string := afterLast "/" s.

Definition extname (s : string) : string :=
  match basename s with
  | EmptyString => EmptyString
  | String _ rest => if hasChar "." rest then String "." (afterLast "." rest) else EmptyString
  end.

Definition isAbsolute (s : string) : bool := String.prefix "/" s.

Definition isSpace (c : ascii) : bool := Ascii.eqb c " " || Ascii.eqb c "010".

Fixpoint wordsFrom (inWord : bool) (s : string) : Z :=
  match s with
  | EmptyString => 0
  | String c rest =>
      if isSpace c then wordsFrom false rest
      else ((if inWord then 0 else 1) + wordsFrom true rest)%Z
  end.

Fixpoint charsOf (s : string) : Z :=
  match s with
  | EmptyString => 0
  | String c rest => ((if isSpace c then 0 else 1) + charsOf rest)%Z
  end.

#[export] Instance platform : Platform := {
  dirname := dirname;
  basename := basename;
  extname := extname;
  isAbsolute := isAbsolute;
  countWords := wordsFrom false;
  countChars := charsOf
}.

End Posix.

(** ** Vocabulary of the statements *)

(** The number of leaves, in any window, whose strip holds [p]. *)
Definition instances (p : string) (st : DocumentManager) : nat :=
  List.length (filter (fun l => TabMan.isOpen p (snd l)) (Windows.allLeafs (_windows st))).

(** [p] is open in some leaf of some window. *)
Definition referenced (p : string) (st : DocumentManager) : Prop :=
  exists l, In l (Windows.allLeafs (_windows st)) /\ TabMan.isOpen p (snd l) = true.

(** The keys of the dictionary of windows are pairwise different, as the
    keys of an object are. *)
Definition distinctKeys (st : DocumentManager) : Prop := NoDup (map fst (_windows st)).

(** Every strip of every window keeps its paths unique. *)
Definition uniqueTabs (st : DocumentManager) : Prop :=
  Forall (fun l => TabMan.unique (snd l)) (Windows.allLeafs (_windows st)).

(** What [closeFileEverywhere] does to one strip. *)
Definition forceClosed (p : string) (tm : TabManager) : TabManager :=
  if TabMan.isOpen p tm
  then snd (TabMan.closeFile p (TabMan.setPinnedStatus p false tm))
  else tm.

(** The watcher calls of a trace. *)
Definition watcherCalls (tr : list Effect) : list Effect := filter isWatcherCall tr.

Definition isPrompt (e : Effect) : bool :=
  match e with
  | AskSaveChanges => true
  | _ => false
  end.

(** The consent dialogs of a trace. *)
Definition prompts (tr : list Effect) : list Effect := filter isPrompt tr.

Definition isWrite (e : Effect) : bool :=
  match e with
  | FsSave _ _ => true
  | _ => false
  end.

(** An edit arriving while something else waits: a push to the authority. *)
Definition Edit : Type := string * Z * list Update.

Definition runEdits (es : list Edit) (st : DocumentManager) : DocumentManager :=
  fold_left (fun s e => stateOf (Authority.pushUpdates (fst (fst e)) (snd (fst e)) (snd e) s)) es st.

(** How often [p] is entered in the ignore list. *)
Definition entries (p : string) (l : list string) : nat := count_occ string_dec l p.

(** The paths of the loaded documents. *)
Definition trackedPaths (st : DocumentManager) : list string := map filePath (documents st).

(** The document as [saveFile] leaves it when it calls the I/O capability:
    timer cleared, marked saved at its current version, and for a Markdown
    file the counters of the text [content] recorded. *)
Definition markedSaved {platform : Platform} (count : bool) (content : string) (d : Document) : Document :=
  let d' := Docs.setLastSaved (currentVersion d) (clearSaveTimeout d) in
  if count then setCounts (countWords content) (countChars content) d' else d'.

(** The version counters of [d'] continue those of [d]: same path, same
    saved version, a current version that is not smaller. *)
Definition continues (d d' : Document) : Prop :=
  filePath d' = filePath d /\
  lastSavedVersion d' = lastSavedVersion d /\
  (currentVersion d <= currentVersion d')%Z.

(** The tree with [g] applied to the strip of every leaf. *)
Fixpoint mapNode (g : TabManager -> TabManager) (n : DTNode) : DTNode :=
  match n with
  | DTLeaf i tm => DTLeaf i (g tm)
  | DTBranch b d ns => DTBranch b d (map (mapNode g) ns)
  end.

Definition mapWindows (g : TabManager -> TabManager)
    (ws : list (string * DocumentTree)) : list (string * DocumentTree) :=
  map (fun e => (fst e, mkDocumentTree (mapNode g (node (snd e))))) ws.

Definition onStrip (g : TabManager -> TabManager) (l : string * TabManager) : string * TabManager :=
  (fst l, g (snd l)).

(** The answers of [askSaveChanges], as [closeFile] numbers them. *)
Definition Save : Z := 0.
Definition Discard : Z := 1.
Definition Cancel : Z := 2.

(** The watched paths after the first loop of [syncWatchedFilePaths] went
    through [l]: every path of [l] that is not open is unwatched. *)
Definition afterUnwatch (openFiles l watched : list string) : list string :=
  fold_left
    (fun w f => if negb (TabMan.includes f openFiles)
                then filter (fun q => negb (String.eqb q f)) w else w)
    l watched.

(** The watched paths after the second loop went through [l]: every path
    of [l] that was not watched at the start is added. *)
Definition afterAdd (watchedFiles l watched : list string) : list string :=
  fold_left
    (fun w f => if negb (TabMan.includes f watchedFiles)
                then (if TabMan.includes f w then w else w ++ [f]) else w)
    l watched.

Definition unwatchCalls (openFiles l : list string) : list Effect :=
  map WatcherUnwatch (filter (fun f => negb (TabMan.includes f openFiles)) l).

Definition addCalls (watchedFiles l : list string) : list Effect :=
  map WatcherAdd (filter (fun f => negb (TabMan.includes f watchedFiles)) l).

(** The watched paths [syncWatchedFilePaths] leaves. *)
Definition syncedWatcher (st : DocumentManager) : list string :=
  afterAdd (_watcher st) (getOpenFiles st)
    (afterUnwatch (getOpenFiles st) (_watcher st) (_watcher st)).

(** The manager once [closeFile] has dealt with a leaf whose strip is now
    [tm]: a leaf left without tabs is taken out of its tree. *)
Definition emptyLeafRemoved (windowId leafId : string) (tm : TabManager)
    (st : DocumentManager) : DocumentManager :=
  if Nat.eqb (List.length (openFiles tm)) 0
  then setWindows (Windows.update windowId (DocTree.removeNode leafId) (_windows st)) st
  else st.

(** The documents after the user chose not to save the one at [idx]: it is
    marked saved at its current version and then dropped from the list. *)
Definition discarded (idx : nat) (docs : list Document) : list Document :=
  TabMan.removeAt idx (Docs.updateAt idx (fun d => Docs.setLastSaved (currentVersion d) d) docs).

(** The strip of a leaf after [closeFile(p)] ran on it. *)
Definition tabClosed (p : string) (tm : TabManager) : TabManager := snd (TabMan.closeFile p tm).

(** [m] keeps the property [P] of the manager, whether it returns or
    throws. *)
Definition preserves (P : DocumentManager -> Prop) {A} (m : M A) : Prop :=
  forall st, P st -> P (stateOf (m st)).

(** The dictionary of windows has the keys [K], in this order. *)
Definition keysAre (K : list string) (st : DocumentManager) : Prop :=
  map fst (_windows st) = K.

(** The strip of a leaf after [openFile(p)] ran on it. *)
Definition tabOpened (p : string) (tm : TabManager) : TabManager := snd (TabMan.openFile p tm).

(** Whether [openFile] closes the formerly active file [a]. *)
Definition replacesActive (avoidNewTabs : bool) (newTab : option bool) (a : string)
    (st : DocumentManager) : bool :=
  avoidNewTabs && negb (isTrue newTab) && negb (Authority.isModified a st).

(** The path [hasMovedDir] is said to give a document: the first occurrence
    of [oldPath] gives way to [newPath] if the path starts with [oldPath]. *)
Definition movedPath (oldPath newPath q : string) : string :=
  if JSString.startsWith q oldPath then JSString.replaceLiteral q oldPath newPath else q.

(** One turn of the loop of [hasMovedDir], on the list of documents: the
    document at position [pos] gives the path to look up, and the first
    document with that path is the one that moves. *)
Definition moveStep {platform : Platform} (oldPath newPath : string)
    (ds : list Document) (pos : nat) : list Document :=
  match nth_error ds pos with
  | Some d =>
      match Docs.indexOf (filePath d) ds with
      | Some idx => Docs.updateAt idx (moved (JSString.replace (filePath d) oldPath newPath)) ds
      | None => ds
      end
  | None => ds
  end.

(** The document as the loop of [hasMovedDir] is meant to leave it. *)
Definition movedDoc {platform : Platform} (oldPath newPath : string) (d : Document) : Document :=
  if JSString.startsWith (filePath d) oldPath
  then moved (JSString.replace (filePath d) oldPath newPath) d
  else d.

(** The CLOSE_FILE events of [closeFileEverywhere]: one for every leaf that
    holds the path, in the order of the loop. *)
Definition closeEvents (p : string) (ws : list (string * DocumentTree)) : list Effect :=
  flat_map (fun w =>
              flat_map (fun l =>
                          if TabMan.isOpen p (snd l)
                          then [Broadcast CLOSE_FILE (leafContext (fst w) (fst l) (Some p))]
                          else [])
                       (DocTree.getAllLeafs (snd w))) ws.

(** The strip of a leaf after [replaceFilePath(old, new)] ran on it. *)
Definition tabRenamed (oldPath newPath : string) (tm : TabManager) : TabManager :=
  snd (TabMan.replaceFilePath oldPath newPath tm).

(** The leaves that hold [p], as pairs of window key and leaf id, in the
    order the loops visit them. *)
Definition holders (p : string) (ws : list (string * DocumentTree)) : list (string * string) :=
  flat_map (fun w =>
              flat_map (fun l => if TabMan.isOpen p (snd l) then [(fst w, fst l)] else [])
                       (DocTree.getAllLeafs (snd w))) ws.

(** The two events [hasMovedFile] sends for a leaf it renamed a tab in. *)
Definition renameEvents (oldPath newPath : string) (target : string * string) : list Effect :=
  [Broadcast CLOSE_FILE (leafContext (fst target) (snd target) (Some oldPath));
   Broadcast OPEN_FILE (leafContext (fst target) (snd target) (Some newPath))].

(** The effects at the end of [openFile] when a tab was opened. *)
Definition openedEffects {platform : Platform} (windowId lid filePath : string)
    (st : DocumentManager) : list Effect :=
  [Broadcast OPEN_FILE (leafContext windowId lid (Some filePath));
   Broadcast ACTIVE_FILE (leafContext windowId lid (Some filePath));
   SynchronizeDatabases (flat_map libraryOf (documents st));
   ConfigSet].

(** The reports to the statistics of written words. *)
Definition isWordCount (e : Effect) : bool :=
  match e with
  | UpdateWordCount _ => true
  | _ => false
  end.

(** ** Further methods of the manager *)

(** [leafIds(windowId)]: behind the test with [in], an inherited name finds
    no tree, and the call of [getAllLeafs] throws. *)
Definition leafIds (windowId : string) (st : DocumentManager) : Outcome (list string) :=
  if Windows.hasProperty windowId (_windows st) then
    match Windows.lookup windowId (_windows st) with
    | Some tree => Ret (map fst (DocTree.getAllLeafs tree))
    | None => Throw TypeError
    end
  else Ret [].

(** [getActiveFile(leafId)]: the windows are searched in the order of their
    keys, the first tree that knows the leaf answers. *)
Fixpoint activeFileIn (leafId : string) (ws : list (string * DocumentTree)) : option string :=
  match ws with
  | [] => None
  | (_, tree) :: rest =>
      match DocTree.findLeaf leafId tree with
      | Some tabMan => activeFile tabMan
      | None => activeFileIn leafId rest
      end
  end.

Definition getActiveFile (leafId : string) (st : DocumentManager) : option string :=
  activeFileIn leafId (_windows st).

(** The second argument of [isClean]. *)
Inductive Which := whichWindow | whichLeaf.

(** [for (const file of leaf.tabMan.openFiles) if (modPaths.includes(file.path))] *)
Definition holdsModified (modPaths : list string) (tabMan : TabManager) : bool :=
  existsb (fun file => TabMan.includes (path file) modPaths) (openFiles tabMan).

Definition isClean (id : option string) (which : option Which) : M bool :=
  modPaths <- gets Authority.getModifiedDocumentPaths ;;
  match id with
  | None => ret (Nat.eqb (List.length modPaths) 0)
  | Some id =>
      match which with
      | Some whichWindow =>
          tree <- theWindow id ;;
          ret (negb (existsb (fun leaf => holdsModified modPaths (snd leaf))
                       (DocTree.getAllLeafs tree)))
      | _ =>
          ws <- gets _windows ;;
          ret (negb (existsb (fun e =>
                               match DocTree.findLeaf id (snd e) with
                               | Some tabMan => holdsModified modPaths tabMan
                               | None => false
                               end) ws))
      end
  end.

(** [moveFile]: [origin] and [target] are the leaves found at the start;
    the calls on their strips go to those leaves. *)
Definition moveFile (originWindow targetWindow originLeaf targetLeaf filePath : string) : M unit :=
  originTree <- theWindow originWindow ;;
  targetTree <- theWindow targetWindow ;;
  match DocTree.findLeaf originLeaf originTree, DocTree.findLeaf targetLeaf targetTree with
  | Some _, Some _ =>
      success <- leafCall targetWindow targetLeaf (TabMan.openFile filePath) ;;
      when success
        (broadcastEvent OPEN_FILE (leafContext targetWindow targetLeaf (Some filePath)) ;;
         broadcastEvent ACTIVE_FILE (leafContext targetWindow targetLeaf None) ;;
         syncToConfig) ;;
      count <- readLeaf originWindow originLeaf (fun tabMan => List.length (openFiles tabMan)) ;;
      if Nat.eqb count 1 then
        closeLeaf originWindow originLeaf ;;
        syncToConfig
      else
        success <- leafCall originWindow originLeaf (TabMan.closeFile filePath) ;;
        if success : bool then
          broadcastEvent CLOSE_FILE (leafContext originWindow originLeaf (Some filePath)) ;;
          broadcastEvent ACTIVE_FILE (leafContext originWindow originLeaf None) ;;
          syncToConfig
        else ret tt
  | _, _ => ret tt
  end.

(** What [moveFile] sends, given whether the target already held the file,
    the number of tabs of the origin and whether the origin held the
    file. *)
Definition moveEvents (originWindow targetWindow originLeaf targetLeaf filePath : string)
    (inTarget : bool) (originTabs : nat) (inOrigin : bool) : list Effect :=
  (if inTarget then []
   else [Broadcast OPEN_FILE (leafContext targetWindow targetLeaf (Some filePath));
         Broadcast ACTIVE_FILE (leafContext targetWindow targetLeaf None);
         ConfigSet])
  ++ (if Nat.eqb originTabs 1
      then [Broadcast LEAF_CLOSED (leafContext originWindow originLeaf None); ConfigSet]
      else if inOrigin
           then [Broadcast CLOSE_FILE (leafContext originWindow originLeaf (Some filePath));
                 Broadcast ACTIVE_FILE (leafContext originWindow originLeaf None);
                 ConfigSet]
           else []).

(** Every effect of [m], from whatever manager it starts, satisfies [T]. *)
Definition emitsOnly (T : Effect -> Prop) {A} (m : M A) : Prop :=
  forall st, Forall T (traceOf (m st)).

(** Effects that neither ask the user nor write a file. *)
Definition silent (e : Effect) : Prop := isPrompt e = false /\ isWrite e = false.

(** ** boot

    [this._windows[key] = tree]: a new key goes behind the others, a key
    in use keeps its place. *)
Definition assignWindow (key : string) (tree : DocumentTree)
    (ws : list (string * DocumentTree)) : list (string * DocumentTree) :=
  if Windows.has key ws then Windows.update key (fun _ => tree) ws else ws ++ [(key, tree)].

(** The inner loop of [boot] on one strip: of the paths the strip has at
    the start, those that [fs.access] rejects are closed. *)
Definition pruneStrip (accessible : string -> bool) (tabMan : TabManager) : TabManager :=
  fold_left (fun tm file => if accessible file : bool then tm else snd (TabMan.closeFile file tm))
            (TabMan.paths tabMan) tabMan.

(** The loop of [boot] over the leaves of one tree: every strip is pruned,
    and a leaf left without tabs is taken out of the tree. *)
Definition pruneTree (accessible : string -> bool) (tree : DocumentTree) : DocumentTree :=
  let pruned := mkDocumentTree (mapNode (pruneStrip accessible) (node tree)) in
  fold_left (fun t leaf =>
               if Nat.eqb (List.length (openFiles (snd leaf))) 0
               then DocTree.removeNode (fst leaf) t else t)
            (DocTree.getAllLeafs pruned) pruned.

(** One turn of the loop over the stored windows; [None] stands for a
    stored tree that [DocumentTree.fromJSON] rejects: the exception is
    caught and logged, and the window is skipped. *)
Definition mountWindow (accessible : string -> bool) (entry : string * option DocumentTree)
    : M unit :=
  match snd entry with
  | None => ret tt
  | Some tree =>
      modify (fun st =>
        setWindows (assignWindow (fst entry) (pruneTree accessible tree) (_windows st)) st) ;;
      broadcastEvent NEW_WINDOW (mkContext (Some (fst entry)) None None None)
  end.

(** [boot] from the point where the stored trees have been read:
    [treedata] is what [_config.get()] answered, in the order of its keys;
    [accessible] tells what [fs.access] says; [key] and [leafId] are the
    identifiers drawn for the window that is made if nothing is stored.
    The registration of the listener of the authority and the
    initialisation of an empty store come before and touch neither the
    windows nor the documents. *)
Definition boot {platform : Platform} (accessible : string -> bool)
    (treedata : list (string * option DocumentTree)) (key leafId : string) : M unit :=
  forM treedata (mountWindow accessible) ;;
  when (Nat.eqb (List.length treedata) 0)
    (modify (fun st => setWindows (assignWindow key (newTree leafId) (_windows st)) st) ;;
     broadcastEvent NEW_WINDOW (mkContext (Some key) None None None)) ;;
  syncWatchedFilePaths ;;
  synchronizeDatabases ;;
  syncToConfig.




(** ** Which request touches which part of the manager *)

Definition touchesWindows (r : Request) : bool :=
  match r with
  | ReqSaveFile _ _ | ReqPushUpdates _ _ _ | ReqPullUpdates _ _ _
  | ReqNotifyRemoteChange _ | ReqSyncWatchedFilePaths => false
  | _ => true
  end.

Definition touchesDocuments (r : Request) : bool :=
  match r with
  | ReqSaveFile _ _ | ReqCloseFile _ _ _ _ _ | ReqPushUpdates _ _ _ | ReqPullUpdates _ _ _
  | ReqHasMovedFile _ _ | ReqHasMovedDir _ _ | ReqNotifyRemoteChange _ => true
  | _ => false
  end.

Definition touchesIgnoreList (r : Request) : bool :=
  match r with
  | ReqSaveFile _ _ | ReqCloseFile _ _ _ _ _ | ReqWatcherEvent _ _ => true
  | _ => false
  end.

Definition touchesWatcher (r : Request) : bool :=
  match r with
  | ReqOpenFile _ _ _ _ _ | ReqCloseFile _ _ _ _ _ | ReqHasMovedFile _ _ | ReqHasMovedDir _ _
  | ReqSyncWatchedFilePaths => true
  | _ => false
  end.

(** ** Managers for the examples *)

Module Ex.

Definition descriptorOf (p : string) : Descriptor.t :=
  Descriptor.mk p (Posix.dirname p) (Posix.basename p) (Posix.extname p) Descriptor.file None.

(** A loaded document at version [current], saved at version [saved]. *)
Definition doc (p text : string) (current saved : Z) : Document :=
  mkDocument p (descriptorOf p) text current saved [] [] 0 0 None.

Definition tab (p : string) : OpenDocument := mkOpenDocument p false.

Definition pinnedTab (p : string) : OpenDocument := mkOpenDocument p true.

Definition leaf (i : string) (tabs : list OpenDocument) (active : option string) : DTNode :=
  DTLeaf i (mkTabManager tabs active).

Definition insertX : Update := mkUpdate [Insert 0 "x"] "c1".

Definition deleteB : Update := mkUpdate [Delete 1 2] "c1".

(** No window, one document at version 3, saved. *)
Definition authorityOnly : DocumentManager :=
  mkManager [] [doc "/n/a.md" "abc" 3 3] [] [] false.

(** Two windows: the first split into the leaves [l1] (tabs a and b) and
    [l2] (tab c), the second a single leaf [l3] (tabs b, pinned, and d).
    Documents c and d have unsaved changes. *)
Definition desk : DocumentManager :=
  mkManager
    [("w1", mkDocumentTree
              (DTBranch "b1" horizontal
                 [leaf "l1" [tab "/n/a.md"; tab "/n/b.md"] (Some "/n/a.md");
                  leaf "l2" [tab "/n/c.md"] (Some "/n/c.md")]));
     ("w2", mkDocumentTree
              (leaf "l3" [pinnedTab "/n/b.md"; tab "/n/d.md"] (Some "/n/b.md")))]
    [doc "/n/a.md" "alpha" 3 3; doc "/n/b.md" "beta" 2 2;
     doc "/n/c.md" "gamma" 5 4; doc "/n/d.md" "delta" 1 0]
    []
    ["/n/a.md"; "/n/b.md"; "/n/c.md"; "/n/d.md"]
    false.

(** One window with one leaf; the documents f and h lie in the directories
    [/a/b] and [/a/c], the document g in [/a/bc]. *)
Definition shelf : DocumentManager :=
  mkManager
    [("w1", mkDocumentTree
              (leaf "l1" [tab "/a/b/f.md"; tab "/a/bc/g.md"; tab "/a/c/h.md"]
                 (Some "/a/b/f.md")))]
    [doc "/a/b/f.md" "f" 0 0; doc "/a/bc/g.md" "g" 0 0; doc "/a/c/h.md" "h" 0 0]
    []
    ["/a/b/f.md"; "/a/bc/g.md"; "/a/c/h.md"]
    false.

(** Two documents, the second in a directory whose name continues the name
    of the directory of the first. *)
Definition twins : DocumentManager :=
  mkManager
    [("w1", mkDocumentTree (leaf "l1" [tab "/a/b/x"; tab "/a/bb/x"] (Some "/a/b/x")))]
    [doc "/a/b/x" "first" 0 0; doc "/a/bb/x" "second" 0 0]
    []
    ["/a/b/x"; "/a/bb/x"]
    false.

(** A manager before [boot]: no windows, nothing loaded, nothing watched. *)
Definition blank : DocumentManager := mkManager [] [] [] [] false.



End Ex.

(** * Properties *)

Unset Implicit Arguments.

(** ** Running the monad *)

Ltac unfold_m :=
  unfold bind, gets, modify, emit, ret, throw, when, outcomeOf, stateOf, traceOf in *.

Lemma forM_emit {A} (g : A -> Effect) (l : list A) (st : DocumentManager) :
  forM l (fun x => emit (g x)) st = (Ret tt, st, map g l).
Proof.
  induction l as [|x l IH]; simpl.
  - reflexivity.
  - unfold bind at 1. unfold emit at 1. rewrite IH. reflexivity.
Qed.

Lemma bind_eq {A B} (m : M A) (k : A -> M B) st a st1 t1 o st2 t2 :
  m st = (Ret a, st1, t1) ->
  k a st1 = (o, st2, t2) ->
  bind m k st = (o, st2, t1 ++ t2).
Proof. intros Hm Hk. unfold bind. rewrite Hm, Hk. reflexivity. Qed.

Lemma bind_throw {A B} (m : M A) (k : A -> M B) st e st1 t1 :
  m st = (Throw e, st1, t1) ->
  bind m k st = (Throw e, st1, t1).
Proof. intros Hm. unfold bind. rewrite Hm. reflexivity. Qed.

(** One statement of a method: the first action runs by computation or by
    [tac], the rest is left to go on with. *)
Ltac step_with tac := eapply bind_eq; [ tac | cbv beta ].
Ltac step := step_with ltac:(reflexivity).

(** ** Documents found by path *)

Lemma indexOf_findDoc p ds d :
  Docs.findDoc p ds = Some d ->
  exists i, Docs.indexOf p ds = Some i /\ nth_error ds i = Some d /\ filePath d = p.
Proof.
  unfold Docs.findDoc.
  induction ds as [|x ds IH]; simpl; intros Hf.
  - discriminate.
  - destruct (Docs.hasPath p x) eqn:Hx.
    + inversion Hf; subst. exists 0. repeat split.
      apply String.eqb_eq. exact Hx.
    + destruct (IH Hf) as (i & Hi & Hn & Hp).
      exists (S i). rewrite Hi. auto.
Qed.

Lemma indexOf_None_findDoc p ds :
  Docs.indexOf p ds = None -> Docs.findDoc p ds = None.
Proof.
  unfold Docs.findDoc.
  induction ds as [|x ds IH]; simpl; intros Hi.
  - reflexivity.
  - destruct (Docs.hasPath p x).
    + discriminate.
    + destruct (Docs.indexOf p ds); [discriminate|]. auto.
Qed.

Lemma indexOf_Some_findDoc p ds i :
  Docs.indexOf p ds = Some i ->
  exists d, Docs.findDoc p ds = Some d /\ nth_error ds i = Some d /\ filePath d = p.
Proof.
  intros Hi.
  destruct (Docs.findDoc p ds) as [d|] eqn:Hf.
  - destruct (indexOf_findDoc _ _ _ Hf) as (j & Hj & Hn & Hp).
    rewrite Hi in Hj. inversion Hj; subst. eauto.
  - assert (Docs.indexOf p ds = None).
    { clear Hi. unfold Docs.findDoc in Hf.
      induction ds as [|x ds IH]; simpl in *; [reflexivity|].
      destruct (Docs.hasPath p x); [discriminate|].
      rewrite (IH Hf). reflexivity. }
    congruence.
Qed.

(** Assigning fields of the found document, its path kept: it is still the
    one found. *)
Lemma findDoc_updateAt p ds i d f :
  Docs.indexOf p ds = Some i ->
  Docs.findDoc p ds = Some d ->
  filePath (f d) = filePath d ->
  Docs.findDoc p (Docs.updateAt i f ds) = Some (f d) /\
  Docs.indexOf p (Docs.updateAt i f ds) = Some i.
Proof.
  unfold Docs.findDoc.
  revert i. induction ds as [|x ds IH]; simpl; intros i Hi Hf Hp.
  - discriminate.
  - destruct (Docs.hasPath p x) eqn:Hx.
    + inversion Hi; subst. inversion Hf; subst. simpl.
      unfold Docs.hasPath in *. rewrite Hp, Hx. auto.
    + destruct (Docs.indexOf p ds) as [j|] eqn:Hj; [|discriminate].
      inversion Hi; subst. simpl. rewrite Hx.
      destruct (IH j eq_refl Hf Hp) as [H1 H2]. rewrite H1, H2. auto.
Qed.

(** ** C1: pushUpdates *)

Lemma pushUpdates_stale st p baseVersion us doc :
  Docs.findDoc p (documents st) = Some doc ->
  baseVersion <> currentVersion doc ->
  Authority.pushUpdates p baseVersion us st = (Throw StaleBase, st, []).
Proof.
  intros Hf Hv.
  destruct (indexOf_findDoc _ _ _ Hf) as (i & Hi & Hn & Hp).
  unfold Authority.pushUpdates. unfold_m.
  rewrite Hi, Hf.
  apply Z.eqb_neq in Hv. rewrite Hv. reflexivity.
Qed.

Lemma pushUpdates_accepted st p us doc :
  Docs.findDoc p (documents st) = Some doc ->
  exists st' tr,
    Authority.pushUpdates p (currentVersion doc) us st
      = (Ret (currentVersion doc + Z.of_nat (List.length us))%Z, st', tr) /\
    Docs.findDoc p (documents st') = Some (Authority.accept us doc).
Proof.
  intros Hf.
  destruct (indexOf_findDoc _ _ _ Hf) as (i & Hi & Hn & Hp).
  unfold Authority.pushUpdates. unfold bind at 1. unfold gets at 1.
  rewrite Hi, Hf, Z.eqb_refl. cbn [negb].
  unfold bind at 1. unfold modify at 1.
  unfold bind at 1. rewrite forM_emit.
  unfold ret. cbn [app].
  eexists _, _. split; [reflexivity|].
  cbn [documents setDocuments].
  apply (findDoc_updateAt _ _ _ _ (fun _ => Authority.accept us doc) Hi Hf eq_refl).
Qed.

(** C1. A push on a base version other than the document's current version
    fails with [StaleBase] and leaves the manager, hence the text, the
    version and the backlog, as they were; a push on the current version
    succeeds, returns the new version, and the document then has its version
    advanced by the number of updates, its text with the updates applied in
    order, and its backlog extended by them. *)
Theorem pushUpdates_stale_or_advance :
  forall (st : DocumentManager) (p : string) (baseVersion : Z) (us : list Update) (doc : Document),
    Docs.findDoc p (documents st) = Some doc ->
    (baseVersion <> currentVersion doc ->
       Authority.pushUpdates p baseVersion us st = (Throw StaleBase, st, [])) /\
    (baseVersion = currentVersion doc ->
       exists st' tr doc',
         Authority.pushUpdates p baseVersion us st
           = (Ret (currentVersion doc + Z.of_nat (List.length us))%Z, st', tr) /\
         Docs.findDoc p (documents st') = Some doc' /\
         currentVersion doc' = (currentVersion doc + Z.of_nat (List.length us))%Z /\
         document doc' = fold_left Authority.applyUpdate us (document doc) /\
         updates doc' = updates doc ++ Authority.tagFrom (currentVersion doc) us /\
         lastSavedVersion doc' = lastSavedVersion doc).
Proof.
  intros st p baseVersion us doc Hf.
  split; intros Hv.
  - apply pushUpdates_stale with (doc := doc); assumption.
  - subst baseVersion.
    destruct (pushUpdates_accepted st p us doc Hf) as (st' & tr & Hrun & Hf').
    exists st', tr, (Authority.accept us doc).
    repeat split; assumption.
Qed.

(** ** C2: saveFile *)

Lemma updateAt_twice i (f g : Document -> Document) ds :
  Docs.updateAt i g (Docs.updateAt i f ds) = Docs.updateAt i (fun d => g (f d)) ds.
Proof.
  revert i. induction ds as [|x ds IH]; intros [|i]; simpl; try reflexivity.
  rewrite IH. reflexivity.
Qed.

Lemma updateAt_ext i (f g : Document -> Document) ds :
  (forall d, f d = g d) -> Docs.updateAt i f ds = Docs.updateAt i g ds.
Proof.
  intros H. revert i. induction ds as [|x ds IH]; intros [|i]; simpl; try reflexivity.
  - rewrite H. reflexivity.
  - rewrite IH. reflexivity.
Qed.

Section SaveFile.
Context {platform : Platform}.

(** [saveFile] up to the call of the I/O capability, on a loaded path. *)
Lemma saveFile_prepare_found st p i doc :
  Docs.indexOf p (documents st) = Some i ->
  Docs.findDoc p (documents st) = Some doc ->
  saveFile_prepare p st =
    (Ret (Some (descriptor doc, document doc)),
     setIgnoreChanges (_ignoreChanges st ++ [p])
       (setDocuments
          (Docs.updateAt i (markedSaved (isFile (descriptor doc)) (document doc)) (documents st))
          st),
     (if isFile (descriptor doc)
      then [UpdateWordCount (countWords (document doc) - lastSavedWordCount doc)]
      else []) ++ [FsSave (descriptor doc) (document doc)]).
Proof.
  intros Hi Hf.
  unfold saveFile_prepare. unfold bind at 1. unfold gets at 1.
  rewrite Hi, Hf.
  unfold markedSaved.
  destruct (isFile (descriptor doc)); unfold assignDoc; unfold_m; cbn;
    rewrite ?updateAt_twice; reflexivity.
Qed.

Lemma saveFile_finish_state p d st :
  stateOf (saveFile_finish p d st) = st /\ outcomeOf (saveFile_finish p d st) = Ret true.
Proof.
  unfold saveFile_finish, synchronizeDatabases, broadcastEvent.
  destruct (isFile d); unfold_m; cbn; auto.
Qed.

Lemma markedSaved_fields count content d :
  filePath (markedSaved count content d) = filePath d /\
  lastSavedVersion (markedSaved count content d) = currentVersion d /\
  currentVersion (markedSaved count content d) = currentVersion d /\
  document (markedSaved count content d) = document d.
Proof. unfold markedSaved. destruct count; cbn; auto. Qed.
End SaveFile.

Lemma continues_refl d : continues d d.
Proof. unfold continues. repeat split. apply Z.le_refl. Qed.

Lemma continues_trans a b c : continues a b -> continues b c -> continues a c.
Proof.
  unfold continues. intros (H1 & H2 & H3) (H4 & H5 & H6).
  repeat split; try congruence. eapply Z.le_trans; eauto.
Qed.

Lemma Forall2_continues_refl ds : Forall2 continues ds ds.
Proof. induction ds; constructor; auto using continues_refl. Qed.

Lemma Forall2_continues_trans a b c :
  Forall2 continues a b -> Forall2 continues b c -> Forall2 continues a c.
Proof.
  intros H. revert c. induction H; intros c Hc; inversion Hc; subst; constructor.
  - eapply continues_trans; eauto.
  - auto.
Qed.

Lemma Forall2_continues_updateAt ds i d (f : Document -> Document) :
  nth_error ds i = Some d -> continues d (f d) ->
  Forall2 continues ds (Docs.updateAt i f ds).
Proof.
  revert i. induction ds as [|x ds IH]; intros [|i]; simpl; intros Hn Hc; try discriminate.
  - inversion Hn; subst. constructor; auto using Forall2_continues_refl.
  - constructor; auto using continues_refl.
Qed.

Lemma findDoc_continues p ds ds' d :
  Forall2 continues ds ds' -> Docs.findDoc p ds = Some d ->
  exists d', Docs.findDoc p ds' = Some d' /\ continues d d'.
Proof.
  unfold Docs.findDoc.
  induction 1 as [|x y ds ds' Hxy Hrest IH]; simpl; intros Hf.
  - discriminate.
  - assert (Hp : Docs.hasPath p y = Docs.hasPath p x).
    { unfold Docs.hasPath. destruct Hxy as (-> & _). reflexivity. }
    rewrite Hp. destruct (Docs.hasPath p x).
    + inversion Hf; subst. eauto.
    + auto.
Qed.

(** A push, accepted or not, continues the counters of every document. *)
Lemma pushUpdates_continues p base us st :
  Forall2 continues (documents st) (documents (stateOf (Authority.pushUpdates p base us st))).
Proof.
  unfold Authority.pushUpdates. unfold bind at 1. unfold gets at 1.
  destruct (Docs.indexOf p (documents st)) as [i|] eqn:Hi.
  - destruct (indexOf_Some_findDoc _ _ _ Hi) as (d & Hf & Hn & Hp).
    rewrite Hf.
    destruct (negb (base =? currentVersion d)%Z).
    + cbn. apply Forall2_continues_refl.
    + unfold bind at 1. unfold modify at 1.
      unfold bind at 1. rewrite forM_emit. cbn.
      apply Forall2_continues_updateAt with (d := d); auto.
      unfold continues, Authority.accept; cbn. repeat split. lia.
  - destruct (Docs.findDoc p (documents st)); cbn; apply Forall2_continues_refl.
Qed.

Lemma runEdits_continues es st :
  Forall2 continues (documents st) (documents (runEdits es st)).
Proof.
  unfold runEdits. revert st.
  induction es as [|e es IH]; intros st; simpl.
  - apply Forall2_continues_refl.
  - eapply Forall2_continues_trans; [apply pushUpdates_continues | apply IH].
Qed.

(** C2. [saveFile] takes the text and sets [lastSavedVersion] to the current
    version in one go, and only then calls the I/O capability: the call is
    the last effect of the first part of the method, issued with the text of
    that version. A failed write ends the method there and the saved version
    stays advanced. Whatever edits arrive while the write is in flight, the
    saved version stays the version of the snapshot, so that once the
    current version has been raised the document is reported as modified,
    before and after the method completes; an accepted push of at least one
    update is such an edit. *)
Theorem saveFile_marks_saved_before_write :
  forall (platform : Platform) (st : DocumentManager) (p : string) (doc : Document),
    Docs.findDoc p (documents st) = Some doc ->
    let r := saveFile_prepare p st in
    let st1 := stateOf r in
    (exists pre,
        traceOf r = pre ++ [FsSave (descriptor doc) (document doc)] /\
        filter isWrite pre = []) /\
    outcomeOf r = Ret (Some (descriptor doc, document doc)) /\
    (exists doc1,
        Docs.findDoc p (documents st1) = Some doc1 /\
        lastSavedVersion doc1 = currentVersion doc /\
        currentVersion doc1 = currentVersion doc /\
        document doc1 = document doc) /\
    saveFile false p st = (Throw IOFailure, st1, traceOf r) /\
    (forall edits : list Edit,
        let st2 := runEdits edits st1 in
        exists doc2,
          Docs.findDoc p (documents st2) = Some doc2 /\
          lastSavedVersion doc2 = currentVersion doc /\
          (currentVersion doc <= currentVersion doc2)%Z /\
          ((currentVersion doc < currentVersion doc2)%Z ->
             Authority.isModified p st2 = true /\
             Authority.isModified p (stateOf (saveFile_finish p (descriptor doc) st2)) = true)) /\
    (forall us : list Update,
        us <> [] ->
        Authority.isModified p
          (stateOf (saveFile_finish p (descriptor doc)
                      (runEdits [(p, currentVersion doc, us)] st1))) = true).
Proof.
  intros platform st p doc Hf r st1.
  destruct (indexOf_findDoc _ _ _ Hf) as (i & Hi & Hn & Hp).
  pose proof (saveFile_prepare_found st p i doc Hi Hf) as Hrun.
  set (saved := markedSaved (isFile (descriptor doc)) (document doc)) in *.
  destruct (markedSaved_fields (isFile (descriptor doc)) (document doc) doc)
    as (Fp & Fs & Fc & Fd).
  assert (Hf1 : Docs.findDoc p (documents st1) = Some (saved doc)).
  { subst st1 r. rewrite Hrun. cbn.
    apply (findDoc_updateAt _ _ _ _ saved Hi Hf Fp). }
  assert (Hedits : forall edits : list Edit,
             exists doc2,
               Docs.findDoc p (documents (runEdits edits st1)) = Some doc2 /\
               lastSavedVersion doc2 = currentVersion doc /\
               (currentVersion doc <= currentVersion doc2)%Z).
  { intros edits.
    destruct (findDoc_continues p _ _ _ (runEdits_continues edits st1) Hf1)
      as (doc2 & Hf2 & (_ & Hs & Hc)).
    exists doc2. fold saved in Fs, Fc. rewrite Fs in Hs. rewrite Fc in Hc. auto. }
  assert (Hmod : forall st2 doc2,
             Docs.findDoc p (documents st2) = Some doc2 ->
             lastSavedVersion doc2 = currentVersion doc ->
             (currentVersion doc < currentVersion doc2)%Z ->
             Authority.isModified p st2 = true /\
             Authority.isModified p (stateOf (saveFile_finish p (descriptor doc) st2)) = true).
  { intros st2 doc2 Hf2 Hs Hlt.
    rewrite (proj1 (saveFile_finish_state p (descriptor doc) st2)).
    unfold Authority.isModified. rewrite Hf2. unfold Docs.modified. rewrite Hs.
    assert ((currentVersion doc =? currentVersion doc2)%Z = false) as ->
      by (apply Z.eqb_neq; lia).
    auto. }
  repeat split.
  - subst r. rewrite Hrun. cbn [traceOf snd]. eexists. split; [reflexivity|].
    destruct (isFile (descriptor doc)); reflexivity.
  - subst r. rewrite Hrun. reflexivity.
  - exists (saved doc). auto.
  - unfold saveFile. unfold bind. subst st1 r. rewrite Hrun. cbn.
    rewrite app_nil_r. reflexivity.
  - intros edits st2.
    destruct (Hedits edits) as (doc2 & Hf2 & Hs & Hc).
    exists doc2. repeat split; auto; apply (Hmod st2 doc2 Hf2 Hs H).
  - intros us Hus.
    destruct (pushUpdates_accepted st1 p us (saved doc) Hf1) as (st' & tr & Hpush & Hf').
    fold saved in Fc.
    assert (Hst2 : runEdits [(p, currentVersion doc, us)] st1 = st').
    { unfold runEdits. cbn [fold_left fst snd]. rewrite <- Fc, Hpush. reflexivity. }
    rewrite Hst2.
    apply (Hmod st' (Authority.accept us (saved doc)) Hf').
    + cbn. fold saved in Fs. exact Fs.
    + cbn. rewrite Fc. destruct us; [congruence|]. cbn [List.length]. lia.
Qed.

(** ** Loops over the leaves *)

Lemma mapNode_id g n : (forall tm, g tm = tm) -> mapNode g n = n.
Proof.
  intros Hg. induction n as [i tm | b d ns IH] using DocTree.node_ind; simpl.
  - rewrite Hg. reflexivity.
  - f_equal. induction IH as [|c cs Hc _ IHcs]; simpl; [reflexivity|].
    rewrite Hc, IHcs. reflexivity.
Qed.

Lemma mapWindows_id g ws : (forall tm, g tm = tm) -> mapWindows g ws = ws.
Proof.
  intros Hg. unfold mapWindows.
  induction ws as [|[w [n]] ws IH]; simpl; [reflexivity|].
  rewrite (mapNode_id g n Hg), IH. reflexivity.
Qed.

Lemma leafsOf_mapNode g n :
  DocTree.leafsOf (mapNode g n) = map (onStrip g) (DocTree.leafsOf n).
Proof.
  induction n as [i tm | b d ns IH] using DocTree.node_ind; simpl.
  - reflexivity.
  - induction IH as [|c cs Hc _ IHcs]; simpl; [reflexivity|].
    rewrite map_app, Hc, IHcs. reflexivity.
Qed.

Lemma allLeafs_mapWindows g ws :
  Windows.allLeafs (mapWindows g ws) = map (onStrip g) (Windows.allLeafs ws).
Proof.
  unfold Windows.allLeafs, mapWindows.
  induction ws as [|[w t] ws IH]; simpl; [reflexivity|].
  rewrite map_app, IH. unfold DocTree.getAllLeafs at 1. simpl.
  rewrite leafsOf_mapNode. reflexivity.
Qed.

Lemma keys_mapWindows g ws : map fst (mapWindows g ws) = map fst ws.
Proof.
  unfold mapWindows. rewrite map_map. reflexivity.
Qed.

Section VisitFacts.
Variable S : Type.

(** A body that does to a strip what [g] does rebuilds the tree as
    [mapNode g]. *)
Lemma visitNode_map (body : string -> TabManager -> S -> TabManager * S * list Effect) g n s :
  (forall i tm s, fst (fst (body i tm s)) = g tm) ->
  fst (fst (visitNode body n s)) = mapNode g n.
Proof.
  intros Hb. revert s.
  induction n as [i tm | b d ns IH] using DocTree.node_ind; intros s; simpl.
  - specialize (Hb i tm s). destruct (body i tm s) as [[tm' s'] tr]. simpl in *.
    rewrite Hb. reflexivity.
  - set (go := visitChildren (visitNode body)).
    assert (H : fst (fst (go ns s)) = map (mapNode g) ns).
    { clear b d. revert s. induction IH as [|c cs Hc _ IHcs]; intros s; simpl.
      - reflexivity.
      - specialize (Hc s). destruct (visitNode body c s) as [[c' s1] t1].
        specialize (IHcs s1). destruct (go cs s1) as [[cs' s2] t2].
        simpl in *. rewrite Hc, IHcs. reflexivity. }
    destruct (go ns s) as [[ns' s'] tr]. simpl in *. rewrite H. reflexivity.
Qed.

(** The captured variables after the loop: folded over the leaves. *)
Lemma visitNode_acc (body : string -> TabManager -> S -> TabManager * S * list Effect) h n s :
  (forall i tm s, snd (fst (body i tm s)) = h tm s) ->
  snd (fst (visitNode body n s)) = fold_left (fun a l => h (snd l) a) (DocTree.leafsOf n) s.
Proof.
  intros Hb. revert s.
  induction n as [i tm | b d ns IH] using DocTree.node_ind; intros s; simpl.
  - specialize (Hb i tm s). destruct (body i tm s) as [[tm' s'] tr]. simpl in *.
    rewrite Hb. reflexivity.
  - set (go := visitChildren (visitNode body)).
    assert (H : snd (fst (go ns s))
                = fold_left (fun a l => h (snd l) a) (flat_map DocTree.leafsOf ns) s).
    { clear b d. revert s. induction IH as [|c cs Hc _ IHcs]; intros s; simpl.
      - reflexivity.
      - specialize (Hc s). destruct (visitNode body c s) as [[c' s1] t1].
        specialize (IHcs s1). destruct (go cs s1) as [[cs' s2] t2].
        simpl in *. rewrite fold_left_app, <- Hc, IHcs. reflexivity. }
    destruct (go ns s) as [[ns' s'] tr]. simpl in *. exact H.
Qed.

(** Every effect of the loop is an effect of some run of the body. *)
Lemma visitNode_trace (body : string -> TabManager -> S -> TabManager * S * list Effect)
    (T : Effect -> Prop) n s :
  (forall i tm s, Forall T (snd (body i tm s))) ->
  Forall T (snd (visitNode body n s)).
Proof.
  intros Hb. revert s.
  induction n as [i tm | b d ns IH] using DocTree.node_ind; intros s; simpl.
  - specialize (Hb i tm s). destruct (body i tm s) as [[tm' s'] tr]. simpl in *. exact Hb.
  - set (go := visitChildren (visitNode body)).
    assert (H : Forall T (snd (go ns s))).
    { clear b d. revert s. induction IH as [|c cs Hc _ IHcs]; intros s; simpl.
      - constructor.
      - specialize (Hc s). destruct (visitNode body c s) as [[c' s1] t1].
        specialize (IHcs s1). destruct (go cs s1) as [[cs' s2] t2].
        simpl in *. apply Forall_app; auto. }
    destruct (go ns s) as [[ns' s'] tr]. simpl in *. exact H.
Qed.

Lemma visitWindows_map
    (body : string -> string -> TabManager -> S -> TabManager * S * list Effect) g ws s :
  (forall w i tm s, fst (fst (body w i tm s)) = g tm) ->
  fst (fst (visitWindows body ws s)) = mapWindows g ws.
Proof.
  intros Hb. revert s. induction ws as [|[w t] ws IH]; intros s; simpl.
  - reflexivity.
  - pose proof (visitNode_map (body w) g (node t) s (Hb w)) as Hn.
    destruct (visitNode (body w) (node t) s) as [[n' s1] t1].
    specialize (IH s1). destruct (visitWindows body ws s1) as [[ws' s2] t2].
    simpl in *. rewrite Hn, IH. reflexivity.
Qed.

Lemma visitWindows_acc
    (body : string -> string -> TabManager -> S -> TabManager * S * list Effect) h ws s :
  (forall w i tm s, snd (fst (body w i tm s)) = h tm s) ->
  snd (fst (visitWindows body ws s))
    = fold_left (fun a l => h (snd l) a) (Windows.allLeafs ws) s.
Proof.
  intros Hb. revert s. induction ws as [|[w t] ws IH]; intros s; simpl.
  - reflexivity.
  - pose proof (visitNode_acc (body w) h (node t) s (Hb w)) as Hn.
    destruct (visitNode (body w) (node t) s) as [[n' s1] t1].
    specialize (IH s1). destruct (visitWindows body ws s1) as [[ws' s2] t2].
    simpl in *. unfold DocTree.getAllLeafs. rewrite fold_left_app, <- Hn. exact IH.
Qed.

Lemma visitWindows_trace
    (body : string -> string -> TabManager -> S -> TabManager * S * list Effect)
    (T : Effect -> Prop) ws s :
  (forall w i tm s, Forall T (snd (body w i tm s))) ->
  Forall T (snd (visitWindows body ws s)).
Proof.
  intros Hb. revert s. induction ws as [|[w t] ws IH]; intros s; simpl.
  - constructor.
  - pose proof (visitNode_trace (body w) T (node t) s (Hb w)) as Hn.
    destruct (visitNode (body w) (node t) s) as [[n' s1] t1].
    specialize (IH s1). destruct (visitWindows body ws s1) as [[ws' s2] t2].
    simpl in *. apply Forall_app; auto.
Qed.
End VisitFacts.

Lemma setWindows_same st : setWindows (_windows st) st = st.
Proof. destruct st; reflexivity. Qed.

Lemma count_fold p (l : list (string * TabManager)) n :
  fold_left (fun a x => if TabMan.isOpen p (snd x) then S a else a) l n
    = n + List.length (filter (fun x => TabMan.isOpen p (snd x)) l).
Proof.
  revert n. induction l as [|x l IH]; intros n; simpl.
  - lia.
  - rewrite IH. destruct (TabMan.isOpen p (snd x)); simpl; lia.
Qed.

Lemma Forall_False_nil {A} (l : list A) : Forall (fun _ => False) l -> l = [].
Proof. destruct l; [reflexivity|]. intros H. inversion H. contradiction. Qed.

(** The counting loop of [closeFile]: it changes nothing, emits nothing and
    yields the number of leaves that hold the path. *)
Lemma forEachLeaf_count p n st :
  forEachLeaf (countInstance p) n st = (Ret (n + instances p st), st, []).
Proof.
  unfold forEachLeaf.
  set (body := fun (w i : string) (tm : TabManager) (s : nat) =>
                 let '(stateHasChanged, tm', s') := countInstance p tm w i s in
                 (tm', s', if stateHasChanged : bool then [ConfigSet] else [])).
  pose proof (visitWindows_map nat body (fun tm => tm) (_windows st) n
                (fun _ _ _ _ => eq_refl)) as Hmap.
  pose proof (visitWindows_acc nat body
                (fun tm a => if TabMan.isOpen p tm then S a else a) (_windows st) n
                (fun _ _ _ _ => eq_refl)) as Hacc.
  pose proof (visitWindows_trace nat body (fun _ => False) (_windows st) n
                (fun _ _ _ _ => Forall_nil _)) as Htr.
  destruct (visitWindows body (_windows st) n) as [[ws' s'] tr]. simpl in *.
  rewrite mapWindows_id in Hmap by reflexivity.
  apply Forall_False_nil in Htr.
  rewrite count_fold in Hacc.
  subst. rewrite setWindows_same. reflexivity.
Qed.

Lemma isModified_found p st :
  Authority.isModified p st = true ->
  exists idx doc, Docs.indexOf p (documents st) = Some idx /\
                  Docs.findDoc p (documents st) = Some doc /\
                  nth_error (documents st) idx = Some doc /\
                  Docs.modified doc = true.
Proof.
  unfold Authority.isModified.
  destruct (Docs.findDoc p (documents st)) as [doc|] eqn:Hf; [|discriminate].
  intros Hm. destruct (indexOf_findDoc _ _ _ Hf) as (i & Hi & Hn & _).
  exists i, doc. auto.
Qed.

(** ** C3: closeFile, the user cancels *)

Section CloseFile.
Context {platform : Platform}.

Lemma closeFile_no_window response ioOk w l p st :
  Windows.lookup w (_windows st) = None ->
  closeFile response ioOk w l p st = (Throw TypeError, st, []).
Proof.
  intros Hw. unfold closeFile, theWindow.
  unfold bind at 1. unfold bind at 1. unfold gets at 1.
  rewrite Hw. reflexivity.
Qed.

Lemma closeFile_no_leaf response ioOk w l p st tree :
  Windows.lookup w (_windows st) = Some tree ->
  DocTree.findLeaf l tree = None ->
  closeFile response ioOk w l p st = (Ret false, st, []).
Proof.
  intros Hw Hl. unfold closeFile, theWindow.
  unfold bind at 1. unfold bind at 1. unfold gets at 1.
  rewrite Hw. cbn [ret app]. rewrite Hl. reflexivity.
Qed.

Lemma closeFile_cancelled ioOk w l p st tree tm :
  Windows.lookup w (_windows st) = Some tree ->
  DocTree.findLeaf l tree = Some tm ->
  instances p st = 1 ->
  Authority.isModified p st = true ->
  closeFile Cancel ioOk w l p st = (Ret false, st, [AskSaveChanges]).
Proof.
  intros Hw Hl Hone Hmod.
  destruct (isModified_found p st Hmod) as (idx & doc & Hi & Hf & Hn & Hm).
  unfold closeFile, theWindow.
  unfold bind at 1. unfold bind at 1. unfold gets at 1.
  rewrite Hw. cbn [ret app]. rewrite Hl.
  unfold bind at 1. rewrite forEachLeaf_count, Hone.
  unfold isModified. unfold_m. rewrite Hi, Hmod. reflexivity.
Qed.
End CloseFile.

(** C3. Let exactly one leaf hold the path and the document be modified.
    With the consent dialog answering Cancel, [closeFile] leaves the manager
    exactly as it was: windows and tabs, loaded documents with their
    versions, ignore list and watcher. Whenever the dialog is shown the
    call returns [false]; it is shown, and nothing else is emitted, whenever
    the leaf exists. *)
Theorem closeFile_cancel_no_mutation :
  forall (platform : Platform) (st : DocumentManager) (ioOk : bool) (windowId leafId filePath : string),
    instances filePath st = 1 ->
    Authority.isModified filePath st = true ->
    let r := closeFile Cancel ioOk windowId leafId filePath st in
    stateOf r = st /\
    (In AskSaveChanges (traceOf r) -> outcomeOf r = Ret false) /\
    (forall tm, leafOf windowId leafId st = Some tm ->
                outcomeOf r = Ret false /\ traceOf r = [AskSaveChanges]).
Proof.
  intros platform st ioOk w l p Hone Hmod r.
  unfold leafOf.
  destruct (Windows.lookup w (_windows st)) as [tree|] eqn:Hw.
  - destruct (DocTree.findLeaf l tree) as [tm|] eqn:Hl.
    + subst r. rewrite (closeFile_cancelled ioOk w l p st tree tm Hw Hl Hone Hmod).
      cbn. auto.
    + subst r. rewrite (closeFile_no_leaf Cancel ioOk w l p st tree Hw Hl).
      cbn. repeat split; try contradiction; intros; discriminate.
  - subst r. rewrite (closeFile_no_window Cancel ioOk w l p st Hw).
    cbn. repeat split; try contradiction; intros; discriminate.
Qed.

(** ** C6: the watcher follows the open files *)

Lemma includes_In p l : TabMan.includes p l = true <-> In p l.
Proof.
  unfold TabMan.includes. rewrite existsb_exists. split.
  - intros (x & Hx & He). apply String.eqb_eq in He. subst. exact Hx.
  - intros H. exists p. split; [exact H|apply String.eqb_refl].
Qed.

Lemma includes_false p l : TabMan.includes p l = false <-> ~ In p l.
Proof.
  rewrite <- includes_In. destruct (TabMan.includes p l); split; congruence.
Qed.

Lemma setWatcher_same st : setWatcher (_watcher st) st = st.
Proof. destruct st; reflexivity. Qed.

Lemma setWatcher_twice a b st : setWatcher a (setWatcher b st) = setWatcher a st.
Proof. reflexivity. Qed.

Lemma unwatch_loop openFiles l st :
  forM l (fun watchedFile =>
            when (negb (TabMan.includes watchedFile openFiles)) (unwatch watchedFile)) st
  = (Ret tt, setWatcher (afterUnwatch openFiles l (_watcher st)) st, unwatchCalls openFiles l).
Proof.
  unfold afterUnwatch, unwatchCalls. revert st.
  induction l as [|f l IH]; intros st; simpl.
  - rewrite setWatcher_same. reflexivity.
  - unfold bind at 1. unfold when at 1.
    destruct (negb (TabMan.includes f openFiles)); simpl.
    + unfold unwatch. unfold_m. cbn. rewrite IH. cbn. reflexivity.
    + rewrite IH. reflexivity.
Qed.

Lemma add_loop watchedFiles l st :
  forM l (fun openFile =>
            when (negb (TabMan.includes openFile watchedFiles)) (watcherAdd openFile)) st
  = (Ret tt, setWatcher (afterAdd watchedFiles l (_watcher st)) st, addCalls watchedFiles l).
Proof.
  unfold afterAdd, addCalls. revert st.
  induction l as [|f l IH]; intros st; simpl.
  - rewrite setWatcher_same. reflexivity.
  - unfold bind at 1. unfold when at 1.
    destruct (negb (TabMan.includes f watchedFiles)); simpl.
    + unfold watcherAdd. unfold_m. cbn.
      destruct (TabMan.includes f (_watcher st)) eqn:Hin.
      * rewrite IH. cbn. reflexivity.
      * rewrite IH. cbn. reflexivity.
    + rewrite IH. reflexivity.
Qed.

(** [syncWatchedFilePaths] returns, touches nothing but the watcher, and
    issues the calls of its two loops. *)
Lemma syncWatchedFilePaths_run st :
  syncWatchedFilePaths st
  = (Ret tt, setWatcher (syncedWatcher st) st,
     unwatchCalls (getOpenFiles st) (_watcher st) ++ addCalls (_watcher st) (getOpenFiles st)).
Proof.
  unfold syncWatchedFilePaths, syncedWatcher.
  unfold bind at 1. unfold gets at 1.
  unfold bind at 1. unfold gets at 1.
  unfold bind at 1. rewrite unwatch_loop. rewrite add_loop. reflexivity.
Qed.

Lemma In_afterUnwatch openFiles l watched p :
  In p (afterUnwatch openFiles l watched) <->
  In p watched /\ ~ (In p l /\ ~ In p openFiles).
Proof.
  unfold afterUnwatch. revert watched.
  induction l as [|f l IH]; intros watched; simpl.
  - tauto.
  - rewrite IH.
    destruct (TabMan.includes f openFiles) eqn:Hf; simpl.
    + apply includes_In in Hf. split.
      * intros [Hw Hn]. split; [exact Hw|]. intros [[He|Hl] Ho]; subst; tauto.
      * intros [Hw Hn]. split; [exact Hw|]. tauto.
    + apply includes_false in Hf. rewrite filter_In, negb_true_iff, String.eqb_neq. split.
      * intros [[Hw Hne] Hn]. split; [exact Hw|]. intros [[He|Hl] Ho]; subst; tauto.
      * intros [Hw Hn]. split; [split; [exact Hw|]|].
        -- intros He. subst. tauto.
        -- tauto.
Qed.

Lemma In_afterAdd watchedFiles l watched p :
  In p (afterAdd watchedFiles l watched) <->
  In p watched \/ (In p l /\ ~ In p watchedFiles).
Proof.
  unfold afterAdd. revert watched.
  induction l as [|f l IH]; intros watched; simpl.
  - tauto.
  - rewrite IH.
    destruct (TabMan.includes f watchedFiles) eqn:Hf; simpl.
    + apply includes_In in Hf. split.
      * tauto.
      * intros [Hw|[[He|Hl] Hn]]; subst; tauto.
    + apply includes_false in Hf.
      destruct (TabMan.includes f watched) eqn:Hw.
      * apply includes_In in Hw. split.
        -- tauto.
        -- intros [H|[[He|Hl] Hn]]; subst; tauto.
      * rewrite in_app_iff. simpl. split.
        -- intros [[H|[He|[]]]|H]; subst; tauto.
        -- intros [H|[[He|Hl] Hn]]; subst; tauto.
Qed.

Lemma afterUnwatch_nothing openFiles l watched :
  (forall f, In f l -> In f openFiles) ->
  afterUnwatch openFiles l watched = watched /\ unwatchCalls openFiles l = [].
Proof.
  unfold afterUnwatch, unwatchCalls. revert watched.
  induction l as [|f l IH]; intros watched H; simpl.
  - auto.
  - assert (Hf : TabMan.includes f openFiles = true) by (apply includes_In, H; left; reflexivity).
    rewrite Hf. simpl. apply IH. intros g Hg. apply H. right. exact Hg.
Qed.

Lemma afterAdd_nothing watchedFiles l watched :
  (forall f, In f l -> In f watchedFiles) ->
  afterAdd watchedFiles l watched = watched /\ addCalls watchedFiles l = [].
Proof.
  unfold afterAdd, addCalls. revert watched.
  induction l as [|f l IH]; intros watched H; simpl.
  - auto.
  - assert (Hf : TabMan.includes f watchedFiles = true) by (apply includes_In, H; left; reflexivity).
    rewrite Hf. simpl. apply IH. intros g Hg. apply H. right. exact Hg.
Qed.

Lemma In_dedupe seen l p :
  In p (dedupe seen l) <-> In p l /\ ~ In p seen.
Proof.
  revert seen. induction l as [|x l IH]; intros seen; simpl.
  - tauto.
  - destruct (TabMan.includes x seen) eqn:Hx.
    + apply includes_In in Hx. rewrite IH. split.
      * tauto.
      * intros [[He|Hl] Hn]; subst; tauto.
    + apply includes_false in Hx. simpl. rewrite IH. simpl. split.
      * intros [He|[Hl Hn]]; subst; tauto.
      * intros [[He|Hl] Hn]; [tauto|].
        destruct (string_dec x p); [tauto|]. right. tauto.
Qed.

Lemma NoDup_dedupe seen l : NoDup (dedupe seen l).
Proof.
  revert seen. induction l as [|x l IH]; intros seen; simpl.
  - constructor.
  - destruct (TabMan.includes x seen).
    + apply IH.
    + constructor; [|apply IH].
      rewrite In_dedupe. simpl. tauto.
Qed.

Lemma In_getOpenFiles p st : In p (getOpenFiles st) <-> referenced p st.
Proof.
  unfold getOpenFiles, referenced. rewrite In_dedupe, in_flat_map. split.
  - intros [(l & Hl & Hp) _]. exists l. split; [exact Hl|].
    unfold TabMan.isOpen. apply includes_In. exact Hp.
  - intros (l & Hl & Hp). split; [|tauto]. exists l. split; [exact Hl|].
    unfold TabMan.isOpen in Hp. apply includes_In. exact Hp.
Qed.

Lemma In_syncedWatcher p st : In p (syncedWatcher st) <-> In p (getOpenFiles st).
Proof.
  unfold syncedWatcher. rewrite In_afterAdd, In_afterUnwatch.
  destruct (in_dec string_dec p (_watcher st));
    destruct (in_dec string_dec p (getOpenFiles st)); tauto.
Qed.

(** C6. After [syncWatchedFilePaths] the watcher holds exactly the open
    paths, these being the paths some leaf of some window holds, each
    listed once; the windows are as before; and a second run right after
    issues no [add] and no [unwatch] and leaves the manager as it is. *)
Theorem syncWatchedFilePaths_idempotent :
  forall st : DocumentManager,
    let r1 := syncWatchedFilePaths st in
    let st1 := stateOf r1 in
    let r2 := syncWatchedFilePaths st1 in
    outcomeOf r1 = Ret tt /\
    (forall p, In p (_watcher st1) <-> In p (getOpenFiles st)) /\
    (forall p, In p (getOpenFiles st) <-> referenced p st) /\
    NoDup (getOpenFiles st) /\
    _windows st1 = _windows st /\
    watcherCalls (traceOf r2) = [] /\
    traceOf r2 = [] /\
    stateOf r2 = st1.
Proof.
  intros st r1 st1 r2.
  assert (H1 : r1 = (Ret tt, setWatcher (syncedWatcher st) st,
                     unwatchCalls (getOpenFiles st) (_watcher st)
                       ++ addCalls (_watcher st) (getOpenFiles st)))
    by apply syncWatchedFilePaths_run.
  assert (Hst1 : st1 = setWatcher (syncedWatcher st) st) by (subst st1; rewrite H1; reflexivity).
  assert (Hopen : getOpenFiles st1 = getOpenFiles st) by (rewrite Hst1; reflexivity).
  assert (Hw : _watcher st1 = syncedWatcher st) by (rewrite Hst1; reflexivity).
  assert (H2 : r2 = (Ret tt, st1, [])).
  { subst r2. rewrite syncWatchedFilePaths_run. unfold syncedWatcher.
    rewrite Hopen, Hw.
    destruct (afterUnwatch_nothing (getOpenFiles st) (syncedWatcher st) (syncedWatcher st))
      as [Hu Huc].
    { intros f Hf. apply In_syncedWatcher. exact Hf. }
    destruct (afterAdd_nothing (syncedWatcher st) (getOpenFiles st) (syncedWatcher st))
      as [Ha Hac].
    { intros f Hf. apply In_syncedWatcher. exact Hf. }
    rewrite Hu, Ha, Huc, Hac. rewrite <- Hw, setWatcher_same. reflexivity. }
  rewrite H2. rewrite Hw. rewrite Hst1. rewrite H1. cbn.
  repeat split; try reflexivity.
  - apply In_syncedWatcher.
  - apply In_syncedWatcher.
  - apply In_getOpenFiles.
  - apply In_getOpenFiles.
  - apply NoDup_dedupe.
Qed.

(** ** One leaf of one window *)

Lemma find_app_leaf (f : string * TabManager -> bool) l1 l2 :
  find f (l1 ++ l2) = match find f l1 with Some x => Some x | None => find f l2 end.
Proof.
  induction l1 as [|x l1 IH]; simpl; [reflexivity|].
  destruct (f x); auto.
Qed.

Lemma withLeaf_app i f l1 l2 :
  DocTree.withLeaf i f (l1 ++ l2)
  = match find (DocTree.hasId i) l1 with
    | Some _ => DocTree.withLeaf i f l1 ++ l2
    | None => l1 ++ DocTree.withLeaf i f l2
    end.
Proof.
  induction l1 as [|x l1 IH]; simpl; [reflexivity|].
  destruct (DocTree.hasId i x); [reflexivity|].
  rewrite IH. destruct (find (DocTree.hasId i) l1); reflexivity.
Qed.

Lemma withoutLeaf_app i l1 l2 :
  DocTree.withoutLeaf i (l1 ++ l2)
  = match find (DocTree.hasId i) l1 with
    | Some _ => DocTree.withoutLeaf i l1 ++ l2
    | None => l1 ++ DocTree.withoutLeaf i l2
    end.
Proof.
  induction l1 as [|x l1 IH]; simpl; [reflexivity|].
  destruct (DocTree.hasId i x); [reflexivity|].
  rewrite IH. destruct (find (DocTree.hasId i) l1); reflexivity.
Qed.

Lemma find_withLeaf i f l :
  find (DocTree.hasId i) (DocTree.withLeaf i f l)
  = option_map (onStrip f) (find (DocTree.hasId i) l).
Proof.
  induction l as [|x l IH]; simpl; [reflexivity|].
  destruct (DocTree.hasId i x) eqn:Hx; simpl.
  - unfold DocTree.hasId in *. simpl. rewrite Hx. reflexivity.
  - rewrite Hx. exact IH.
Qed.

Lemma withoutLeaf_withLeaf i f l :
  DocTree.withoutLeaf i (DocTree.withLeaf i f l) = DocTree.withoutLeaf i l.
Proof.
  induction l as [|x l IH]; simpl; [reflexivity|].
  destruct (DocTree.hasId i x) eqn:Hx; simpl.
  - unfold DocTree.hasId in *. simpl. rewrite Hx. reflexivity.
  - rewrite Hx, IH. reflexivity.
Qed.

Lemma withLeaf_missing i f l :
  find (DocTree.hasId i) l = None -> DocTree.withLeaf i f l = l.
Proof.
  induction l as [|x l IH]; simpl; [reflexivity|].
  destruct (DocTree.hasId i x); [discriminate|].
  intros H. rewrite IH by exact H. reflexivity.
Qed.

(** [updateIn] reaches the leaf [find] reaches. *)
Lemma updateIn_leafs i f n :
  match DocTree.updateIn i f n with
  | Some n' =>
      find (DocTree.hasId i) (DocTree.leafsOf n) <> None /\
      DocTree.leafsOf n' = DocTree.withLeaf i f (DocTree.leafsOf n)
  | None => find (DocTree.hasId i) (DocTree.leafsOf n) = None
  end.
Proof.
  induction n as [j tm | b d ns IH] using DocTree.node_ind; simpl.
  - unfold DocTree.hasId. simpl. destruct (String.eqb j i); simpl.
    + split; [discriminate|reflexivity].
    + reflexivity.
  - assert (H : match DocTree.updateFirst (DocTree.updateIn i f) ns with
                | Some ns' =>
                    find (DocTree.hasId i) (flat_map DocTree.leafsOf ns) <> None /\
                    flat_map DocTree.leafsOf ns'
                    = DocTree.withLeaf i f (flat_map DocTree.leafsOf ns)
                | None => find (DocTree.hasId i) (flat_map DocTree.leafsOf ns) = None
                end).
    { clear b d. induction IH as [|c cs Hc _ IHcs]; simpl.
      - reflexivity.
      - rewrite find_app_leaf, withLeaf_app.
        destruct (DocTree.updateIn i f c) as [c'|].
        + destruct Hc as [Hfound Hleafs]. simpl.
          destruct (find (DocTree.hasId i) (DocTree.leafsOf c)); [|congruence].
          split; [discriminate|]. rewrite Hleafs. reflexivity.
        + rewrite Hc.
          destruct (DocTree.updateFirst (DocTree.updateIn i f) cs) as [cs'|]; simpl.
          * destruct IHcs as [Hfound Hleafs]. split; [exact Hfound|].
            rewrite Hleafs. reflexivity.
          * exact IHcs. }
    destruct (DocTree.updateFirst (DocTree.updateIn i f) ns); simpl; exact H.
Qed.

(** [removeFrom] detaches the leaf [find] reaches. *)
Lemma removeFrom_leafs i n :
  match DocTree.removeFrom i n with
  | NotFound => find (DocTree.hasId i) (DocTree.leafsOf n) = None
  | Gone =>
      find (DocTree.hasId i) (DocTree.leafsOf n) <> None /\
      DocTree.withoutLeaf i (DocTree.leafsOf n) = []
  | Kept n' =>
      find (DocTree.hasId i) (DocTree.leafsOf n) <> None /\
      DocTree.leafsOf n' = DocTree.withoutLeaf i (DocTree.leafsOf n)
  end.
Proof.
  induction n as [j tm | b d ns IH] using DocTree.node_ind; simpl.
  - unfold DocTree.hasId. simpl. destruct (String.eqb j i); simpl.
    + split; [discriminate|reflexivity].
    + reflexivity.
  - assert (H : match DocTree.detachFirst (DocTree.removeFrom i) ns with
                | Some ns' =>
                    find (DocTree.hasId i) (flat_map DocTree.leafsOf ns) <> None /\
                    flat_map DocTree.leafsOf ns'
                    = DocTree.withoutLeaf i (flat_map DocTree.leafsOf ns)
                | None => find (DocTree.hasId i) (flat_map DocTree.leafsOf ns) = None
                end).
    { clear b d. induction IH as [|c cs Hc _ IHcs]; simpl.
      - reflexivity.
      - rewrite find_app_leaf, withoutLeaf_app.
        destruct (DocTree.removeFrom i c) as [| |c'].
        + rewrite Hc.
          destruct (DocTree.detachFirst (DocTree.removeFrom i) cs) as [cs'|]; simpl.
          * destruct IHcs as [Hfound Hleafs]. split; [exact Hfound|].
            rewrite Hleafs. reflexivity.
          * exact IHcs.
        + destruct Hc as [Hfound Hleafs].
          destruct (find (DocTree.hasId i) (DocTree.leafsOf c)); [|congruence].
          split; [discriminate|]. rewrite Hleafs. reflexivity.
        + destruct Hc as [Hfound Hleafs]. simpl.
          destruct (find (DocTree.hasId i) (DocTree.leafsOf c)); [|congruence].
          split; [discriminate|]. rewrite Hleafs. reflexivity. }
    unfold DocTree.collapse.
    destruct (DocTree.detachFirst (DocTree.removeFrom i) ns) as [[|only [|more rest]]|].
    + destruct H as [Hfound Hleafs]. split; [exact Hfound|]. rewrite <- Hleafs. reflexivity.
    + destruct H as [Hfound Hleafs]. split; [exact Hfound|]. rewrite <- Hleafs.
      simpl. rewrite app_nil_r. reflexivity.
    + exact H.
    + exact H.
Qed.

Lemma updateLeaf_leafs i f t tm :
  DocTree.findLeaf i t = Some tm ->
  DocTree.getAllLeafs (DocTree.updateLeaf i f t) = DocTree.withLeaf i f (DocTree.getAllLeafs t) /\
  DocTree.findLeaf i (DocTree.updateLeaf i f t) = Some (f tm).
Proof.
  unfold DocTree.findLeaf, DocTree.getAllLeafs, DocTree.updateLeaf.
  intros Hf. pose proof (updateIn_leafs i f (node t)) as H.
  destruct (DocTree.updateIn i f (node t)) as [n'|]; simpl.
  - destruct H as [_ Hleafs]. rewrite Hleafs, find_withLeaf. split; [reflexivity|].
    destruct (find (DocTree.hasId i) (DocTree.leafsOf (node t))) as [[j x]|];
      simpl in *; [|discriminate].
    inversion Hf; subst. reflexivity.
  - rewrite H in Hf. discriminate.
Qed.

(** A leaf that is not the only one of its tree is gone after
    [removeNode]. *)
Lemma removeNode_leafs i t tm :
  DocTree.findLeaf i t = Some tm ->
  2 <= List.length (DocTree.getAllLeafs t) ->
  DocTree.getAllLeafs (DocTree.removeNode i t) = DocTree.withoutLeaf i (DocTree.getAllLeafs t).
Proof.
  unfold DocTree.findLeaf, DocTree.getAllLeafs, DocTree.removeNode.
  intros Hf Hlen. pose proof (removeFrom_leafs i (node t)) as H.
  destruct (DocTree.removeFrom i (node t)) as [| |n'].
  - rewrite H in Hf. discriminate.
  - destruct H as [_ Hnil]. exfalso.
    assert (Hl : forall l, DocTree.withoutLeaf i l = [] -> List.length l <= 1).
    { intros l. destruct l as [|x l]; simpl; [lia|].
      destruct (DocTree.hasId i x); [|discriminate].
      intros ->. simpl. lia. }
    specialize (Hl _ Hnil). lia.
  - destruct H as [_ Hleafs]. simpl. exact Hleafs.
Qed.

Lemma lookup_update w g ws :
  Windows.lookup w (Windows.update w g ws) = option_map g (Windows.lookup w ws).
Proof.
  unfold Windows.lookup.
  induction ws as [|[k t] ws IH]; simpl; [reflexivity|].
  destruct (String.eqb k w) eqn:Hk; simpl; rewrite Hk; simpl; auto.
Qed.

Lemma keys_update w g ws : map fst (Windows.update w g ws) = map fst ws.
Proof.
  induction ws as [|[k t] ws IH]; simpl; [reflexivity|].
  destruct (String.eqb k w); simpl; [reflexivity|]. rewrite IH. reflexivity.
Qed.

Lemma length_withLeaf i f l : List.length (DocTree.withLeaf i f l) = List.length l.
Proof.
  induction l as [|x l IH]; simpl; [reflexivity|].
  destruct (DocTree.hasId i x); simpl; [reflexivity|]. rewrite IH. reflexivity.
Qed.

(** ** Tab strips *)

Lemma isOpen_In p tm : TabMan.isOpen p tm = true <-> In p (TabMan.paths tm).
Proof. unfold TabMan.isOpen. apply includes_In. Qed.

Lemma paths_closeFile p tm :
  TabMan.paths (snd (TabMan.closeFile p tm)) = removeFirst p (TabMan.paths tm).
Proof.
  unfold TabMan.closeFile, TabMan.paths.
  destruct tm as [files active]. simpl.
  assert (H : match TabMan.findIndex p files with
              | Some idx => map path (TabMan.removeAt idx files) = removeFirst p (map path files)
              | None => map path files = removeFirst p (map path files)
              end).
  { induction files as [|f files IH]; simpl; [reflexivity|].
    destruct (String.eqb (path f) p); simpl; [reflexivity|].
    destruct (TabMan.findIndex p files); simpl; f_equal; exact IH. }
  destruct (TabMan.findIndex p files); simpl; exact H.
Qed.

Lemma fst_closeFile p tm : fst (TabMan.closeFile p tm) = TabMan.isOpen p tm.
Proof.
  unfold TabMan.closeFile, TabMan.isOpen, TabMan.includes, TabMan.paths.
  destruct tm as [files active]. simpl.
  assert (H : existsb (String.eqb p) (map path files)
              = match TabMan.findIndex p files with Some _ => true | None => false end).
  { induction files as [|f files IH]; simpl; [reflexivity|].
    rewrite (String.eqb_sym p (path f)).
    destruct (String.eqb (path f) p); simpl; [reflexivity|].
    rewrite IH. destruct (TabMan.findIndex p files); reflexivity. }
  rewrite H. destruct (TabMan.findIndex p files); reflexivity.
Qed.

Lemma In_removeFirst_other p q l : q <> p -> (In q (removeFirst p l) <-> In q l).
Proof.
  intros Hne. induction l as [|x l IH]; simpl; [tauto|].
  destruct (String.eqb x p) eqn:Hx.
  - apply String.eqb_eq in Hx. subst. split; [tauto|]. intros [H|H]; [congruence|exact H].
  - simpl. rewrite IH. tauto.
Qed.

Lemma In_removeFirst p q l : In q (removeFirst p l) -> In q l.
Proof.
  induction l as [|x l IH]; simpl; [tauto|].
  destruct (String.eqb x p); simpl; tauto.
Qed.

Lemma NoDup_removeFirst p l : NoDup l -> ~ In p (removeFirst p l).
Proof.
  induction 1 as [|x l Hx Hl IH]; simpl; [tauto|].
  destruct (String.eqb x p) eqn:He.
  - apply String.eqb_eq in He. subst. exact Hx.
  - apply String.eqb_neq in He. simpl. tauto.
Qed.

Lemma isOpen_closeFile_same p tm :
  TabMan.unique tm -> TabMan.isOpen p (snd (TabMan.closeFile p tm)) = false.
Proof.
  intros Hu. unfold TabMan.isOpen. apply includes_false.
  rewrite paths_closeFile. apply NoDup_removeFirst. exact Hu.
Qed.

Lemma isOpen_closeFile_other p q tm :
  q <> p -> TabMan.isOpen q (snd (TabMan.closeFile p tm)) = TabMan.isOpen q tm.
Proof.
  intros Hne. unfold TabMan.isOpen.
  destruct (TabMan.includes q (TabMan.paths tm)) eqn:H.
  - apply includes_In. rewrite paths_closeFile. apply In_removeFirst_other; [exact Hne|].
    apply includes_In. exact H.
  - apply includes_false. rewrite paths_closeFile. rewrite In_removeFirst_other by exact Hne.
    apply includes_false. exact H.
Qed.

Lemma paths_setPinnedStatus p b tm :
  TabMan.paths (TabMan.setPinnedStatus p b tm) = TabMan.paths tm.
Proof.
  unfold TabMan.paths, TabMan.setPinnedStatus. simpl. rewrite map_map.
  apply map_ext. intros f. destruct (String.eqb (path f) p); reflexivity.
Qed.

Lemma paths_openFile p tm :
  TabMan.paths (snd (TabMan.openFile p tm))
  = if TabMan.isOpen p tm then TabMan.paths tm else TabMan.paths tm ++ [p].
Proof.
  unfold TabMan.openFile. destruct (TabMan.isOpen p tm); simpl; [reflexivity|].
  unfold TabMan.paths. simpl. rewrite map_app. reflexivity.
Qed.

(** ** C4: closeFile, the user discards *)

Lemma leafOf_updated w l g st tree tm :
  Windows.lookup w (_windows st) = Some tree ->
  DocTree.findLeaf l tree = Some tm ->
  leafOf w l (setWindows (Windows.update w (DocTree.updateLeaf l g) (_windows st)) st)
  = Some (g tm).
Proof.
  intros Hw Hl. unfold leafOf. cbn [_windows setWindows].
  rewrite lookup_update, Hw. cbn [option_map].
  apply (updateLeaf_leafs l g tree tm Hl).
Qed.

Lemma prompts_watcher a b c d :
  filter isPrompt (unwatchCalls a b ++ addCalls c d) = [].
Proof.
  apply Forall_False_nil. apply Forall_forall. intros e He.
  apply filter_In in He. destruct He as [He Hp].
  unfold unwatchCalls, addCalls in He.
  apply in_app_or in He. destruct He as [He|He]; apply in_map_iff in He;
    destruct He as (x & <- & _); discriminate.
Qed.

Section CloseFileRuns.
Context {platform : Platform}.

Lemma afterClose_run w l p st tm :
  leafOf w l st = Some tm ->
  exists tr,
    afterClose w l p st
    = (Ret tt, emptyLeafRemoved w l tm (setWatcher (syncedWatcher st) st), tr) /\
    prompts tr = [].
Proof.
  intros Hl.
  unfold afterClose, syncToConfig, broadcastEvent, synchronizeDatabases, removeLeaf.
  unfold bind at 1. unfold emit at 1.
  unfold bind at 1. rewrite syncWatchedFilePaths_run.
  unfold bind at 1. unfold emit at 1.
  unfold bind at 1. unfold readLeaf at 1.
  change (leafOf w l (setWatcher (syncedWatcher st) st)) with (leafOf w l st).
  rewrite Hl.
  unfold bind at 1. unfold emit at 1.
  unfold bind at 1. unfold readLeaf at 1.
  change (leafOf w l (setWatcher (syncedWatcher st) st)) with (leafOf w l st).
  rewrite Hl.
  unfold emptyLeafRemoved.
  destruct (Nat.eqb (List.length (openFiles tm)) 0); unfold_m; cbn.
  - eexists. split; [reflexivity|].
    unfold prompts. cbn [filter isPrompt]. rewrite filter_app. cbn [filter isPrompt].
    rewrite app_nil_r. apply prompts_watcher.
  - eexists. split; [reflexivity|].
    unfold prompts. cbn [filter isPrompt]. rewrite filter_app. cbn [filter isPrompt].
    rewrite app_nil_r. apply prompts_watcher.
Qed.
End CloseFileRuns.

Section CloseFileDiscard.
Context {platform : Platform}.



End CloseFileDiscard.

Lemma removeAt_updateAt idx f ds :
  TabMan.removeAt idx (Docs.updateAt idx f ds) = TabMan.removeAt idx ds.
Proof.
  revert idx. induction ds as [|d ds IH]; intros [|idx]; simpl; try reflexivity.
  rewrite IH. reflexivity.
Qed.

Lemma findDoc_In p ds d : Docs.findDoc p ds = Some d -> In p (map filePath ds).
Proof.
  intros Hf. destruct (indexOf_findDoc _ _ _ Hf) as (i & _ & Hn & Hp).
  apply in_map_iff. exists d. split; [exact Hp|]. eapply nth_error_In; eauto.
Qed.

(** A path loaded once is not loaded after its document was dropped. *)
Lemma findDoc_dropped p ds idx :
  NoDup (map filePath ds) ->
  Docs.indexOf p ds = Some idx ->
  Docs.findDoc p (discarded idx ds) = None.
Proof.
  unfold discarded. rewrite removeAt_updateAt.
  revert idx. induction ds as [|d ds IH]; intros idx Hnd Hi; simpl in *.
  - discriminate.
  - inversion Hnd as [|x xs Hx Hrest]; subst.
    destruct (Docs.hasPath p d) eqn:Hd.
    + inversion Hi; subst. simpl.
      destruct (Docs.findDoc p ds) as [d'|] eqn:Hf; [|reflexivity].
      exfalso. apply Hx. apply String.eqb_eq in Hd. rewrite Hd.
      eapply findDoc_In; eauto.
    + destruct (Docs.indexOf p ds) as [j|] eqn:Hj; [|discriminate].
      inversion Hi; subst. simpl. unfold Docs.findDoc in *. simpl. rewrite Hd.
      apply IH; auto.
Qed.


(** ** C5: closeFileEverywhere *)

Lemma forceClose_strip p w i tm u :
  fst (fst (forceClose p w i tm u)) = forceClosed p tm.
Proof.
  unfold forceClose, forceClosed.
  destruct (TabMan.isOpen p tm); [|reflexivity].
  destruct (TabMan.closeFile p (TabMan.setPinnedStatus p false tm)) as [success closed].
  reflexivity.
Qed.

Lemma forceClose_trace p w i tm u :
  Forall (fun e => isPrompt e = false) (snd (forceClose p w i tm u)).
Proof.
  unfold forceClose.
  destruct (TabMan.isOpen p tm); [|constructor].
  destruct (TabMan.closeFile p (TabMan.setPinnedStatus p false tm)) as [[|] closed]; simpl.
  - constructor; [reflexivity|constructor].
  - constructor.
Qed.

Lemma filter_none {A} (f : A -> bool) l : Forall (fun x => f x = false) l -> filter f l = [].
Proof.
  induction 1 as [|x l Hx _ IH]; simpl; [reflexivity|]. rewrite Hx. exact IH.
Qed.

Lemma closeFileEverywhere_run p st :
  exists tr,
    closeFileEverywhere p st
    = (Ret tt, setWindows (mapWindows (forceClosed p) (_windows st)) st, tr) /\
    prompts tr = [].
Proof.
  unfold closeFileEverywhere.
  pose proof (visitWindows_map unit (forceClose p) (forceClosed p) (_windows st) tt
                (forceClose_strip p)) as Hmap.
  pose proof (visitWindows_trace unit (forceClose p) (fun e => isPrompt e = false)
                (_windows st) tt (forceClose_trace p)) as Htr.
  destruct (visitWindows (forceClose p) (_windows st) tt) as [[ws' u] tr]. simpl in *.
  subst ws'. exists tr. split; [reflexivity|].
  apply filter_none. exact Htr.
Qed.

Lemma isPinned_closed p tm : TabMan.isOpen p tm = false -> TabMan.isPinned p tm = false.
Proof.
  unfold TabMan.isOpen, TabMan.isPinned, TabMan.includes, TabMan.paths.
  induction (openFiles tm) as [|f files IH]; simpl; [reflexivity|].
  rewrite (String.eqb_sym p (path f)).
  destruct (String.eqb (path f) p); simpl; [discriminate|]. exact IH.
Qed.

Lemma forceClosed_closed p tm :
  TabMan.unique tm -> TabMan.isOpen p (forceClosed p tm) = false.
Proof.
  intros Hu. unfold forceClosed.
  destruct (TabMan.isOpen p tm) eqn:Ho; [|exact Ho].
  apply isOpen_closeFile_same.
  unfold TabMan.unique. rewrite paths_setPinnedStatus. exact Hu.
Qed.

(** C5. [closeFileEverywhere] returns without showing the consent dialog;
    in every leaf of every window that holds the path it clears the pinned
    flag and then closes the tab, and leaves the other leaves alone; with
    paths unique in every strip, no leaf of any window holds the path or
    has it pinned afterwards. *)
Theorem closeFileEverywhere_closes_all :
  forall (st : DocumentManager) (filePath : string),
    uniqueTabs st ->
    let r := closeFileEverywhere filePath st in
    outcomeOf r = Ret tt /\
    prompts (traceOf r) = [] /\
    Windows.allLeafs (_windows (stateOf r))
    = map (onStrip (forceClosed filePath)) (Windows.allLeafs (_windows st)) /\
    (forall l, In l (Windows.allLeafs (_windows (stateOf r))) ->
               TabMan.isOpen filePath (snd l) = false /\
               TabMan.isPinned filePath (snd l) = false) /\
    ~ referenced filePath (stateOf r).
Proof.
  intros st p Huniq r.
  destruct (closeFileEverywhere_run p st) as (tr & Hrun & Hpr).
  subst r. rewrite Hrun. cbn [outcomeOf stateOf traceOf fst snd _windows setWindows].
  assert (Hall : forall l,
             In l (Windows.allLeafs (mapWindows (forceClosed p) (_windows st))) ->
             TabMan.isOpen p (snd l) = false).
  { intros l Hl. rewrite allLeafs_mapWindows in Hl.
    apply in_map_iff in Hl. destruct Hl as (l0 & <- & Hl0).
    unfold onStrip. cbn [snd]. apply forceClosed_closed.
    unfold uniqueTabs in Huniq. rewrite Forall_forall in Huniq. apply Huniq. exact Hl0. }
  split; [reflexivity|]. split; [exact Hpr|]. split; [apply allLeafs_mapWindows|]. split.
  - intros l Hl. split; [apply Hall; exact Hl|].
    apply isPinned_closed. apply Hall. exact Hl.
  - intros (l & Hl & Ho). cbn [_windows setWindows] in Hl.
    rewrite (Hall l Hl) in Ho. discriminate.
Qed.

(** ** C7: the ignore list *)

Lemma onWatcherEvent_ignored e p st :
  In p (_ignoreChanges st) ->
  onWatcherEvent e p st
  = (Ret tt, setIgnoreChanges (removeFirst p (_ignoreChanges st)) st, []).
Proof.
  intros Hin. apply includes_In in Hin.
  unfold onWatcherEvent. unfold_m. rewrite Hin. reflexivity.
Qed.

Lemma onWatcherEvent_processed e p st :
  ~ In p (_ignoreChanges st) ->
  onWatcherEvent e p st = processEvent e p st.
Proof.
  intros Hin. apply includes_false in Hin.
  unfold onWatcherEvent. unfold bind, gets. rewrite Hin.
  destruct (processEvent e p st) as [[o s] t]. reflexivity.
Qed.




Lemma entries_pushed p l : entries p (l ++ [p]) = S (entries p l).
Proof.
  unfold entries. rewrite count_occ_app. simpl.
  destruct (string_dec p p); [lia|congruence].
Qed.

Lemma setIgnoreChanges_same st : setIgnoreChanges (_ignoreChanges st) st = st.
Proof. destruct st; reflexivity. Qed.


(** ** C8: the last window stays *)

Section Preservation.
Variable P : DocumentManager -> Prop.

Lemma preserves_ret {A} (a : A) : preserves P (ret a).
Proof. intros st H. exact H. Qed.

Lemma preserves_throw {A} e : preserves P (@throw A e).
Proof. intros st H. exact H. Qed.

Lemma preserves_gets {A} (f : DocumentManager -> A) : preserves P (gets f).
Proof. intros st H. exact H. Qed.

Lemma preserves_emit e : preserves P (emit e).
Proof. intros st H. exact H. Qed.

Lemma preserves_modify f : (forall st, P st -> P (f st)) -> preserves P (modify f).
Proof. intros Hf st H. apply Hf. exact H. Qed.

Lemma preserves_bind {A B} (m : M A) (k : A -> M B) :
  preserves P m -> (forall a, preserves P (k a)) -> preserves P (bind m k).
Proof.
  intros Hm Hk st H. specialize (Hm st H). unfold bind, stateOf in *.
  destruct (m st) as [[[a|e] st1] t1]; simpl in *.
  - specialize (Hk a st1 Hm). unfold stateOf in Hk.
    destruct (k a st1) as [[o st2] t2]. exact Hk.
  - exact Hm.
Qed.

Lemma preserves_when b m : preserves P m -> preserves P (when b m).
Proof. intros Hm. destruct b; [exact Hm|apply preserves_ret]. Qed.

Lemma preserves_forM {A} (l : list A) body :
  (forall x, preserves P (body x)) -> preserves P (forM l body).
Proof.
  intros Hb. induction l as [|x l IH]; simpl.
  - apply preserves_ret.
  - apply preserves_bind; [apply Hb|intros _; exact IH].
Qed.
End Preservation.

Lemma keys_visitWindows {S}
    (body : string -> string -> TabManager -> S -> TabManager * S * list Effect) ws s :
  map fst (fst (fst (visitWindows body ws s))) = map fst ws.
Proof.
  revert s. induction ws as [|[w t] ws IH]; intros s; simpl; [reflexivity|].
  destruct (visitNode (body w) (node t) s) as [[n' s1] t1].
  specialize (IH s1). destruct (visitWindows body ws s1) as [[ws' s2] t2].
  simpl in *. rewrite IH. reflexivity.
Qed.

Section KeysKept.
Context {platform : Platform}.
Variable K : list string.

Lemma keys_forEachLeaf {S} (callback : TabManager -> string -> string -> S -> bool * TabManager * S)
    init :
  preserves (keysAre K) (forEachLeaf callback init).
Proof.
  intros st H. unfold forEachLeaf, stateOf, keysAre in *.
  match goal with
  | |- context [visitWindows ?b ?ws ?s] =>
      pose proof (keys_visitWindows b ws s) as Hk; destruct (visitWindows b ws s) as [[ws' s'] tr]
  end.
  simpl in *. congruence.
Qed.

Lemma keys_closeFileEverywhere p : preserves (keysAre K) (closeFileEverywhere p).
Proof.
  intros st H. unfold closeFileEverywhere, stateOf, keysAre in *.
  pose proof (keys_visitWindows (forceClose p) (_windows st) tt) as Hk.
  destruct (visitWindows (forceClose p) (_windows st) tt) as [[ws' s'] tr].
  simpl in *. congruence.
Qed.

Lemma keys_leafCall {A} w l (f : TabManager -> A * TabManager) :
  preserves (keysAre K) (leafCall w l f).
Proof.
  intros st H. unfold leafCall, stateOf, keysAre in *.
  destruct (leafOf w l st); simpl; [|exact H].
  rewrite keys_update. exact H.
Qed.

Lemma keys_readLeaf {A} w l (f : TabManager -> A) : preserves (keysAre K) (readLeaf w l f).
Proof.
  intros st H. unfold readLeaf, stateOf in *. destruct (leafOf w l st); exact H.
Qed.

Lemma keys_removeLeaf w l : preserves (keysAre K) (removeLeaf w l).
Proof.
  apply preserves_modify. intros st H. unfold keysAre in *. simpl.
  rewrite keys_update. exact H.
Qed.

Lemma keys_assignDoc idx f : preserves (keysAre K) (assignDoc idx f).
Proof. apply preserves_modify. intros st H. exact H. Qed.

Lemma keys_syncWatchedFilePaths : preserves (keysAre K) syncWatchedFilePaths.
Proof. intros st H. rewrite syncWatchedFilePaths_run. exact H. Qed.

(** Applies the rules above to the statements of a method. *)
Ltac keys_kept :=
  repeat first
    [ apply preserves_ret
    | apply preserves_throw
    | apply preserves_gets
    | apply preserves_emit
    | apply keys_forEachLeaf
    | apply keys_closeFileEverywhere
    | apply keys_leafCall
    | apply keys_readLeaf
    | apply keys_removeLeaf
    | apply keys_assignDoc
    | apply keys_syncWatchedFilePaths
    | apply preserves_when
    | apply preserves_forM; intros ?
    | apply preserves_bind; [|intros ?]
    | apply preserves_modify; intros ? ?; assumption
    | match goal with
      | |- preserves _ (match ?x with _ => _ end) => destruct x
      end ].

Lemma keys_saveFile ioOk p : preserves (keysAre K) (saveFile ioOk p).
Proof.
  unfold saveFile, saveFile_prepare, saveFile_finish, synchronizeDatabases, broadcastEvent.
  keys_kept.
Qed.

Lemma keys_closeFile response ioOk w l p : preserves (keysAre K) (closeFile response ioOk w l p).
Proof.
  unfold closeFile, theWindow, isModified, dropDocument, afterClose, syncToConfig,
    synchronizeDatabases, broadcastEvent.
  keys_kept; try apply keys_saveFile.
Qed.

Lemma keys_openFile a w l p n : preserves (keysAre K) (openFile a w l p n).
Proof.
  unfold openFile, theWindow, isModified, syncToConfig, synchronizeDatabases, broadcastEvent.
  keys_kept.
Qed.

Lemma keys_hasMovedFile o n : preserves (keysAre K) (hasMovedFile o n).
Proof.
  unfold hasMovedFile, broadcastEvent. keys_kept.
Qed.

Lemma keys_hasMovedDir o n : preserves (keysAre K) (hasMovedDir o n).
Proof.
  unfold hasMovedDir. keys_kept; apply keys_hasMovedFile.
Qed.

Lemma keys_onWatcherEvent e p : preserves (keysAre K) (onWatcherEvent e p).
Proof.
  unfold onWatcherEvent, processEvent, handleRemoteChange. keys_kept.
Qed.

Lemma keys_pushUpdates p v us : preserves (keysAre K) (Authority.pushUpdates p v us).
Proof. unfold Authority.pushUpdates. keys_kept. Qed.

Lemma keys_pullUpdates c p v : preserves (keysAre K) (Authority.pullUpdates c p v).
Proof. unfold Authority.pullUpdates. keys_kept. Qed.

Lemma keys_setPinnedStatus w l p b : preserves (keysAre K) (setPinnedStatus w l p b).
Proof. unfold setPinnedStatus, theWindow, broadcastEvent, syncToConfig. keys_kept. Qed.

Lemma keys_closeLeaf w l : preserves (keysAre K) (closeLeaf w l).
Proof. unfold closeLeaf, theWindow, broadcastEvent. keys_kept. Qed.

Lemma keys_notifyRemoteChange p : preserves (keysAre K) (notifyRemoteChange p).
Proof. unfold notifyRemoteChange, broadcastEvent. keys_kept. Qed.
End KeysKept.

Lemma closeWindow_last w st :
  windowCount st = 1 -> closeWindow w st = (Ret tt, st, []).
Proof.
  unfold windowCount, closeWindow. intros H. unfold_m.
  destruct (_shuttingDown st); [reflexivity|].
  rewrite H. cbn. rewrite andb_false_r. reflexivity.
Qed.

Lemma has_In w ws : Windows.has w ws = true <-> In w (map fst ws).
Proof.
  unfold Windows.has. rewrite existsb_exists, in_map_iff. split.
  - intros (e & He & Heq). apply String.eqb_eq in Heq. eauto.
  - intros (e & Heq & He). exists e. split; [exact He|]. apply String.eqb_eq. exact Heq.
Qed.

Lemma keys_delete w ws :
  map fst (Windows.delete w ws) = filter (fun k => negb (String.eqb k w)) (map fst ws).
Proof.
  unfold Windows.delete. induction ws as [|[k t] ws IH]; simpl; [reflexivity|].
  destruct (String.eqb k w); simpl; rewrite IH; reflexivity.
Qed.

(** Deleting a key of a dictionary takes exactly one entry away. *)
Lemma length_delete w ws :
  NoDup (map fst ws) -> In w (map fst ws) ->
  S (List.length (Windows.delete w ws)) = List.length ws.
Proof.
  unfold Windows.delete. induction ws as [|[k t] ws IH]; simpl; intros Hnd Hin; [tauto|].
  inversion Hnd as [|x xs Hx Hrest]; subst.
  destruct (String.eqb k w) eqn:Hk; simpl.
  - apply String.eqb_eq in Hk. subst. f_equal.
    assert (Hall : forall l : list (string * DocumentTree),
               ~ In w (map fst l) ->
               filter (fun e => negb (String.eqb (fst e) w)) l = l).
    { induction l as [|[k' t'] l IHl]; simpl; intros Hn; [reflexivity|].
      destruct (String.eqb k' w) eqn:Hk'.
      - apply String.eqb_eq in Hk'. tauto.
      - simpl. rewrite IHl by tauto. reflexivity. }
    rewrite Hall by exact Hx. reflexivity.
  - apply String.eqb_neq in Hk. rewrite IH; auto. destruct Hin; [congruence|assumption].
Qed.

Lemma NoDup_filter_keys (f : string -> bool) l : NoDup l -> NoDup (filter f l).
Proof.
  induction 1 as [|x l Hx Hl IH]; simpl; [constructor|].
  destruct (f x); [|exact IH].
  constructor; [|exact IH]. rewrite filter_In. tauto.
Qed.

(** Deleting a name that is no own key takes nothing away. *)
Lemma delete_absent w ws : Windows.has w ws = false -> Windows.delete w ws = ws.
Proof.
  unfold Windows.has, Windows.delete. induction ws as [|e ws IH]; simpl; [reflexivity|].
  destruct (String.eqb (fst e) w); simpl; [discriminate|].
  intros H. rewrite (IH H). reflexivity.
Qed.

Lemma closeWindow_keeps w st :
  distinctKeys st -> 1 <= windowCount st ->
  distinctKeys (stateOf (closeWindow w st)) /\ 1 <= windowCount (stateOf (closeWindow w st)).
Proof.
  unfold distinctKeys, windowCount, closeWindow. intros Hnd Hlen. unfold_m.
  destruct (_shuttingDown st); [simpl; auto|].
  destruct (Windows.hasProperty w (_windows st)) eqn:Hin; simpl; [|auto].
  destruct (Nat.eqb (List.length (_windows st)) 1) eqn:Hone; simpl; [auto|].
  apply Nat.eqb_neq in Hone.
  destruct (Windows.has w (_windows st)) eqn:Hhas.
  - apply has_In in Hhas.
    pose proof (length_delete w (_windows st) Hnd Hhas) as Hdel.
    split.
    + rewrite keys_delete. apply NoDup_filter_keys. exact Hnd.
    + lia.
  - rewrite (delete_absent w _ Hhas). split; assumption.
Qed.

Lemma freshKey_fresh ks k ds k' : freshKey ks k ds = Some k' -> ~ In k' ks.
Proof.
  revert k. induction ds as [|d ds IH]; intros k; simpl.
  - destruct (TabMan.includes k ks) eqn:Hk; [discriminate|].
    intros H. inversion H; subst. apply includes_false. exact Hk.
  - destruct (TabMan.includes k ks) eqn:Hk.
    + apply IH.
    + intros H. inversion H; subst. apply includes_false. exact Hk.
Qed.

Lemma newWindow_keeps leafId key draws st :
  distinctKeys st -> 1 <= windowCount st ->
  distinctKeys (stateOf (newWindow leafId key draws st)) /\
  1 <= windowCount (stateOf (newWindow leafId key draws st)).
Proof.
  unfold distinctKeys, windowCount, newWindow. intros Hnd Hlen. unfold_m.
  destruct (freshKey (map fst (_windows st)) key draws) as [k|] eqn:Hk; simpl; [|auto].
  apply freshKey_fresh in Hk. split.
  - rewrite map_app. simpl. apply NoDup_app.
    + exact Hnd.
    + constructor; [intros []|constructor].
    + intros x Hx [Hy|[]]. subst. tauto.
  - rewrite length_app. simpl. lia.
Qed.

Section Requests.
Context {platform : Platform}.

Lemma keys_windowCount K st st' :
  keysAre K st -> keysAre K st' ->
  (distinctKeys st -> distinctKeys st') /\ windowCount st' = windowCount st.
Proof.
  unfold keysAre, distinctKeys, windowCount. intros H H'. split.
  - congruence.
  - rewrite <- (length_map fst (_windows st')), <- (length_map fst (_windows st)). congruence.
Qed.

Lemma preserves_discard P {A} (m : M A) : preserves P m -> preserves P (discard m).
Proof.
  intros Hm. unfold discard. apply preserves_bind; [exact Hm|]. intros a. apply preserves_ret.
Qed.

(** Every request keeps the keys of the windows pairwise different and
    leaves at least one window if there was one. *)
Lemma handle_keeps r st :
  distinctKeys st -> 1 <= windowCount st ->
  distinctKeys (stateOf (handle r st)) /\ 1 <= windowCount (stateOf (handle r st)).
Proof.
  intros Hnd Hlen.
  assert (Hkeys : forall m : M unit,
             preserves (keysAre (map fst (_windows st))) m ->
             distinctKeys (stateOf (m st)) /\ 1 <= windowCount (stateOf (m st))).
  { intros m Hm.
    destruct (keys_windowCount (map fst (_windows st)) st (stateOf (m st)) eq_refl
                (Hm st eq_refl)) as [Hd Hc].
    split; [auto|lia]. }
  destruct r; simpl.
  - apply Hkeys, preserves_discard, keys_openFile.
  - apply Hkeys, preserves_discard, keys_closeFile.
  - apply Hkeys, keys_closeFileEverywhere.
  - apply Hkeys, preserves_discard, keys_saveFile.
  - apply Hkeys, preserves_discard, keys_pushUpdates.
  - apply Hkeys, preserves_discard, keys_pullUpdates.
  - apply closeWindow_keeps; assumption.
  - apply newWindow_keeps; assumption.
  - apply Hkeys, keys_hasMovedFile.
  - apply Hkeys, keys_hasMovedDir.
  - apply Hkeys, keys_onWatcherEvent.
  - apply Hkeys, keys_setPinnedStatus.
  - apply Hkeys, keys_closeLeaf.
  - apply Hkeys, keys_notifyRemoteChange.
  - apply Hkeys, keys_syncWatchedFilePaths.
Qed.

Lemma runAll_keeps rs st :
  distinctKeys st -> 1 <= windowCount st ->
  distinctKeys (runAll rs st) /\ 1 <= windowCount (runAll rs st).
Proof.
  revert st. induction rs as [|r rs IH]; intros st Hnd Hlen; simpl.
  - auto.
  - destruct (handle_keeps r st Hnd Hlen) as [Hd Hc]. apply IH; assumption.
Qed.
End Requests.

(** The safeguard of [closeWindow]. With exactly one window, [closeWindow]
    does nothing at all, whatever the window id. And a manager with at least
    one window, the keys of the windows being pairwise different as the keys
    of an object are, has at least one window after [closeWindow] and after
    any run of requests. Whether [boot] leaves a window to begin with is
    another matter, see the examples. *)
Theorem closeWindow_keeps_last_window :
  forall (platform : Platform) (st : DocumentManager) (windowId : string) (rs : list Request),
    (windowCount st = 1 -> closeWindow windowId st = (Ret tt, st, [])) /\
    (distinctKeys st -> 1 <= windowCount st ->
       1 <= windowCount (stateOf (closeWindow windowId st)) /\
       1 <= windowCount (runAll rs st)).
Proof.
  intros platform st w rs. split.
  - apply closeWindow_last.
  - intros Hnd Hlen. split.
    + apply closeWindow_keeps; assumption.
    + apply runAll_keeps; assumption.
Qed.

(** ** C9: openFile and the formerly active file *)

Lemma targetLeaf_found l tree lid tm :
  targetLeaf l tree = Some (lid, tm) -> DocTree.findLeaf lid tree = Some tm.
Proof.
  unfold targetLeaf, DocTree.findLeaf. destruct l as [x|].
  - destruct (option_map snd (find (DocTree.hasId x) (DocTree.getAllLeafs tree)))
      as [tm0|] eqn:Hx; simpl; [|discriminate].
    intros H. inversion H; subst. exact Hx.
  - destruct (DocTree.getAllLeafs tree) as [|[i t0] rest]; simpl; [discriminate|].
    intros H. inversion H; subst. unfold DocTree.hasId. simpl.
    rewrite String.eqb_refl. reflexivity.
Qed.

Section OpenFile.
Context {platform : Platform}.

Lemma leafCall_run {A} w l (f : TabManager -> A * TabManager) st tree tm :
  Windows.lookup w (_windows st) = Some tree ->
  DocTree.findLeaf l tree = Some tm ->
  leafCall w l f st
  = (Ret (fst (f tm)),
     setWindows (Windows.update w (DocTree.updateLeaf l (fun x => snd (f x))) (_windows st)) st,
     []).
Proof.
  intros Hw Hl. unfold leafCall, leafOf. rewrite Hw, Hl. reflexivity.
Qed.

Lemma readLeaf_run {A} w l (f : TabManager -> A) st tm :
  leafOf w l st = Some tm -> readLeaf w l f st = (Ret (f tm), st, []).
Proof. intros H. unfold readLeaf. rewrite H. reflexivity. Qed.

(** [openFile] on a path the leaf already holds. *)
Lemma openFile_present avoid w l p newTab st tree lid tm :
  Windows.lookup w (_windows st) = Some tree ->
  targetLeaf l tree = Some (lid, tm) ->
  TabMan.isOpen p tm = true ->
  exists tr,
    openFile avoid w l p newTab st
    = (Ret true,
       setWindows (Windows.update w (DocTree.updateLeaf lid (tabOpened p)) (_windows st)) st,
       tr).
Proof.
  intros Hw Ht Hopen. pose proof (targetLeaf_found l tree lid tm Ht) as Hl.
  eexists. unfold openFile.
  step_with ltac:(unfold theWindow; step; rewrite Hw; reflexivity).
  rewrite Ht, Hopen.
  step_with ltac:(apply (leafCall_run w lid (TabMan.openFile p) st tree tm Hw Hl)).
  unfold broadcastEvent. step. reflexivity.
Qed.

(** [openFile] on a path the leaf does not hold yet. *)
Lemma openFile_absent avoid w l p newTab st tree lid tm :
  Windows.lookup w (_windows st) = Some tree ->
  targetLeaf l tree = Some (lid, tm) ->
  TabMan.isOpen p tm = false ->
  let s1 := setWindows (Windows.update w (DocTree.updateLeaf lid (tabOpened p)) (_windows st)) st in
  let s2 := fun a =>
    setWindows (Windows.update w (DocTree.updateLeaf lid (tabClosed a)) (_windows s1)) s1 in
  exists tr,
    openFile avoid w l p newTab st
    = (Ret true,
       match activeFile tm with
       | Some a =>
           if replacesActive avoid newTab a st
           then setWatcher (syncedWatcher (s2 a)) (s2 a)
           else s1
       | None => s1
       end,
       tr).
Proof.
  intros Hw Ht Hopen s1 s2. pose proof (targetLeaf_found l tree lid tm Ht) as Hl.
  assert (Hopened : fst (TabMan.openFile p tm) = true).
  { unfold TabMan.openFile. rewrite Hopen. reflexivity. }
  assert (Hw1 : Windows.lookup w (_windows s1)
                = Some (DocTree.updateLeaf lid (tabOpened p) tree)).
  { subst s1. cbn [_windows setWindows]. rewrite lookup_update, Hw. reflexivity. }
  destruct (updateLeaf_leafs lid (tabOpened p) tree tm Hl) as [_ Hl1].
  assert (Hleaf1 : leafOf w lid s1 = Some (tabOpened p tm)).
  { unfold leafOf. rewrite Hw1. exact Hl1. }
  assert (Hread : forall s tm0, leafOf w lid s = Some tm0 ->
                                readLeaf w lid activeFile s = (Ret (activeFile tm0), s, [])).
  { intros s tm0 H. apply readLeaf_run. exact H. }
  unfold openFile, broadcastEvent, syncToConfig, synchronizeDatabases.
  destruct (activeFile tm) as [a|] eqn:Hactive.
  - destruct (replacesActive avoid newTab a st) eqn:Hcond.
    + eexists.
      step_with ltac:(unfold theWindow; step; rewrite Hw; reflexivity).
      rewrite Ht, Hopen.
      step_with ltac:(apply (leafCall_run w lid (TabMan.openFile p) st tree tm Hw Hl)).
      rewrite Hopened, Hactive. fold (tabOpened p). fold s1.
      step_with ltac:(
        step_with ltac:(unfold isModified; reflexivity);
        match goal with
        | |- context [avoid && negb (isTrue newTab) && negb ?m] =>
            replace (avoid && negb (isTrue newTab) && negb m) with true
              by (symmetry; exact Hcond)
        end;
        unfold when;
        step_with ltac:(apply (leafCall_run w lid (TabMan.closeFile a) s1 _ _ Hw1 Hl1));
        fold (tabClosed a); fold (s2 a);
        step_with ltac:(apply syncWatchedFilePaths_run);
        step;
        step_with ltac:(apply (Hread _ (tabClosed a (tabOpened p tm)));
                        apply (leafOf_updated w lid (tabClosed a) s1 _ _ Hw1 Hl1));
        reflexivity).
      step.
      step_with ltac:(apply (Hread _ (tabClosed a (tabOpened p tm)));
                      apply (leafOf_updated w lid (tabClosed a) s1 _ _ Hw1 Hl1)).
      step. step. step. reflexivity.
    + eexists.
      step_with ltac:(unfold theWindow; step; rewrite Hw; reflexivity).
      rewrite Ht, Hopen.
      step_with ltac:(apply (leafCall_run w lid (TabMan.openFile p) st tree tm Hw Hl)).
      rewrite Hopened, Hactive. fold (tabOpened p). fold s1.
      step_with ltac:(
        step_with ltac:(unfold isModified; reflexivity);
        match goal with
        | |- context [avoid && negb (isTrue newTab) && negb ?m] =>
            replace (avoid && negb (isTrue newTab) && negb m) with false
              by (symmetry; exact Hcond)
        end;
        reflexivity).
      step.
      step_with ltac:(apply (Hread _ _ Hleaf1)).
      step. step. step. reflexivity.
  - eexists.
    step_with ltac:(unfold theWindow; step; rewrite Hw; reflexivity).
    rewrite Ht, Hopen.
    step_with ltac:(apply (leafCall_run w lid (TabMan.openFile p) st tree tm Hw Hl)).
    rewrite Hopened, Hactive. fold (tabOpened p). fold s1.
    step. step.
    step_with ltac:(apply (Hread _ _ Hleaf1)).
    step. step. step. reflexivity.
Qed.
End OpenFile.

Lemma unique_tabOpened p tm :
  TabMan.unique tm -> TabMan.isOpen p tm = false -> TabMan.unique (tabOpened p tm).
Proof.
  unfold TabMan.unique, tabOpened. intros Hu Hp. rewrite paths_openFile, Hp.
  apply NoDup_app.
  - exact Hu.
  - constructor; [intros []|constructor].
  - intros x Hx [Hy|[]]. subst. apply (proj2 (isOpen_In _ _)) in Hx. congruence.
Qed.

Lemma isOpen_tabOpened p q tm :
  TabMan.isOpen q tm = true -> TabMan.isOpen q (tabOpened p tm) = true.
Proof.
  unfold tabOpened. intros Hq. apply isOpen_In. rewrite paths_openFile.
  apply isOpen_In in Hq. destruct (TabMan.isOpen p tm); [exact Hq|].
  apply in_or_app. left. exact Hq.
Qed.

(** C9. Let a leaf have the active file [a], one of its tabs. Opening
    another file in that leaf never closes [a] while [a] is modified,
    whatever the configuration and the flag. And with [avoidNewTabs] set,
    no [newTab] flag, and the file not yet open in the leaf, [a] is closed
    exactly if it is not modified. *)
Theorem openFile_closes_only_unmodified :
  forall (platform : Platform) (st : DocumentManager) (avoidNewTabs : bool)
         (windowId : string) (leafId : option string) (filePath : string) (newTab : option bool)
         (tree : DocumentTree) (lid : string) (tm : TabManager) (a : string),
    Windows.lookup windowId (_windows st) = Some tree ->
    targetLeaf leafId tree = Some (lid, tm) ->
    activeFile tm = Some a ->
    TabMan.isOpen a tm = true ->
    TabMan.unique tm ->
    let r := openFile avoidNewTabs windowId leafId filePath newTab st in
    exists tm',
      leafOf windowId lid (stateOf r) = Some tm' /\
      outcomeOf r = Ret true /\
      (Authority.isModified a st = true -> TabMan.isOpen a tm' = true) /\
      (TabMan.isOpen filePath tm = false -> avoidNewTabs = true -> isTrue newTab = false ->
         (TabMan.isOpen a tm' = false <-> Authority.isModified a st = false)).
Proof.
  intros platform st avoid w l p newTab tree lid tm a Hw Ht Hactive Ha Huniq r.
  pose proof (targetLeaf_found l tree lid tm Ht) as Hl.
  destruct (TabMan.isOpen p tm) eqn:Hp.
  - destruct (openFile_present avoid w l p newTab st tree lid tm Hw Ht Hp) as (tr & Hrun).
    subst r. rewrite Hrun. cbn [outcomeOf stateOf fst snd].
    exists (tabOpened p tm).
    split; [apply (leafOf_updated w lid (tabOpened p) st tree tm Hw Hl)|].
    split; [reflexivity|]. split.
    + intros _. apply isOpen_tabOpened. exact Ha.
    + intros H. discriminate.
  - destruct (openFile_absent avoid w l p newTab st tree lid tm Hw Ht Hp) as (tr & Hrun).
    subst r. rewrite Hrun, Hactive. cbn [outcomeOf stateOf fst snd].
    set (s1 := setWindows
                 (Windows.update w (DocTree.updateLeaf lid (tabOpened p)) (_windows st)) st) in *.
    assert (Hw1 : Windows.lookup w (_windows s1)
                  = Some (DocTree.updateLeaf lid (tabOpened p) tree)).
    { subst s1. cbn [_windows setWindows]. rewrite lookup_update, Hw. reflexivity. }
    destruct (updateLeaf_leafs lid (tabOpened p) tree tm Hl) as [_ Hl1].
    assert (Hne : a <> p).
    { intros ->. congruence. }
    unfold replacesActive.
    destruct (Authority.isModified a st) eqn:Hmod.
    + rewrite andb_false_r.
      exists (tabOpened p tm).
      split; [unfold leafOf; rewrite Hw1; exact Hl1|].
      split; [reflexivity|]. split.
      * intros _. apply isOpen_tabOpened. exact Ha.
      * intros _ _ _. rewrite isOpen_tabOpened by exact Ha. split; discriminate.
    + rewrite andb_true_r.
      destruct (avoid && negb (isTrue newTab)) eqn:Hflags.
      * exists (tabClosed a (tabOpened p tm)).
        split; [apply (leafOf_updated w lid (tabClosed a) s1 _ _ Hw1 Hl1)|].
        split; [reflexivity|]. split; [discriminate|].
        intros _ _ _. split; [reflexivity|]. intros _.
        apply isOpen_closeFile_same. apply unique_tabOpened; assumption.
      * exists (tabOpened p tm).
        split; [unfold leafOf; rewrite Hw1; exact Hl1|].
        split; [reflexivity|]. split; [discriminate|].
        intros _ Hav Hnt. subst avoid. rewrite Hnt in Hflags. discriminate.
Qed.

(** ** C10: hasMovedDir *)

Lemma getSubstitution_dollarFree matched before after template :
  JSString.dollarFree template = true ->
  JSString.getSubstitution matched before after template = template.
Proof.
  induction template as [|c rest IH]; simpl; [reflexivity|].
  destruct (Ascii.eqb c "$"); simpl; [discriminate|].
  intros H. rewrite IH by exact H. reflexivity.
Qed.

(** Without a dollar sign in the replacement, [replace] puts the
    replacement itself in the place of the first match. *)
Lemma replace_dollarFree s pat repl :
  JSString.dollarFree repl = true ->
  JSString.replace s pat repl = JSString.replaceLiteral s pat repl.
Proof.
  intros H. unfold JSString.replace, JSString.replaceLiteral.
  destruct (JSString.indexOf s pat); [|reflexivity].
  rewrite getSubstitution_dollarFree by exact H. reflexivity.
Qed.

Lemma forM_emits {A} (body : A -> M unit) (g : A -> list Effect) l st :
  (forall x s, body x s = (Ret tt, s, g x)) ->
  forM l body st = (Ret tt, st, flat_map g l).
Proof.
  intros Hb. induction l as [|x l IH]; simpl; [reflexivity|].
  unfold bind. rewrite Hb, IH. reflexivity.
Qed.

Section Renames.
Context {platform : Platform}.

(** [hasMovedFile] returns; of the documents it changes the first one
    loaded under [oldPath], if there is one. *)
Lemma hasMovedFile_run oldPath newPath st :
  exists st' tr,
    hasMovedFile oldPath newPath st = (Ret tt, st', tr) /\
    documents st'
    = match Docs.indexOf oldPath (documents st) with
      | Some idx => Docs.updateAt idx (moved newPath) (documents st)
      | None => documents st
      end.
Proof.
  unfold hasMovedFile.
  destruct (Docs.indexOf oldPath (documents st)) as [idx|] eqn:Hi.
  - set (s1 := setDocuments (Docs.updateAt idx (moved newPath) (documents st)) st).
    destruct (forEachLeaf (renameTab oldPath newPath) [] s1) as [[o s2] t2] eqn:Hloop.
    assert (Hs2 : o = Ret (match o with Ret a => a | Throw _ => [] end) /\
                  documents s2 = documents s1).
    { unfold forEachLeaf in Hloop.
      match type of Hloop with
      | context [visitWindows ?b ?ws ?s] => destruct (visitWindows b ws s) as [[ws' s'] tr']
      end.
      inversion Hloop; subst. split; reflexivity. }
    destruct Hs2 as [Ho Hd2]. rewrite Ho in Hloop.
    eexists _, _. split.
    + step. rewrite Hi.
      step_with ltac:(unfold assignDoc, modify; reflexivity).
      fold s1.
      step_with ltac:(exact Hloop).
      step_with ltac:(apply syncWatchedFilePaths_run).
      apply (forM_emits _ (fun target =>
               [Broadcast CLOSE_FILE (leafContext (fst target) (snd target) (Some oldPath));
                Broadcast OPEN_FILE (leafContext (fst target) (snd target) (Some newPath))])).
      intros x s. reflexivity.
    + cbn [documents setWatcher]. rewrite Hd2. reflexivity.
  - eexists _, _. split.
    + step. rewrite Hi. reflexivity.
    + reflexivity.
Qed.

(** The documents after [hasMovedDir]: the turns of its loop, one after the
    other, over the positions of the documents whose path starts with
    [oldPath]. *)
Lemma hasMovedDir_documents oldPath newPath st :
  outcomeOf (hasMovedDir oldPath newPath st) = Ret tt /\
  documents (stateOf (hasMovedDir oldPath newPath st))
  = fold_left (moveStep oldPath newPath)
      (positionsWhere (fun doc => JSString.startsWith (filePath doc) oldPath) 0 (documents st))
      (documents st).
Proof.
  set (body := fun doc : nat =>
         current <- gets (fun st : DocumentManager => nth_error (documents st) doc) ;;
         match current with
         | Some d => hasMovedFile (filePath d) (JSString.replace (filePath d) oldPath newPath)
         | None => ret tt
         end).
  assert (Hhead : hasMovedDir oldPath newPath st
                  = forM (positionsWhere
                            (fun doc => JSString.startsWith (filePath doc) oldPath) 0
                            (documents st)) body st).
  { unfold hasMovedDir, bind at 1, gets at 1. fold body.
    destruct (forM _ body st) as [[[u|e] s] t]; reflexivity. }
  rewrite Hhead.
  generalize (positionsWhere (fun doc => JSString.startsWith (filePath doc) oldPath) 0
                (documents st)) as ps.
  intros ps. clear Hhead. revert st.
  induction ps as [|pos ps IH]; intros s; simpl.
  - split; reflexivity.
  - assert (Hbody : exists s' tr, body pos s = (Ret tt, s', tr) /\
                                  documents s' = moveStep oldPath newPath (documents s) pos).
    { subst body. cbv beta. unfold moveStep.
      destruct (nth_error (documents s) pos) as [d|] eqn:Hn.
      - destruct (hasMovedFile_run (filePath d)
                    (JSString.replace (filePath d) oldPath newPath) s)
          as (s' & tr & Hrun & Hdocs).
        exists s', ([] ++ tr). split; [|exact Hdocs].
        eapply bind_eq; [reflexivity|]. cbv beta. rewrite Hn. exact Hrun.
      - exists s, ([] ++ []). split; [|reflexivity].
        eapply bind_eq; [reflexivity|]. cbv beta. rewrite Hn. reflexivity. }
    destruct Hbody as (s' & tr & Hrun & Hdocs).
    unfold bind. rewrite Hrun.
    destruct (IH s') as [Ho Hd]. unfold outcomeOf, stateOf in *.
    destruct (forM ps body s') as [[o2 s2] t2]. simpl in *.
    rewrite Hd, Hdocs. auto.
Qed.

Lemma indexOf_app_fresh p done rest :
  ~ In p (map filePath done) ->
  Docs.indexOf p (done ++ rest) = option_map (Nat.add (List.length done)) (Docs.indexOf p rest).
Proof.
  induction done as [|d done IH]; simpl; intros Hn.
  - destruct (Docs.indexOf p rest); reflexivity.
  - unfold Docs.hasPath at 1.
    destruct (String.eqb (filePath d) p) eqn:Hd.
    + apply String.eqb_eq in Hd. tauto.
    + rewrite IH by tauto. destruct (Docs.indexOf p rest); reflexivity.
Qed.

Lemma updateAt_app_head done d rest f :
  Docs.updateAt (List.length done) f (done ++ d :: rest) = done ++ f d :: rest.
Proof.
  induction done as [|x done IH]; simpl; [reflexivity|]. rewrite IH. reflexivity.
Qed.

(** The loop on documents loaded once each, no path due to a document being
    the path of a loaded one: every document whose path starts with
    [oldPath] moves, and no other. *)
Lemma moveSteps_all oldPath newPath done rest :
  NoDup (map filePath rest) ->
  (forall d, In d rest -> JSString.startsWith (filePath d) oldPath = true ->
             ~ In (filePath d) (map filePath done)) ->
  (forall d d', In d rest -> In d' rest ->
                JSString.startsWith (filePath d) oldPath = true ->
                filePath d' <> JSString.replace (filePath d) oldPath newPath) ->
  fold_left (moveStep oldPath newPath)
    (positionsWhere (fun doc => JSString.startsWith (filePath doc) oldPath)
       (List.length done) rest)
    (done ++ rest)
  = done ++ map (movedDoc oldPath newPath) rest.
Proof.
  revert done. induction rest as [|d rest IH]; intros done Hnd Hdone Hfree; simpl.
  - reflexivity.
  - inversion Hnd as [|x xs Hx Hrest]; subst.
    assert (Hnext : forall done',
               List.length done' = S (List.length done) ->
               map filePath done' = map filePath done ++ [filePath (movedDoc oldPath newPath d)] ->
               fold_left (moveStep oldPath newPath)
                 (positionsWhere (fun doc => JSString.startsWith (filePath doc) oldPath)
                    (S (List.length done)) rest)
                 (done' ++ rest)
               = done' ++ map (movedDoc oldPath newPath) rest).
    { intros done' Hlen Hpaths. rewrite <- Hlen. apply IH.
      - exact Hrest.
      - intros d' Hd' Hs'. rewrite Hpaths, in_app_iff. intros [Hin|[Heq|[]]].
        + apply (Hdone d'); [right; exact Hd'|exact Hs'|exact Hin].
        + unfold movedDoc in Heq.
          destruct (JSString.startsWith (filePath d) oldPath) eqn:Hs.
          * cbn in Heq. apply (Hfree d d'); [left; reflexivity|right; exact Hd'|exact Hs|].
            symmetry. exact Heq.
          * apply Hx. rewrite Heq. apply in_map. exact Hd'.
      - intros a b Ha Hb. apply Hfree; right; assumption. }
    destruct (JSString.startsWith (filePath d) oldPath) eqn:Hs.
    + assert (Hmd : movedDoc oldPath newPath d
                    = moved (JSString.replace (filePath d) oldPath newPath) d)
        by (unfold movedDoc; rewrite Hs; reflexivity).
      rewrite Hmd. cbn [fold_left]. unfold moveStep at 2.
      rewrite nth_error_app2 by lia. rewrite Nat.sub_diag. cbn [nth_error].
      rewrite indexOf_app_fresh by (apply (Hdone d); [left; reflexivity|exact Hs]).
      cbn [Docs.indexOf]. unfold Docs.hasPath. rewrite String.eqb_refl. cbn [option_map].
      rewrite Nat.add_0_r, updateAt_app_head.
      change (done ++ moved (JSString.replace (filePath d) oldPath newPath) d :: rest)
        with (done ++ [moved (JSString.replace (filePath d) oldPath newPath) d] ++ rest).
      rewrite app_assoc, Hnext.
      * rewrite <- app_assoc. reflexivity.
      * rewrite length_app. simpl. lia.
      * rewrite map_app, Hmd. reflexivity.
    + assert (Hmd : movedDoc oldPath newPath d = d)
        by (unfold movedDoc; rewrite Hs; reflexivity).
      rewrite Hmd.
      change (done ++ d :: rest) with (done ++ [d] ++ rest).
      rewrite app_assoc, Hnext.
      * rewrite <- app_assoc. reflexivity.
      * rewrite length_app. simpl. lia.
      * rewrite map_app, Hmd. reflexivity.
Qed.

(** Where [hasMovedDir] does rename as described: documents loaded once each,
    no dollar sign in [newPath], and no path due to a document already the
    path of a loaded one. Then every loaded path that starts with [oldPath],
    inside the directory or not, has its first occurrence of [oldPath]
    replaced with [newPath], and the other paths stay. *)
Lemma hasMovedDir_renames oldPath newPath st :
  NoDup (trackedPaths st) ->
  JSString.dollarFree newPath = true ->
  (forall q q', In q (trackedPaths st) -> In q' (trackedPaths st) ->
                JSString.startsWith q oldPath = true ->
                q' <> JSString.replaceLiteral q oldPath newPath) ->
  trackedPaths (stateOf (hasMovedDir oldPath newPath st))
  = map (movedPath oldPath newPath) (trackedPaths st).
Proof.
  unfold trackedPaths. intros Hnd Hdollar Hfree.
  rewrite (proj2 (hasMovedDir_documents oldPath newPath st)).
  pose proof (moveSteps_all oldPath newPath [] (documents st) Hnd) as H.
  cbn [List.length app] in H. rewrite H.
  - rewrite !map_map. apply map_ext. intros d.
    unfold movedDoc, movedPath.
    destruct (JSString.startsWith (filePath d) oldPath); [|reflexivity].
    cbn. apply replace_dollarFree. exact Hdollar.
  - intros d _ _ [].
  - intros d d' Hd Hd' Hs. rewrite replace_dollarFree by exact Hdollar.
    apply Hfree; [exact (in_map filePath _ _ Hd)|exact (in_map filePath _ _ Hd')|exact Hs].
Qed.
End Renames.

(** * Further properties of the manager *)

(** ** Documents of other paths *)

Lemma findDoc_updateAt_other p q ds i (f : Document -> Document) :
  Docs.indexOf p ds = Some i ->
  q <> p ->
  (forall d, filePath (f d) = filePath d) ->
  Docs.findDoc q (Docs.updateAt i f ds) = Docs.findDoc q ds.
Proof.
  unfold Docs.findDoc. intros Hi Hne Hf. revert i Hi.
  induction ds as [|x ds IH]; intros i Hi; simpl in *; [discriminate|].
  destruct (Docs.hasPath p x) eqn:Hx.
  - inversion Hi; subst. simpl. unfold Docs.hasPath in *. rewrite Hf.
    apply String.eqb_eq in Hx.
    assert (String.eqb (filePath x) q = false) as -> by (apply String.eqb_neq; congruence).
    reflexivity.
  - destruct (Docs.indexOf p ds) as [j|] eqn:Hj; [|discriminate].
    inversion Hi; subst. simpl. rewrite (IH j eq_refl). reflexivity.
Qed.

Lemma findDoc_removeAt_other p q ds i :
  Docs.indexOf p ds = Some i ->
  q <> p ->
  Docs.findDoc q (TabMan.removeAt i ds) = Docs.findDoc q ds.
Proof.
  unfold Docs.findDoc. intros Hi Hne. revert i Hi.
  induction ds as [|x ds IH]; intros i Hi; simpl in *; [discriminate|].
  destruct (Docs.hasPath p x) eqn:Hx.
  - inversion Hi; subst. simpl. unfold Docs.hasPath in *.
    apply String.eqb_eq in Hx.
    assert (String.eqb (filePath x) q = false) as -> by (apply String.eqb_neq; congruence).
    reflexivity.
  - destruct (Docs.indexOf p ds) as [j|] eqn:Hj; [|discriminate].
    inversion Hi; subst. simpl. rewrite (IH j eq_refl). reflexivity.
Qed.

(** ** saveFile, start to end *)

Section SaveFileRuns.
Context {platform : Platform}.

Lemma saveFile_succeeds st p i doc :
  Docs.indexOf p (documents st) = Some i ->
  Docs.findDoc p (documents st) = Some doc ->
  saveFile true p st
  = (Ret true, stateOf (saveFile_prepare p st),
     traceOf (saveFile_prepare p st)
     ++ (if isFile (descriptor doc)
         then [SynchronizeDatabases
                 (flat_map libraryOf (documents (stateOf (saveFile_prepare p st))))]
         else [])
     ++ [Broadcast CHANGE_FILE_STATUS (mkContext None None (Some p) (Some "modification"));
         Broadcast FILE_SAVED (mkContext None None (Some p) None)]).
Proof.
  intros Hi Hf. unfold saveFile.
  rewrite (saveFile_prepare_found st p i doc Hi Hf).
  cbn [stateOf traceOf fst snd].
  eapply bind_eq; [apply (saveFile_prepare_found st p i doc Hi Hf)|]. cbv beta iota.
  unfold saveFile_finish, synchronizeDatabases, broadcastEvent.
  destruct (isFile (descriptor doc)); unfold_m; cbn; reflexivity.
Qed.

Lemma saveFile_fails st p doc :
  Docs.findDoc p (documents st) = Some doc ->
  saveFile false p st
  = (Throw IOFailure, stateOf (saveFile_prepare p st), traceOf (saveFile_prepare p st)).
Proof.
  intros Hf. destruct (indexOf_findDoc _ _ _ Hf) as (i & Hi & _ & _).
  rewrite (saveFile_prepare_found st p i doc Hi Hf). cbn [stateOf traceOf fst snd].
  unfold saveFile, bind. rewrite (saveFile_prepare_found st p i doc Hi Hf).
  cbn. rewrite app_nil_r. reflexivity.
Qed.

Lemma saveFile_unloaded ioOk st p :
  Docs.findDoc p (documents st) = None ->
  saveFile ioOk p st = (Ret false, st, []).
Proof.
  intros Hf. unfold saveFile, saveFile_prepare. unfold_m. rewrite Hf.
  destruct (Docs.indexOf p (documents st)); reflexivity.
Qed.
End SaveFileRuns.

(** X1. A save whose write succeeds returns [true] and leaves the document
    unmodified, with its text and its current version as they were; it
    issues one write, of that text; it touches no document of another path
    and no window. A save of a path that is not loaded returns [false] and
    does nothing at all. *)
Theorem saveFile_makes_unmodified :
  forall (platform : Platform) (st : DocumentManager) (p : string),
    let r := saveFile true p st in
    (forall doc,
        Docs.findDoc p (documents st) = Some doc ->
        outcomeOf r = Ret true /\
        Authority.isModified p (stateOf r) = false /\
        (exists doc', Docs.findDoc p (documents (stateOf r)) = Some doc' /\
                      document doc' = document doc /\
                      currentVersion doc' = currentVersion doc) /\
        filter isWrite (traceOf r) = [FsSave (descriptor doc) (document doc)] /\
        (forall q, q <> p ->
                   Docs.findDoc q (documents (stateOf r)) = Docs.findDoc q (documents st)) /\
        _windows (stateOf r) = _windows st) /\
    (Docs.findDoc p (documents st) = None -> r = (Ret false, st, [])).
Proof.
  intros platform st p r. split.
  - intros doc Hf. destruct (indexOf_findDoc _ _ _ Hf) as (i & Hi & _ & _).
    subst r. rewrite (saveFile_succeeds st p i doc Hi Hf).
    rewrite (saveFile_prepare_found st p i doc Hi Hf).
    cbn [outcomeOf stateOf traceOf fst snd documents setIgnoreChanges setDocuments _windows].
    set (saved := markedSaved (isFile (descriptor doc)) (document doc)).
    destruct (markedSaved_fields (isFile (descriptor doc)) (document doc) doc)
      as (Fp & Fs & Fc & Fd).
    destruct (findDoc_updateAt p (documents st) i doc saved Hi Hf Fp) as [Hf' _].
    split; [reflexivity|]. split; [|split; [|split; [|split]]].
    + unfold Authority.isModified. cbn [documents setIgnoreChanges setDocuments].
      rewrite Hf'.
      unfold Docs.modified. fold saved in Fs, Fc. rewrite Fs, Fc, Z.eqb_refl. reflexivity.
    + exists (saved doc). auto.
    + destruct (isFile (descriptor doc)); reflexivity.
    + intros q Hq. apply findDoc_updateAt_other with (p := p); auto.
      intros d. apply (markedSaved_fields (isFile (descriptor doc)) (document doc) d).
    + reflexivity.
  - intros Hf. subst r. apply saveFile_unloaded. exact Hf.
Qed.

(** X2. A save whose write fails is rejected, yet its entry stays in the
    ignore list: the next watcher event for the path, whatever it reports,
    is dropped, and only takes that entry away. *)
Theorem failed_save_hides_next_event :
  forall (platform : Platform) (st : DocumentManager) (p : string) (doc : Document)
         (event : string),
    Docs.findDoc p (documents st) = Some doc ->
    let st1 := stateOf (saveFile false p st) in
    outcomeOf (saveFile false p st) = Throw IOFailure /\
    entries p (_ignoreChanges st1) = S (entries p (_ignoreChanges st)) /\
    onWatcherEvent event p st1
    = (Ret tt, setIgnoreChanges (removeFirst p (_ignoreChanges st1)) st1, []) /\
    _windows (stateOf (onWatcherEvent event p st1)) = _windows st.
Proof.
  intros platform st p doc event Hf st1.
  destruct (indexOf_findDoc _ _ _ Hf) as (i & Hi & _ & _).
  assert (Hst1 : _ignoreChanges st1 = _ignoreChanges st ++ [p] /\ _windows st1 = _windows st).
  { subst st1. rewrite (saveFile_fails st p doc Hf).
    rewrite (saveFile_prepare_found st p i doc Hi Hf). split; reflexivity. }
  destruct Hst1 as [Hig Hw].
  assert (Hin : In p (_ignoreChanges st1)).
  { rewrite Hig. apply in_or_app. right. left. reflexivity. }
  split; [rewrite (saveFile_fails st p doc Hf); reflexivity|].
  split; [rewrite Hig; apply entries_pushed|].
  rewrite (onWatcherEvent_ignored event p st1 Hin).
  split; [reflexivity|]. cbn. exact Hw.
Qed.

(** ** notifyRemoteChange *)

(** X3. [notifyRemoteChange] broadcasts one FILE_REMOTELY_CHANGED event and
    leaves the windows alone. For a loaded path it drops the first document
    of that path and no document of another path. For a path that is not
    loaded it drops the document loaded last, whatever its path. *)
Theorem notifyRemoteChange_drops :
  forall (st : DocumentManager) (p : string),
    let r := notifyRemoteChange p st in
    outcomeOf r = Ret tt /\
    traceOf r = [Broadcast FILE_REMOTELY_CHANGED (mkContext None None (Some p) None)] /\
    _windows (stateOf r) = _windows st /\
    (forall idx,
        Docs.indexOf p (documents st) = Some idx ->
        documents (stateOf r) = TabMan.removeAt idx (documents st) /\
        (forall q, q <> p ->
                   Docs.findDoc q (documents (stateOf r)) = Docs.findDoc q (documents st))) /\
    (forall ds d,
        Docs.findDoc p (documents st) = None ->
        documents st = ds ++ [d] ->
        documents (stateOf r) = ds).
Proof.
  intros st p r. subst r. unfold notifyRemoteChange, broadcastEvent. unfold_m. cbn.
  split; [reflexivity|]. split; [reflexivity|]. split; [reflexivity|]. split.
  - intros idx Hi. rewrite Hi. split; [reflexivity|].
    intros q Hq. apply findDoc_removeAt_other with (p := p); assumption.
  - intros ds d Hf Hds.
    destruct (Docs.indexOf p (documents st)) as [i|] eqn:Hi.
    + destruct (indexOf_Some_findDoc _ _ _ Hi) as (d' & Hf' & _). congruence.
    + rewrite Hds. apply removelast_last.
Qed.

(** ** closeFile, the other ways through it *)

(** A call that leaves the strip of the leaf as it is leaves the tree as
    it is. *)
Lemma updateIn_same i f n :
  match DocTree.updateIn i f n with
  | Some n' =>
      forall x, find (DocTree.hasId i) (DocTree.leafsOf n) = Some x -> f (snd x) = snd x -> n' = n
  | None => True
  end.
Proof.
  induction n as [j tm | b d ns IH] using DocTree.node_ind; simpl.
  - unfold DocTree.hasId. simpl. destruct (String.eqb j i); simpl; [|exact I].
    intros x Hx Hfx. inversion Hx; subst. simpl in Hfx. rewrite Hfx. reflexivity.
  - assert (H : match DocTree.updateFirst (DocTree.updateIn i f) ns with
                | Some ns' =>
                    forall x, find (DocTree.hasId i) (flat_map DocTree.leafsOf ns) = Some x ->
                              f (snd x) = snd x -> ns' = ns
                | None => True
                end).
    { clear b d. induction IH as [|c cs Hc _ IHcs]; simpl; [exact I|].
      pose proof (updateIn_leafs i f c) as Hl.
      destruct (DocTree.updateIn i f c) as [c'|].
      - intros x Hx Hfx. rewrite find_app_leaf in Hx. destruct Hl as [Hfound _].
        destruct (find (DocTree.hasId i) (DocTree.leafsOf c)) as [y|]; [|congruence].
        inversion Hx; subst. rewrite (Hc x eq_refl Hfx). reflexivity.
      - destruct (DocTree.updateFirst (DocTree.updateIn i f) cs) as [cs'|]; simpl; [|exact I].
        intros x Hx Hfx. rewrite find_app_leaf, Hl in Hx.
        rewrite (IHcs x Hx Hfx). reflexivity. }
    destruct (DocTree.updateFirst (DocTree.updateIn i f) ns) as [ns'|]; simpl; [|exact I].
    intros x Hx Hfx. rewrite (H x Hx Hfx). reflexivity.
Qed.

Lemma updateLeaf_same i f t tm :
  DocTree.findLeaf i t = Some tm -> f tm = tm -> DocTree.updateLeaf i f t = t.
Proof.
  unfold DocTree.findLeaf, DocTree.updateLeaf, DocTree.getAllLeafs. intros Hf Hfx.
  pose proof (updateIn_same i f (node t)) as H.
  destruct (DocTree.updateIn i f (node t)) as [n'|]; [|reflexivity].
  destruct (find (DocTree.hasId i) (DocTree.leafsOf (node t))) as [x|]; [|discriminate].
  simpl in Hf. inversion Hf; subst.
  rewrite (H x eq_refl Hfx). destruct t. reflexivity.
Qed.

Lemma update_same w g ws t :
  Windows.lookup w ws = Some t -> g t = t -> Windows.update w g ws = ws.
Proof.
  unfold Windows.lookup. induction ws as [|[k x] ws IH]; simpl; [reflexivity|].
  destruct (String.eqb k w); simpl.
  - intros H Hg. inversion H; subst. rewrite Hg. reflexivity.
  - intros H Hg. rewrite IH by assumption. reflexivity.
Qed.

Lemma tabClosed_absent p tm : TabMan.isOpen p tm = false -> tabClosed p tm = tm.
Proof.
  intros H. pose proof (fst_closeFile p tm) as Hfst. rewrite H in Hfst.
  unfold tabClosed, TabMan.closeFile in *.
  destruct (TabMan.findIndex p (openFiles tm)); [discriminate|reflexivity].
Qed.

Section CloseFileWays.
Context {platform : Platform}.

(** The end of [closeFile], once the tab may be closed. *)
Lemma closeTab_run w l p sa tree tm :
  Windows.lookup w (_windows sa) = Some tree ->
  DocTree.findLeaf l tree = Some tm ->
  let sb := setWindows (Windows.update w (DocTree.updateLeaf l (tabClosed p)) (_windows sa)) sa in
  exists tr,
    (closed <- leafCall w l (TabMan.closeFile p) ;;
     when closed (afterClose w l p) ;;
     ret closed) sa
    = (Ret (TabMan.isOpen p tm),
       if TabMan.isOpen p tm
       then emptyLeafRemoved w l (tabClosed p tm) (setWatcher (syncedWatcher sb) sb)
       else sa,
       tr) /\
    prompts tr = [].
Proof.
  intros Hw Hl sb.
  destruct (TabMan.isOpen p tm) eqn:Hopen.
  - assert (Hleaf : leafOf w l sb = Some (tabClosed p tm))
      by (apply (leafOf_updated w l (tabClosed p) sa tree tm); assumption).
    destruct (afterClose_run w l p sb (tabClosed p tm) Hleaf) as (tr & Hrun & Hpr).
    eexists. split.
    + step_with ltac:(apply (leafCall_run w l (TabMan.closeFile p) sa tree tm Hw Hl)).
      rewrite fst_closeFile, Hopen.
      step_with ltac:(unfold when; exact Hrun).
      reflexivity.
    + unfold prompts in *. cbn [app]. rewrite filter_app, Hpr. reflexivity.
  - assert (Hsame : sb = sa).
    { subst sb. rewrite (update_same w _ (_windows sa) tree Hw).
      - apply setWindows_same.
      - apply (updateLeaf_same l (tabClosed p) tree tm Hl). apply tabClosed_absent. exact Hopen. }
    eexists. split.
    + step_with ltac:(apply (leafCall_run w l (TabMan.closeFile p) sa tree tm Hw Hl)).
      rewrite fst_closeFile, Hopen. fold (tabClosed p). fold sb. rewrite Hsame.
      step. reflexivity.
    + reflexivity.
Qed.

(** [closeFile] when it has nothing to ask: the document is not modified,
    or not loaded, or another leaf holds the path as well. *)
Lemma closeFile_unasked response ioOk w l p st tree tm :
  Windows.lookup w (_windows st) = Some tree ->
  DocTree.findLeaf l tree = Some tm ->
  Authority.isModified p st && Nat.eqb (instances p st) 1 = false ->
  let sb := setWindows (Windows.update w (DocTree.updateLeaf l (tabClosed p)) (_windows st)) st in
  exists tr,
    closeFile response ioOk w l p st
    = (Ret (TabMan.isOpen p tm),
       if TabMan.isOpen p tm
       then emptyLeafRemoved w l (tabClosed p tm) (setWatcher (syncedWatcher sb) sb)
       else st,
       tr) /\
    prompts tr = [].
Proof.
  intros Hw Hl Hcond sb.
  destruct (closeTab_run w l p st tree tm Hw Hl) as (tr & Hrun & Hpr).
  assert (Hmay : forall idx : option nat,
             match idx with
             | Some openFile =>
                 if Authority.isModified p st && Nat.eqb (0 + instances p st) 1 then
                   consent <- closeFile_consent response ioOk p openFile ;;
                   (if consent : bool then dropDocument openFile ;; ret true
                    else ret false)
                 else ret true
             | None => ret true
             end st = (Ret true, st, [])).
  { intros [idx|]; [|reflexivity]. cbn [Nat.add]. rewrite Hcond. reflexivity. }
  eexists. split.
  - unfold closeFile.
    step_with ltac:(unfold theWindow; step; rewrite Hw; reflexivity).
    rewrite Hl.
    step_with ltac:(apply forEachLeaf_count).
    step. step.
    step_with ltac:(apply Hmay).
    cbv iota. exact Hrun.
  - cbn [app]. exact Hpr.
Qed.
End CloseFileWays.

(** The tree of the window once [closeFile] has closed the tab. *)
Lemma closed_leaf_tree w l p st watched tree tm :
  Windows.lookup w (_windows st) = Some tree ->
  DocTree.findLeaf l tree = Some tm ->
  let sb := setWindows (Windows.update w (DocTree.updateLeaf l (tabClosed p)) (_windows st)) st in
  exists tree',
    Windows.lookup w
      (_windows (emptyLeafRemoved w l (tabClosed p tm) (setWatcher watched sb))) = Some tree' /\
    (openFiles (tabClosed p tm) <> [] ->
       DocTree.findLeaf l tree' = Some (tabClosed p tm) /\
       DocTree.getAllLeafs tree' = DocTree.withLeaf l (tabClosed p) (DocTree.getAllLeafs tree)) /\
    (openFiles (tabClosed p tm) = [] ->
       2 <= List.length (DocTree.getAllLeafs tree) ->
       DocTree.getAllLeafs tree' = DocTree.withoutLeaf l (DocTree.getAllLeafs tree)).
Proof.
  intros Hw Hl sb.
  destruct (updateLeaf_leafs l (tabClosed p) tree tm Hl) as [Hleafs Hfound].
  unfold emptyLeafRemoved.
  destruct (List.length (openFiles (tabClosed p tm))) eqn:Hlen; cbn [Nat.eqb].
  - exists (DocTree.removeNode l (DocTree.updateLeaf l (tabClosed p) tree)).
    subst sb. cbn [_windows setWindows setWatcher].
    rewrite !lookup_update, Hw. split; [reflexivity|]. split.
    + intros Hne. destruct (openFiles (tabClosed p tm)); [congruence|discriminate].
    + intros _ Hlen2.
      rewrite (removeNode_leafs l _ _ Hfound).
      * rewrite Hleafs. apply withoutLeaf_withLeaf.
      * rewrite Hleafs, length_withLeaf. exact Hlen2.
  - exists (DocTree.updateLeaf l (tabClosed p) tree).
    subst sb. cbn [_windows setWindows setWatcher].
    rewrite lookup_update, Hw. split; [reflexivity|]. split.
    + intros _. split; [exact Hfound|exact Hleafs].
    + intros Hnil. rewrite Hnil in Hlen. discriminate.
Qed.

Lemma emptyLeafRemoved_frame w l tm st :
  documents (emptyLeafRemoved w l tm st) = documents st /\
  _ignoreChanges (emptyLeafRemoved w l tm st) = _ignoreChanges st /\
  _watcher (emptyLeafRemoved w l tm st) = _watcher st.
Proof. unfold emptyLeafRemoved. destruct (Nat.eqb _ 0); auto. Qed.

(** X4. When the document is not modified, or another leaf holds the path
    as well, [closeFile] closes the tab without asking: it returns [true],
    shows no dialog, keeps every loaded document and the ignore list, and
    takes the leaf out of the tree if that was its last tab and the window
    has another leaf. *)
Theorem closeFile_without_asking :
  forall (platform : Platform) (st : DocumentManager) (response : Z) (ioOk : bool)
         (windowId leafId filePath : string) (tree : DocumentTree) (tm : TabManager),
    Windows.lookup windowId (_windows st) = Some tree ->
    DocTree.findLeaf leafId tree = Some tm ->
    TabMan.isOpen filePath tm = true ->
    Authority.isModified filePath st = false \/ instances filePath st <> 1 ->
    let r := closeFile response ioOk windowId leafId filePath st in
    outcomeOf r = Ret true /\
    prompts (traceOf r) = [] /\
    documents (stateOf r) = documents st /\
    _ignoreChanges (stateOf r) = _ignoreChanges st /\
    exists tree',
      Windows.lookup windowId (_windows (stateOf r)) = Some tree' /\
      (openFiles (tabClosed filePath tm) <> [] ->
         DocTree.findLeaf leafId tree' = Some (tabClosed filePath tm) /\
         DocTree.getAllLeafs tree'
         = DocTree.withLeaf leafId (tabClosed filePath) (DocTree.getAllLeafs tree)) /\
      (openFiles (tabClosed filePath tm) = [] ->
         2 <= List.length (DocTree.getAllLeafs tree) ->
         DocTree.getAllLeafs tree' = DocTree.withoutLeaf leafId (DocTree.getAllLeafs tree)).
Proof.
  intros platform st response ioOk w l p tree tm Hw Hl Hopen Hcond r.
  assert (Hc : Authority.isModified p st && Nat.eqb (instances p st) 1 = false).
  { destruct Hcond as [Hm|Hn]; [rewrite Hm; reflexivity|].
    apply Nat.eqb_neq in Hn. rewrite Hn. apply andb_false_r. }
  destruct (closeFile_unasked response ioOk w l p st tree tm Hw Hl Hc) as (tr & Hrun & Hpr).
  subst r. rewrite Hrun, Hopen. cbn [outcomeOf stateOf traceOf fst snd].
  split; [reflexivity|]. split; [exact Hpr|].
  destruct (emptyLeafRemoved_frame w l (tabClosed p tm)
              (setWatcher
                 (syncedWatcher
                    (setWindows
                       (Windows.update w (DocTree.updateLeaf l (tabClosed p)) (_windows st)) st))
                 (setWindows
                    (Windows.update w (DocTree.updateLeaf l (tabClosed p)) (_windows st)) st)))
    as (Hd & Hi & _).
  split; [exact Hd|]. split; [exact Hi|].
  apply (closed_leaf_tree w l p st _ tree tm Hw Hl).
Qed.

Section CloseFileAsked.
Context {platform : Platform}.

(** [closeFile] up to the answer of the dialog, the answer being Save and
    the write failing. *)
Lemma closeFile_save_fails w l p st tree tm doc :
  Windows.lookup w (_windows st) = Some tree ->
  DocTree.findLeaf l tree = Some tm ->
  instances p st = 1 ->
  Authority.isModified p st = true ->
  Docs.findDoc p (documents st) = Some doc ->
  closeFile Save false w l p st
  = (Throw IOFailure, stateOf (saveFile_prepare p st),
     AskSaveChanges :: traceOf (saveFile_prepare p st)).
Proof.
  intros Hw Hl Hone Hmod Hf.
  destruct (indexOf_findDoc _ _ _ Hf) as (idx & Hi & _ & _).
  unfold closeFile.
  assert (Hhead : forall k : bool -> M bool,
             (mayClose <-
                (consent <- closeFile_consent Save false p idx ;;
                 (if consent : bool then dropDocument idx ;; ret true else ret false)) ;;
              k mayClose) st
             = (Throw IOFailure, stateOf (saveFile_prepare p st),
                AskSaveChanges :: traceOf (saveFile_prepare p st))).
  { intros k. apply bind_throw. apply bind_throw.
    unfold closeFile_consent. cbn [Save Z.eqb].
    change (AskSaveChanges :: traceOf (saveFile_prepare p st))
      with ([AskSaveChanges] ++ traceOf (saveFile_prepare p st)).
    eapply bind_eq; [reflexivity|]. cbv beta.
    apply bind_throw. apply saveFile_fails with (doc := doc). exact Hf. }
  rewrite <- (Hhead (fun mayClose : bool =>
                       if mayClose
                       then closed <- leafCall w l (TabMan.closeFile p) ;;
                            when closed (afterClose w l p) ;; ret closed
                       else ret false)).
  unfold bind at 1. unfold theWindow. unfold bind at 1. unfold gets at 1.
  rewrite Hw. cbn [ret app]. rewrite Hl.
  unfold bind at 1. rewrite forEachLeaf_count, Hone.
  unfold bind at 1. unfold gets at 1.
  unfold bind at 1. unfold isModified at 1. unfold gets at 1.
  rewrite Hi, Hmod. cbn [Nat.add andb Nat.eqb Save Z.eqb].
  destruct ((mayClose <-
               (consent <- closeFile_consent Save false p idx ;;
                (if consent : bool then dropDocument idx ;; ret true else ret false)) ;;
             (if mayClose
              then closed <- leafCall w l (TabMan.closeFile p) ;;
                   when closed (afterClose w l p) ;; ret closed
              else ret false)) st) as [[o s] t].
  destruct o; reflexivity.
Qed.

(** [closeFile], the answer being Save and the write succeeding. *)
Lemma closeFile_saved w l p st tree tm doc idx :
  Windows.lookup w (_windows st) = Some tree ->
  DocTree.findLeaf l tree = Some tm ->
  instances p st = 1 ->
  Authority.isModified p st = true ->
  Docs.findDoc p (documents st) = Some doc ->
  Docs.indexOf p (documents st) = Some idx ->
  let sa := setDocuments (TabMan.removeAt idx (documents st))
              (setIgnoreChanges (_ignoreChanges st ++ [p]) st) in
  let sb := setWindows (Windows.update w (DocTree.updateLeaf l (tabClosed p)) (_windows sa)) sa in
  exists tr,
    closeFile Save true w l p st
    = (Ret (TabMan.isOpen p tm),
       if TabMan.isOpen p tm
       then emptyLeafRemoved w l (tabClosed p tm) (setWatcher (syncedWatcher sb) sb)
       else sa,
       tr) /\
    prompts tr = [AskSaveChanges] /\
    In (FsSave (descriptor doc) (document doc)) tr.
Proof.
  intros Hw Hl Hone Hmod Hf Hi sa sb.
  assert (Hwa : Windows.lookup w (_windows sa) = Some tree) by exact Hw.
  destruct (closeTab_run w l p sa tree tm Hwa Hl) as (tr & Hrun & Hpr).
  assert (Hsave : (consent <- closeFile_consent Save true p idx ;;
                   (if consent : bool then dropDocument idx ;; ret true else ret false)) st
                  = (Ret true, sa,
                     [AskSaveChanges]
                     ++ (traceOf (saveFile_prepare p st)
                      ++ (if isFile (descriptor doc)
                          then [SynchronizeDatabases
                                  (flat_map libraryOf
                                     (documents (stateOf (saveFile_prepare p st))))]
                          else [])
                      ++ [Broadcast CHANGE_FILE_STATUS
                            (mkContext None None (Some p) (Some "modification"));
                          Broadcast FILE_SAVED (mkContext None None (Some p) None)])
                     ++ [] ++ [])).
  { assert (Hconsent : closeFile_consent Save true p idx st
                       = (Ret true, stateOf (saveFile_prepare p st),
                          [AskSaveChanges]
                          ++ (traceOf (saveFile_prepare p st)
                              ++ (if isFile (descriptor doc)
                                  then [SynchronizeDatabases
                                          (flat_map libraryOf
                                             (documents (stateOf (saveFile_prepare p st))))]
                                  else [])
                              ++ [Broadcast CHANGE_FILE_STATUS
                                    (mkContext None None (Some p) (Some "modification"));
                                  Broadcast FILE_SAVED (mkContext None None (Some p) None)])
                          ++ [])).
    { unfold closeFile_consent. cbn [Save Z.eqb].
      eapply bind_eq; [reflexivity|]. cbv beta.
      eapply bind_eq; [apply (saveFile_succeeds st p idx doc Hi Hf)|]. cbv beta.
      reflexivity. }
    unfold bind at 1. rewrite Hconsent. cbv iota.
    unfold dropDocument, bind, modify, ret. cbn [fst snd].
    rewrite !app_nil_r.
    rewrite (saveFile_prepare_found st p idx doc Hi Hf).
    unfold ret, sa. cbn [stateOf fst snd documents setDocuments setIgnoreChanges].
    rewrite removeAt_updateAt. destruct st; reflexivity. }
  eexists. split; [|split].
  - unfold closeFile.
    step_with ltac:(unfold theWindow; step; rewrite Hw; reflexivity).
    rewrite Hl.
    step_with ltac:(apply forEachLeaf_count).
    step. step.
    rewrite Hi, Hmod, Hone. cbn [Nat.add andb Nat.eqb Save Z.eqb].
    step_with ltac:(exact Hsave).
    cbv iota. exact Hrun.
  - rewrite (saveFile_prepare_found st p idx doc Hi Hf). cbn [traceOf snd app].
    unfold prompts in *. cbn [filter isPrompt].
    rewrite !filter_app, Hpr.
    destruct (isFile (descriptor doc)); reflexivity.
  - rewrite (saveFile_prepare_found st p idx doc Hi Hf). cbn [traceOf snd].
    rewrite !in_app_iff. cbn [In]. intuition auto.
Qed.

(** [closeFile], the answer being Discard, whether or not the leaf holds
    the path. *)
Lemma closeFile_discard_any ioOk w l p st tree tm idx :
  Windows.lookup w (_windows st) = Some tree ->
  DocTree.findLeaf l tree = Some tm ->
  instances p st = 1 ->
  Authority.isModified p st = true ->
  Docs.indexOf p (documents st) = Some idx ->
  let sa := setDocuments (discarded idx (documents st)) st in
  let sb := setWindows (Windows.update w (DocTree.updateLeaf l (tabClosed p)) (_windows sa)) sa in
  exists tr,
    closeFile Discard ioOk w l p st
    = (Ret (TabMan.isOpen p tm),
       if TabMan.isOpen p tm
       then emptyLeafRemoved w l (tabClosed p tm) (setWatcher (syncedWatcher sb) sb)
       else sa,
       tr) /\
    prompts tr = [AskSaveChanges].
Proof.
  intros Hw Hl Hone Hmod Hi sa sb.
  assert (Hwa : Windows.lookup w (_windows sa) = Some tree) by exact Hw.
  destruct (closeTab_run w l p sa tree tm Hwa Hl) as (tr & Hrun & Hpr).
  eexists. split.
  - unfold closeFile.
    step_with ltac:(unfold theWindow; step; rewrite Hw; reflexivity).
    rewrite Hl.
    step_with ltac:(apply forEachLeaf_count).
    step. step.
    rewrite Hi, Hmod, Hone. cbn [Nat.add andb Nat.eqb Discard Z.eqb Pos.eqb].
    step_with ltac:(
      step_with ltac:(unfold closeFile_consent, assignDoc; cbn [Discard Z.eqb Pos.eqb];
                      step; step; reflexivity);
      cbv iota; unfold dropDocument; step; reflexivity).
    cbv iota. exact Hrun.
  - unfold prompts in *. cbn [filter isPrompt app]. rewrite Hpr. reflexivity.
Qed.
End CloseFileAsked.

(** X5. The answer Save. If the write succeeds the document is written,
    dropped from the loaded documents and its tab closed. If the write
    fails, [closeFile] throws with the tab still open and the document
    still loaded, but already marked as saved: closing the tab again then
    goes through without any dialog, whatever the user would answer. *)
Theorem closeFile_save_answer :
  forall (platform : Platform) (st : DocumentManager)
         (windowId leafId filePath : string) (tree : DocumentTree) (tm : TabManager)
         (doc : Document),
    Windows.lookup windowId (_windows st) = Some tree ->
    DocTree.findLeaf leafId tree = Some tm ->
    TabMan.isOpen filePath tm = true ->
    instances filePath st = 1 ->
    Authority.isModified filePath st = true ->
    Docs.findDoc filePath (documents st) = Some doc ->
    (let r := closeFile Save true windowId leafId filePath st in
     outcomeOf r = Ret true /\
     prompts (traceOf r) = [AskSaveChanges] /\
     In (FsSave (descriptor doc) (document doc)) (traceOf r) /\
     _ignoreChanges (stateOf r) = _ignoreChanges st ++ [filePath] /\
     (exists idx,
         Docs.indexOf filePath (documents st) = Some idx /\
         documents (stateOf r) = TabMan.removeAt idx (documents st)) /\
     exists tree',
       Windows.lookup windowId (_windows (stateOf r)) = Some tree' /\
       (openFiles (tabClosed filePath tm) <> [] ->
          DocTree.findLeaf leafId tree' = Some (tabClosed filePath tm))) /\
    (let r := closeFile Save false windowId leafId filePath st in
     outcomeOf r = Throw IOFailure /\
     prompts (traceOf r) = [AskSaveChanges] /\
     _windows (stateOf r) = _windows st /\
     (exists doc',
         Docs.findDoc filePath (documents (stateOf r)) = Some doc' /\
         document doc' = document doc /\
         currentVersion doc' = currentVersion doc) /\
     Authority.isModified filePath (stateOf r) = false /\
     forall (response : Z) (ioOk : bool),
       let r2 := closeFile response ioOk windowId leafId filePath (stateOf r) in
       outcomeOf r2 = Ret true /\ prompts (traceOf r2) = []).
Proof.
  intros platform st w l p tree tm doc Hw Hl Hopen Hone Hmod Hf.
  destruct (indexOf_findDoc _ _ _ Hf) as (idx & Hi & _ & _).
  split.
  - intros r.
    destruct (closeFile_saved w l p st tree tm doc idx Hw Hl Hone Hmod Hf Hi)
      as (tr & Hrun & Hpr & Hin).
    subst r. rewrite Hrun, Hopen. cbn [outcomeOf stateOf traceOf fst snd].
    split; [reflexivity|]. split; [exact Hpr|]. split; [exact Hin|].
    set (sa := setDocuments (TabMan.removeAt idx (documents st))
                 (setIgnoreChanges (_ignoreChanges st ++ [p]) st)).
    set (sb := setWindows
                 (Windows.update w (DocTree.updateLeaf l (tabClosed p)) (_windows sa)) sa).
    destruct (emptyLeafRemoved_frame w l (tabClosed p tm) (setWatcher (syncedWatcher sb) sb))
      as (Hd & Hg & _).
    split; [rewrite Hg; reflexivity|].
    split; [exists idx; split; [exact Hi|rewrite Hd; reflexivity]|].
    destruct (closed_leaf_tree w l p sa (syncedWatcher sb) tree tm Hw Hl)
      as (tree' & Hlook & Hkeep & _).
    exists tree'. split; [exact Hlook|]. intros Hne. apply (Hkeep Hne).
  - intros r.
    pose proof (closeFile_save_fails w l p st tree tm doc Hw Hl Hone Hmod Hf) as Hrun.
    rewrite (saveFile_prepare_found st p idx doc Hi Hf) in Hrun.
    cbn [stateOf traceOf fst snd] in Hrun.
    subst r. rewrite Hrun. cbn [outcomeOf stateOf traceOf fst snd].
    set (s1 := setIgnoreChanges (_ignoreChanges st ++ [p])
                 (setDocuments
                    (Docs.updateAt idx (markedSaved (isFile (descriptor doc)) (document doc))
                       (documents st)) st)).
    destruct (markedSaved_fields (isFile (descriptor doc)) (document doc) doc)
      as (Hpath & Hlast & Hcur & Hdoc).
    destruct (findDoc_updateAt p (documents st) idx doc
                (markedSaved (isFile (descriptor doc)) (document doc)) Hi Hf Hpath)
      as (Hf1 & _).
    assert (Hclean : Authority.isModified p s1 = false).
    { unfold Authority.isModified, s1. cbn [documents setIgnoreChanges setDocuments].
      rewrite Hf1. unfold Docs.modified. rewrite Hlast, Hcur, Z.eqb_refl. reflexivity. }
    split; [reflexivity|].
    split.
    { unfold prompts. cbn [filter isPrompt]. rewrite filter_app.
      destruct (isFile (descriptor doc)); reflexivity. }
    split; [reflexivity|].
    split.
    { exists (markedSaved (isFile (descriptor doc)) (document doc) doc).
      split; [exact Hf1|]. split; [exact Hdoc|exact Hcur]. }
    split; [exact Hclean|].
    intros response ioOk.
    assert (Hc : Authority.isModified p s1 && Nat.eqb (instances p s1) 1 = false)
      by (rewrite Hclean; reflexivity).
    destruct (closeFile_unasked response ioOk w l p s1 tree tm Hw Hl Hc) as (tr & Hrun2 & Hpr).
    rewrite Hrun2, Hopen. cbn [outcomeOf traceOf fst snd].
    split; [reflexivity|exact Hpr].
Qed.

(** X6. [closeFile] asks before it looks at the leaf it was given. Called
    for a leaf that does not hold the path while exactly one other leaf
    holds the modified document, the answer Don't save drops the document
    from the loaded documents, although no tab is closed and the result is
    [false]: the other leaf keeps a tab for a document that is no longer
    loaded. *)
Theorem closeFile_discards_for_other_leaf :
  forall (platform : Platform) (st : DocumentManager) (ioOk : bool)
         (windowId leafId filePath : string) (tree : DocumentTree) (tm : TabManager),
    Windows.lookup windowId (_windows st) = Some tree ->
    DocTree.findLeaf leafId tree = Some tm ->
    TabMan.isOpen filePath tm = false ->
    instances filePath st = 1 ->
    Authority.isModified filePath st = true ->
    NoDup (trackedPaths st) ->
    let r := closeFile Discard ioOk windowId leafId filePath st in
    outcomeOf r = Ret false /\
    prompts (traceOf r) = [AskSaveChanges] /\
    _windows (stateOf r) = _windows st /\
    instances filePath (stateOf r) = 1 /\
    Docs.findDoc filePath (documents (stateOf r)) = None /\
    forall q, q <> filePath ->
      Docs.findDoc q (documents (stateOf r)) = Docs.findDoc q (documents st).
Proof.
  intros platform st ioOk w l p tree tm Hw Hl Hopen Hone Hmod Hnd r.
  destruct (isModified_found p st Hmod) as (idx & doc & Hi & Hf & _ & _).
  destruct (closeFile_discard_any ioOk w l p st tree tm idx Hw Hl Hone Hmod Hi)
    as (tr & Hrun & Hpr).
  subst r. rewrite Hrun, Hopen. cbn [outcomeOf stateOf traceOf fst snd].
  split; [reflexivity|]. split; [exact Hpr|]. split; [reflexivity|].
  split; [exact Hone|].
  cbn [documents setDocuments].
  split; [apply findDoc_dropped; assumption|].
  intros q Hq. unfold discarded.
  assert (Hi' : Docs.indexOf p
                  (Docs.updateAt idx (fun d => Docs.setLastSaved (currentVersion d) d)
                     (documents st)) = Some idx).
  { apply (findDoc_updateAt p (documents st) idx doc
             (fun d => Docs.setLastSaved (currentVersion d) d) Hi Hf eq_refl). }
  rewrite (findDoc_removeAt_other p q _ idx Hi' Hq).
  apply (findDoc_updateAt_other p q (documents st) idx _ Hi Hq). intros d. reflexivity.
Qed.

(** ** What the loops over the leaves emit *)

Section VisitEmits.
Variable S : Type.

(** A body whose effects do not depend on the captured variables emits,
    leaf after leaf, what it emits for each leaf. *)
Lemma visitNode_emits (body : string -> TabManager -> S -> TabManager * S * list Effect)
    (e : string -> TabManager -> list Effect) n s :
  (forall i tm s, snd (body i tm s) = e i tm) ->
  snd (visitNode body n s) = flat_map (fun l => e (fst l) (snd l)) (DocTree.leafsOf n).
Proof.
  intros Hb. revert s.
  induction n as [i tm | b d ns IH] using DocTree.node_ind; intros s; simpl.
  - specialize (Hb i tm s). destruct (body i tm s) as [[tm' s'] tr]. simpl in *.
    rewrite Hb, app_nil_r. reflexivity.
  - set (go := visitChildren (visitNode body)).
    assert (H : snd (go ns s)
                = flat_map (fun l => e (fst l) (snd l)) (flat_map DocTree.leafsOf ns)).
    { clear b d. revert s. induction IH as [|c cs Hc _ IHcs]; intros s; simpl.
      - reflexivity.
      - specialize (Hc s). destruct (visitNode body c s) as [[c' s1] t1].
        specialize (IHcs s1). destruct (go cs s1) as [[cs' s2] t2].
        simpl in *. rewrite flat_map_app, Hc, IHcs. reflexivity. }
    destruct (go ns s) as [[ns' s'] tr]. simpl in *. exact H.
Qed.

Lemma visitWindows_emits
    (body : string -> string -> TabManager -> S -> TabManager * S * list Effect)
    (e : string -> string -> TabManager -> list Effect) ws s :
  (forall w i tm s, snd (body w i tm s) = e w i tm) ->
  snd (visitWindows body ws s)
  = flat_map (fun w => flat_map (fun l => e (fst w) (fst l) (snd l))
                         (DocTree.getAllLeafs (snd w))) ws.
Proof.
  intros Hb. revert s. induction ws as [|[w t] ws IH]; intros s; simpl.
  - reflexivity.
  - pose proof (visitNode_emits (body w) (e w) (node t) s (Hb w)) as Hn.
    destruct (visitNode (body w) (node t) s) as [[n' s1] t1].
    specialize (IH s1). destruct (visitWindows body ws s1) as [[ws' s2] t2].
    simpl in *. rewrite Hn, IH. reflexivity.
Qed.
End VisitEmits.

Lemma forceClose_emits p w i tm u :
  snd (forceClose p w i tm u)
  = if TabMan.isOpen p tm then [Broadcast CLOSE_FILE (leafContext w i (Some p))] else [].
Proof.
  unfold forceClose. destruct (TabMan.isOpen p tm) eqn:Hopen; [|reflexivity].
  pose proof (fst_closeFile p (TabMan.setPinnedStatus p false tm)) as Hfst.
  unfold TabMan.isOpen in Hfst. rewrite paths_setPinnedStatus in Hfst.
  fold (TabMan.isOpen p tm) in Hfst. rewrite Hopen in Hfst.
  destruct (TabMan.closeFile p (TabMan.setPinnedStatus p false tm)) as [success closed].
  simpl in *. subst success. reflexivity.
Qed.

Lemma length_closeEvents p ws :
  List.length (closeEvents p ws)
  = List.length (filter (fun l => TabMan.isOpen p (snd l)) (Windows.allLeafs ws)).
Proof.
  unfold closeEvents, Windows.allLeafs.
  induction ws as [|[w t] ws IH]; simpl; [reflexivity|].
  rewrite filter_app, !length_app, IH. f_equal.
  induction (DocTree.getAllLeafs t) as [|l ls IHl]; simpl; [reflexivity|].
  rewrite length_app, IHl. destruct (TabMan.isOpen p (snd l)); reflexivity.
Qed.

(** X7. [closeFileEverywhere] touches nothing but the tab strips: the loaded
    documents (a modified one included), the ignore list and the watched
    paths stay as they are, no window and no leaf is removed even when a
    leaf is left without tabs, and the only effects are the CLOSE_FILE
    events, one for every leaf that held the path. *)
Theorem closeFileEverywhere_only_closes_tabs :
  forall (st : DocumentManager) (filePath : string),
    let r := closeFileEverywhere filePath st in
    documents (stateOf r) = documents st /\
    _ignoreChanges (stateOf r) = _ignoreChanges st /\
    _watcher (stateOf r) = _watcher st /\
    Authority.isModified filePath (stateOf r) = Authority.isModified filePath st /\
    map fst (_windows (stateOf r)) = map fst (_windows st) /\
    map fst (Windows.allLeafs (_windows (stateOf r)))
    = map fst (Windows.allLeafs (_windows st)) /\
    traceOf r = closeEvents filePath (_windows st) /\
    List.length (traceOf r) = instances filePath st.
Proof.
  intros st p r.
  assert (Htrace : traceOf r = closeEvents p (_windows st)).
  { subst r. unfold closeFileEverywhere.
    pose proof (visitWindows_emits unit (forceClose p)
                  (fun w i tm =>
                     if TabMan.isOpen p tm
                     then [Broadcast CLOSE_FILE (leafContext w i (Some p))] else [])
                  (_windows st) tt (forceClose_emits p)) as He.
    destruct (visitWindows (forceClose p) (_windows st) tt) as [[ws' u] tr].
    exact He. }
  destruct (closeFileEverywhere_run p st) as (tr & Hrun & _).
  assert (Hstate : stateOf r = setWindows (mapWindows (forceClosed p) (_windows st)) st).
  { subst r. rewrite Hrun. reflexivity. }
  rewrite Hstate, Htrace.
  repeat split.
  - cbn [_windows setWindows]. apply keys_mapWindows.
  - cbn [_windows setWindows]. rewrite allLeafs_mapWindows, map_map.
    apply map_ext. intros l. reflexivity.
  - apply length_closeEvents.
Qed.

(** ** hasMovedFile, start to end *)

Section VisitCollects.
Variable X : Type.

(** A body that appends to a captured list collects, leaf after leaf, what
    it appends for each leaf. *)
Lemma visitNode_collects
    (body : string -> TabManager -> list X -> TabManager * list X * list Effect)
    (c : string -> TabManager -> list X) n s :
  (forall i tm s, snd (fst (body i tm s)) = s ++ c i tm) ->
  snd (fst (visitNode body n s))
  = s ++ flat_map (fun l => c (fst l) (snd l)) (DocTree.leafsOf n).
Proof.
  intros Hb. revert s.
  induction n as [i tm | b d ns IH] using DocTree.node_ind; intros s; simpl.
  - specialize (Hb i tm s). destruct (body i tm s) as [[tm' s'] tr]. simpl in *.
    rewrite Hb, app_nil_r. reflexivity.
  - set (go := visitChildren (visitNode body)).
    assert (H : snd (fst (go ns s))
                = s ++ flat_map (fun l => c (fst l) (snd l)) (flat_map DocTree.leafsOf ns)).
    { clear b d. revert s. induction IH as [|k ks Hk _ IHks]; intros s; simpl.
      - rewrite app_nil_r. reflexivity.
      - specialize (Hk s). destruct (visitNode body k s) as [[k' s1] t1].
        specialize (IHks s1). destruct (go ks s1) as [[ks' s2] t2].
        simpl in *. rewrite flat_map_app, IHks, Hk, app_assoc. reflexivity. }
    destruct (go ns s) as [[ns' s'] tr]. simpl in *. exact H.
Qed.

Lemma visitWindows_collects
    (body : string -> string -> TabManager -> list X -> TabManager * list X * list Effect)
    (c : string -> string -> TabManager -> list X) ws s :
  (forall w i tm s, snd (fst (body w i tm s)) = s ++ c w i tm) ->
  snd (fst (visitWindows body ws s))
  = s ++ flat_map (fun w => flat_map (fun l => c (fst w) (fst l) (snd l))
                              (DocTree.getAllLeafs (snd w))) ws.
Proof.
  intros Hb. revert s. induction ws as [|[w t] ws IH]; intros s; simpl.
  - rewrite app_nil_r. reflexivity.
  - pose proof (visitNode_collects (body w) (c w) (node t) s (Hb w)) as Hn.
    destruct (visitNode (body w) (node t) s) as [[n' s1] t1].
    specialize (IH s1). destruct (visitWindows body ws s1) as [[ws' s2] t2].
    simpl in *. rewrite IH, Hn, app_assoc. reflexivity.
Qed.
End VisitCollects.

Lemma configSets_holders p ws :
  flat_map (fun w : string * DocumentTree =>
              flat_map (fun l : string * TabManager =>
                          if TabMan.isOpen p (snd l) then [ConfigSet] else [])
                       (DocTree.getAllLeafs (snd w))) ws
  = map (fun _ => ConfigSet) (holders p ws).
Proof.
  unfold holders. induction ws as [|[w t] ws IH]; simpl; [reflexivity|].
  rewrite map_app, IH. f_equal.
  induction (DocTree.getAllLeafs t) as [|l ls IHl]; simpl; [reflexivity|].
  rewrite map_app, IHl. destruct (TabMan.isOpen p (snd l)); reflexivity.
Qed.

Lemma length_holders p ws :
  List.length (holders p ws)
  = List.length (filter (fun l => TabMan.isOpen p (snd l)) (Windows.allLeafs ws)).
Proof.
  unfold holders, Windows.allLeafs.
  induction ws as [|[w t] ws IH]; simpl; [reflexivity|].
  rewrite filter_app, !length_app, IH. f_equal.
  induction (DocTree.getAllLeafs t) as [|l ls IHl]; simpl; [reflexivity|].
  rewrite length_app, IHl. destruct (TabMan.isOpen p (snd l)); reflexivity.
Qed.

(** The loop of [hasMovedFile] over the leaves. *)
Lemma forEachLeaf_renameTab oldPath newPath st :
  forEachLeaf (renameTab oldPath newPath) [] st
  = (Ret (holders oldPath (_windows st)),
     setWindows (mapWindows (tabRenamed oldPath newPath) (_windows st)) st,
     map (fun _ => ConfigSet) (holders oldPath (_windows st))).
Proof.
  unfold forEachLeaf.
  set (body := fun (w i : string) (tm : TabManager) (s : list (string * string)) =>
                 let '(stateHasChanged, tm', s') := renameTab oldPath newPath tm w i s in
                 (tm', s', if stateHasChanged : bool then [ConfigSet] else [])).
  assert (Hbody : forall w i tm s,
             body w i tm s
             = (tabRenamed oldPath newPath tm,
                s ++ (if TabMan.isOpen oldPath tm then [(w, i)] else []),
                if TabMan.isOpen oldPath tm then [ConfigSet] else [])).
  { intros w i tm s. unfold body, renameTab, tabRenamed, TabMan.replaceFilePath.
    destruct (TabMan.isOpen oldPath tm); cbn [fst snd]; rewrite ?app_nil_r; reflexivity. }
  pose proof (visitWindows_map _ body (tabRenamed oldPath newPath) (_windows st) []
                (fun w i tm s => f_equal (fun x => fst (fst x)) (Hbody w i tm s))) as Hmap.
  pose proof (visitWindows_collects _ body
                (fun w i tm => if TabMan.isOpen oldPath tm then [(w, i)] else [])
                (_windows st) []
                (fun w i tm s => f_equal (fun x => snd (fst x)) (Hbody w i tm s))) as Hacc.
  pose proof (visitWindows_emits _ body
                (fun w i tm => if TabMan.isOpen oldPath tm then [ConfigSet] else [])
                (_windows st) []
                (fun w i tm s => f_equal snd (Hbody w i tm s))) as Htr.
  cbv beta in Hacc, Htr. rewrite configSets_holders in Htr. fold (holders oldPath (_windows st)) in Hacc.
  destruct (visitWindows body (_windows st) []) as [[ws' s'] tr].
  cbn [fst snd app] in *. subst. reflexivity.
Qed.

Section HasMovedFileRuns.
Context {platform : Platform}.

Lemma hasMovedFile_loaded oldPath newPath st idx :
  Docs.indexOf oldPath (documents st) = Some idx ->
  let s2 := setWindows (mapWindows (tabRenamed oldPath newPath) (_windows st))
              (setDocuments (Docs.updateAt idx (moved newPath) (documents st)) st) in
  hasMovedFile oldPath newPath st
  = (Ret tt, setWatcher (syncedWatcher s2) s2,
     map (fun _ => ConfigSet) (holders oldPath (_windows st))
     ++ (unwatchCalls (getOpenFiles s2) (_watcher st)
         ++ addCalls (_watcher st) (getOpenFiles s2))
     ++ flat_map (renameEvents oldPath newPath) (holders oldPath (_windows st))).
Proof.
  intros Hi s2.
  unfold hasMovedFile.
  change (map (fun _ => ConfigSet) (holders oldPath (_windows st))
          ++ (unwatchCalls (getOpenFiles s2) (_watcher st)
              ++ addCalls (_watcher st) (getOpenFiles s2))
          ++ flat_map (renameEvents oldPath newPath) (holders oldPath (_windows st)))
    with ([] ++ [] ++ map (fun _ => ConfigSet) (holders oldPath (_windows st))
          ++ (unwatchCalls (getOpenFiles s2) (_watcher st)
              ++ addCalls (_watcher st) (getOpenFiles s2))
          ++ flat_map (renameEvents oldPath newPath) (holders oldPath (_windows st))).
  step. rewrite Hi.
  step_with ltac:(unfold assignDoc, modify; reflexivity).
  step_with ltac:(exact (forEachLeaf_renameTab oldPath newPath
                           (setDocuments (Docs.updateAt idx (moved newPath) (documents st)) st))).
  step_with ltac:(exact (syncWatchedFilePaths_run s2)).
  apply (forM_emits _ (renameEvents oldPath newPath)).
  intros x s. reflexivity.
Qed.

Lemma hasMovedFile_unloaded oldPath newPath st :
  Docs.indexOf oldPath (documents st) = None ->
  hasMovedFile oldPath newPath st = (Ret tt, st, []).
Proof.
  intros Hi. unfold hasMovedFile. unfold bind, gets. rewrite Hi. reflexivity.
Qed.
End HasMovedFileRuns.

(** The paths of a strip after a rename. *)
Lemma paths_tabRenamed oldPath newPath tm :
  TabMan.paths (tabRenamed oldPath newPath tm)
  = map (fun q => if String.eqb q oldPath then newPath else q) (TabMan.paths tm).
Proof.
  unfold tabRenamed, TabMan.replaceFilePath.
  destruct (TabMan.isOpen oldPath tm) eqn:Hopen; cbn [snd].
  - unfold TabMan.paths. cbn [openFiles]. rewrite !map_map. apply map_ext.
    intros f. destruct (String.eqb (path f) oldPath); reflexivity.
  - assert (Hno : ~ In oldPath (TabMan.paths tm)).
    { intros Hin. apply isOpen_In in Hin. congruence. }
    induction (TabMan.paths tm) as [|q qs IH]; [reflexivity|].
    cbn [map]. destruct (String.eqb q oldPath) eqn:Hq.
    + apply String.eqb_eq in Hq. subst q. exfalso. apply Hno. left. reflexivity.
    + f_equal. apply IH. intros Hin. apply Hno. right. exact Hin.
Qed.

Lemma isOpen_tabRenamed_old oldPath newPath tm :
  oldPath <> newPath -> TabMan.isOpen oldPath (tabRenamed oldPath newPath tm) = false.
Proof.
  intros Hne. destruct (TabMan.isOpen oldPath (tabRenamed oldPath newPath tm)) eqn:Hopen;
    [|reflexivity].
  apply isOpen_In in Hopen. rewrite paths_tabRenamed in Hopen.
  apply in_map_iff in Hopen. destruct Hopen as (q & Hq & _).
  destruct (String.eqb q oldPath) eqn:He.
  - congruence.
  - apply String.eqb_neq in He. congruence.
Qed.

Lemma isOpen_tabRenamed_new oldPath newPath tm :
  TabMan.isOpen oldPath tm = true -> TabMan.isOpen newPath (tabRenamed oldPath newPath tm) = true.
Proof.
  intros Hopen. apply isOpen_In. rewrite paths_tabRenamed. apply in_map_iff.
  exists oldPath. rewrite String.eqb_refl. split; [reflexivity|].
  apply isOpen_In. exact Hopen.
Qed.

(** The loaded documents once the first one with [oldPath] has moved. *)
Lemma findDoc_moved {platform : Platform} oldPath newPath ds idx doc :
  Docs.indexOf oldPath ds = Some idx ->
  Docs.findDoc oldPath ds = Some doc ->
  (forall q, q <> oldPath -> q <> newPath ->
             Docs.findDoc q (Docs.updateAt idx (moved newPath) ds) = Docs.findDoc q ds) /\
  (Docs.findDoc newPath ds = None ->
   Docs.findDoc newPath (Docs.updateAt idx (moved newPath) ds) = Some (moved newPath doc)) /\
  (oldPath <> newPath -> NoDup (map filePath ds) ->
   Docs.findDoc oldPath (Docs.updateAt idx (moved newPath) ds) = None).
Proof.
  revert idx. induction ds as [|d ds IH]; intros idx Hi Hf; [discriminate|].
  unfold Docs.findDoc in *. cbn [Docs.indexOf find] in Hi, Hf.
  destruct (Docs.hasPath oldPath d) eqn:Hd.
  - inversion Hi; subst idx. inversion Hf; subst d. clear Hi Hf.
    cbn [Docs.updateAt find].
    unfold Docs.hasPath in *. cbn [filePath moved]. apply String.eqb_eq in Hd.
    split; [|split].
    + intros q Hq Hq'.
      destruct (String.eqb newPath q) eqn:E1; [apply String.eqb_eq in E1; congruence|].
      destruct (String.eqb (filePath doc) q) eqn:E2;
        [apply String.eqb_eq in E2; congruence|reflexivity].
    + intros _. rewrite String.eqb_refl. reflexivity.
    + intros Hne Hnd.
      destruct (String.eqb newPath oldPath) eqn:E1; [apply String.eqb_eq in E1; congruence|].
      cbn [map] in Hnd. apply NoDup_cons_iff in Hnd. destruct Hnd as [Hnotin _].
      rewrite Hd in Hnotin.
      destruct (find (fun d => String.eqb (filePath d) oldPath) ds) as [d'|] eqn:Hfind;
        [|reflexivity].
      exfalso. apply Hnotin. apply find_some in Hfind. destruct Hfind as [Hin He].
      apply String.eqb_eq in He. rewrite <- He. apply in_map. exact Hin.
  - destruct (Docs.indexOf oldPath ds) as [i|] eqn:Hi'; [|discriminate].
    cbn [option_map] in Hi. inversion Hi; subst idx. clear Hi.
    destruct (IH i eq_refl Hf) as (Hother & Hnew & Hold).
    cbn [Docs.updateAt find].
    split; [|split].
    + intros q Hq Hq'. rewrite (Hother q Hq Hq'). reflexivity.
    + intros Hnone. destruct (Docs.hasPath newPath d); [discriminate|]. apply Hnew. exact Hnone.
    + intros Hne Hnd. rewrite Hd. apply Hold; [exact Hne|].
      inversion Hnd; assumption.
Qed.

(** X8. [hasMovedFile] for a path that is not loaded does nothing at all,
    even when tabs hold that path. For a loaded document it moves the
    document, with its text, versions and modification status, under the
    new path, renames the tab in every leaf that holds it, brings the
    watched paths in line with the tabs, and tells each of those leaves,
    after everything is renamed, that the old file closed and the new one
    opened. *)
Theorem hasMovedFile_carries_document :
  forall (platform : Platform) (st : DocumentManager) (oldPath newPath : string),
    let r := hasMovedFile oldPath newPath st in
    outcomeOf r = Ret tt /\
    _ignoreChanges (stateOf r) = _ignoreChanges st /\
    (Docs.findDoc oldPath (documents st) = None -> r = (Ret tt, st, [])) /\
    (forall doc,
        Docs.findDoc oldPath (documents st) = Some doc ->
        Docs.findDoc newPath (documents st) = None ->
        Docs.findDoc newPath (documents (stateOf r)) = Some (moved newPath doc) /\
        document (moved newPath doc) = document doc /\
        currentVersion (moved newPath doc) = currentVersion doc /\
        Authority.isModified newPath (stateOf r) = Authority.isModified oldPath st /\
        (NoDup (trackedPaths st) -> Docs.findDoc oldPath (documents (stateOf r)) = None) /\
        (forall q, q <> oldPath -> q <> newPath ->
                   Docs.findDoc q (documents (stateOf r)) = Docs.findDoc q (documents st)) /\
        Windows.allLeafs (_windows (stateOf r))
        = map (onStrip (tabRenamed oldPath newPath)) (Windows.allLeafs (_windows st)) /\
        ~ referenced oldPath (stateOf r) /\
        (forall q, In q (_watcher (stateOf r)) <-> referenced q (stateOf r)) /\
        exists calls,
          Forall (fun e => isWatcherCall e = true) calls /\
          traceOf r
          = map (fun _ => ConfigSet) (holders oldPath (_windows st))
            ++ calls
            ++ flat_map (renameEvents oldPath newPath) (holders oldPath (_windows st))).
Proof.
  intros platform st oldPath newPath r.
  destruct (Docs.findDoc oldPath (documents st)) as [doc|] eqn:Hf.
  - destruct (indexOf_findDoc _ _ _ Hf) as (idx & Hi & _ & _).
    pose proof (hasMovedFile_loaded oldPath newPath st idx Hi) as Hrun. cbv zeta in Hrun.
    subst r. rewrite Hrun. cbn [outcomeOf stateOf traceOf fst snd].
    split; [reflexivity|]. split; [reflexivity|]. split; [discriminate|].
    intros doc0 Hdoc0 Hnew. inversion Hdoc0; subst doc0. clear Hdoc0.
    destruct (findDoc_moved oldPath newPath (documents st) idx doc Hi Hf)
      as (Hother & Hmoved & Hgone).
    assert (Hne : oldPath <> newPath) by (intros He; subst; congruence).
    cbn [documents _windows _watcher setWatcher setWindows setDocuments].
    split; [exact (Hmoved Hnew)|]. split; [reflexivity|]. split; [reflexivity|].
    split.
    { unfold Authority.isModified.
      cbn [documents _windows _watcher setWatcher setWindows setDocuments].
      rewrite (Hmoved Hnew), Hf. reflexivity. }
    split; [intros Hnd; exact (Hgone Hne Hnd)|].
    split; [exact Hother|].
    split; [apply allLeafs_mapWindows|].
    split.
    { intros (l & Hl & Hopen).
      cbn [documents _windows _watcher setWatcher setWindows setDocuments] in Hl.
      rewrite allLeafs_mapWindows in Hl. apply in_map_iff in Hl.
      destruct Hl as (l0 & He & _). subst l. unfold onStrip in Hopen. cbn [snd] in Hopen.
      rewrite (isOpen_tabRenamed_old oldPath newPath (snd l0) Hne) in Hopen. discriminate. }
    split.
    { intros q. rewrite In_syncedWatcher, In_getOpenFiles. reflexivity. }
    eexists. split; [|reflexivity].
    apply Forall_app. split.
    + unfold unwatchCalls. apply Forall_forall. intros e He.
      apply in_map_iff in He. destruct He as (x & <- & _). reflexivity.
    + unfold addCalls. apply Forall_forall. intros e He.
      apply in_map_iff in He. destruct He as (x & <- & _). reflexivity.
  - assert (Hi : Docs.indexOf oldPath (documents st) = None).
    { destruct (Docs.indexOf oldPath (documents st)) as [i|] eqn:Hi; [|reflexivity].
      destruct (indexOf_Some_findDoc _ _ _ Hi) as (d & Hd & _). congruence. }
    pose proof (hasMovedFile_unloaded oldPath newPath st Hi) as Hrun.
    subst r. rewrite Hrun. cbn [outcomeOf stateOf traceOf fst snd].
    split; [reflexivity|]. split; [reflexivity|]. split; [reflexivity|].
    intros doc Hdoc. discriminate.
Qed.

(** ** openFile, with what it sends *)

Section OpenFileSends.
Context {platform : Platform}.

Lemma activeFile_tabOpened p tm : activeFile (tabOpened p tm) = Some p.
Proof. unfold tabOpened, TabMan.openFile. destruct (TabMan.isOpen p tm); reflexivity. Qed.

Lemma activeFile_tabClosed_other a tm :
  TabMan.isActive a tm = false -> activeFile (tabClosed a tm) = activeFile tm.
Proof.
  intros Hact. unfold tabClosed, TabMan.closeFile.
  destruct (TabMan.findIndex a (openFiles tm)); [|reflexivity].
  rewrite Hact. reflexivity.
Qed.

(** X9. Opening a file the leaf already holds only makes it the active tab
    of that leaf: the call returns [true], sends a single ACTIVE_FILE
    event and nothing else, and neither the configuration nor the
    databases nor the watcher are synchronised. Without a leaf id the
    first leaf of the window is the one addressed. *)
Theorem openFile_already_open :
  forall (st : DocumentManager) (avoidNewTabs : bool)
         (windowId : string) (leafId : option string) (filePath : string) (newTab : option bool)
         (tree : DocumentTree) (lid : string) (tm : TabManager),
    Windows.lookup windowId (_windows st) = Some tree ->
    targetLeaf leafId tree = Some (lid, tm) ->
    TabMan.isOpen filePath tm = true ->
    openFile avoidNewTabs windowId leafId filePath newTab st
    = (Ret true,
       setWindows
         (Windows.update windowId (DocTree.updateLeaf lid (tabOpened filePath)) (_windows st)) st,
       [Broadcast ACTIVE_FILE (leafContext windowId lid (Some filePath))]) /\
    leafOf windowId lid (stateOf (openFile avoidNewTabs windowId leafId filePath newTab st))
    = Some (mkTabManager (openFiles tm) (Some filePath)) /\
    (leafId = None -> exists rest, DocTree.getAllLeafs tree = (lid, tm) :: rest).
Proof.
  intros st avoid w l p newTab tree lid tm Hw Ht Hopen.
  pose proof (targetLeaf_found l tree lid tm Ht) as Hl.
  assert (Hrun : openFile avoid w l p newTab st
                 = (Ret true,
                    setWindows
                      (Windows.update w (DocTree.updateLeaf lid (tabOpened p)) (_windows st)) st,
                    [Broadcast ACTIVE_FILE (leafContext w lid (Some p))])).
  { unfold openFile.
    change [Broadcast ACTIVE_FILE (leafContext w lid (Some p))]
      with (([] ++ []) ++ [] ++ [Broadcast ACTIVE_FILE (leafContext w lid (Some p))] ++ []).
    step_with ltac:(unfold theWindow; step; rewrite Hw; reflexivity).
    rewrite Ht, Hopen.
    step_with ltac:(apply (leafCall_run w lid (TabMan.openFile p) st tree tm Hw Hl)).
    unfold broadcastEvent. step. reflexivity. }
  assert (Hleaf : leafOf w lid
                    (setWindows
                       (Windows.update w (DocTree.updateLeaf lid (tabOpened p)) (_windows st)) st)
                  = Some (tabOpened p tm))
    by (apply (leafOf_updated w lid (tabOpened p) st tree tm Hw Hl)).
  assert (Htab : tabOpened p tm = mkTabManager (openFiles tm) (Some p)).
  { unfold tabOpened, TabMan.openFile. rewrite Hopen. reflexivity. }
  rewrite Hrun. cbn [stateOf fst snd]. rewrite Hleaf, Htab.
  split; [reflexivity|]. split; [reflexivity|].
  intros ->. cbn [targetLeaf] in Ht.
  destruct (DocTree.getAllLeafs tree) as [|x rest]; [discriminate|].
  cbn [nth_error] in Ht. inversion Ht; subst x. exists rest. reflexivity.
Qed.

Lemma openFile_adds_run avoid w l p newTab st tree lid tm :
  Windows.lookup w (_windows st) = Some tree ->
  targetLeaf l tree = Some (lid, tm) ->
  TabMan.isOpen p tm = false ->
  match activeFile tm with
  | Some a => replacesActive avoid newTab a st = false
  | None => True
  end ->
  exists tr,
    openFile avoid w l p newTab st
    = (Ret true,
       setWindows (Windows.update w (DocTree.updateLeaf lid (tabOpened p)) (_windows st)) st,
       tr) /\
    tr = openedEffects w lid p st.
Proof.
  intros Hw Ht Hopen Hcond. pose proof (targetLeaf_found l tree lid tm Ht) as Hl.
  set (s1 := setWindows
               (Windows.update w (DocTree.updateLeaf lid (tabOpened p)) (_windows st)) st).
  assert (Hopened : fst (TabMan.openFile p tm) = true).
  { unfold TabMan.openFile. rewrite Hopen. reflexivity. }
  assert (Hleaf1 : leafOf w lid s1 = Some (tabOpened p tm))
    by (apply (leafOf_updated w lid (tabOpened p) st tree tm Hw Hl)).
  assert (Hread : readLeaf w lid activeFile s1 = (Ret (Some p), s1, [])).
  { rewrite (readLeaf_run w lid activeFile s1 _ Hleaf1), activeFile_tabOpened. reflexivity. }
  unfold openFile, broadcastEvent, syncToConfig, synchronizeDatabases.
  destruct (activeFile tm) as [a|] eqn:Hactive.
  - eexists. split.
    + step_with ltac:(unfold theWindow; step; rewrite Hw; reflexivity).
      rewrite Ht, Hopen.
      step_with ltac:(apply (leafCall_run w lid (TabMan.openFile p) st tree tm Hw Hl)).
      rewrite Hopened, Hactive. fold (tabOpened p). fold s1.
      step_with ltac:(
        step_with ltac:(unfold isModified; reflexivity);
        match goal with
        | |- context [avoid && negb (isTrue newTab) && negb ?m] =>
            replace (avoid && negb (isTrue newTab) && negb m) with false
              by (symmetry; exact Hcond)
        end;
        reflexivity).
      step.
      step_with ltac:(exact Hread).
      step. step. step. reflexivity.
    + reflexivity.
  - eexists. split.
    + step_with ltac:(unfold theWindow; step; rewrite Hw; reflexivity).
      rewrite Ht, Hopen.
      step_with ltac:(apply (leafCall_run w lid (TabMan.openFile p) st tree tm Hw Hl)).
      rewrite Hopened, Hactive. fold (tabOpened p). fold s1.
      step. step.
      step_with ltac:(exact Hread).
      step. step. step. reflexivity.
    + reflexivity.
Qed.

(** A leaf found by its id is one of the leaves the loops visit. *)
Lemma leafOf_allLeafs w l st tm :
  leafOf w l st = Some tm -> In (l, tm) (Windows.allLeafs (_windows st)).
Proof.
  unfold leafOf, Windows.lookup, Windows.allLeafs, DocTree.findLeaf.
  destruct (find (fun e => String.eqb (fst e) w) (_windows st)) as [[k t]|] eqn:Hfind;
    cbn [option_map snd]; [|discriminate].
  destruct (find (DocTree.hasId l) (DocTree.getAllLeafs t)) as [[i tm0]|] eqn:Hleaf;
    cbn [option_map snd]; [|discriminate].
  intros He. inversion He; subst tm0. clear He.
  apply find_some in Hfind. destruct Hfind as [Hin _].
  apply find_some in Hleaf. destruct Hleaf as [Hin' Hid].
  unfold DocTree.hasId in Hid. cbn [fst] in Hid. apply String.eqb_eq in Hid. subst i.
  apply in_flat_map. exists (k, t). split; [exact Hin|exact Hin'].
Qed.

(** X10. Opening a file the leaf does not hold, while the active tab is
    not to be replaced, appends a tab and makes it active, sends OPEN_FILE
    and ACTIVE_FILE for the new file and synchronises databases and
    configuration, in that order. The watcher is not touched: a path
    that was not watched before is open in a tab afterwards and still
    not watched. *)
Theorem openFile_adds_unwatched_tab :
  forall (st : DocumentManager) (avoidNewTabs : bool)
         (windowId : string) (leafId : option string) (filePath : string) (newTab : option bool)
         (tree : DocumentTree) (lid : string) (tm : TabManager),
    Windows.lookup windowId (_windows st) = Some tree ->
    targetLeaf leafId tree = Some (lid, tm) ->
    TabMan.isOpen filePath tm = false ->
    (forall a, activeFile tm = Some a ->
               avoidNewTabs = false \/ newTab = Some true \/ Authority.isModified a st = true) ->
    let r := openFile avoidNewTabs windowId leafId filePath newTab st in
    outcomeOf r = Ret true /\
    traceOf r = openedEffects windowId lid filePath st /\
    leafOf windowId lid (stateOf r)
    = Some (mkTabManager (openFiles tm ++ [mkOpenDocument filePath false]) (Some filePath)) /\
    documents (stateOf r) = documents st /\
    _watcher (stateOf r) = _watcher st /\
    referenced filePath (stateOf r) /\
    (~ In filePath (_watcher st) -> ~ In filePath (_watcher (stateOf r))).
Proof.
  intros st avoid w l p newTab tree lid tm Hw Ht Hopen Hkeep r.
  pose proof (targetLeaf_found l tree lid tm Ht) as Hl.
  assert (Hcond : match activeFile tm with
                  | Some a => replacesActive avoid newTab a st = false
                  | None => True
                  end).
  { destruct (activeFile tm) as [a|]; [|exact I].
    unfold replacesActive.
    destruct (Hkeep a eq_refl) as [ -> | [ -> | -> ] ].
    - reflexivity.
    - cbn [isTrue negb]. apply andb_false_iff. left. apply andb_false_r.
    - apply andb_false_r. }
  destruct (openFile_adds_run avoid w l p newTab st tree lid tm Hw Ht Hopen Hcond)
    as (tr & Hrun & Htr).
  subst r. rewrite Hrun. cbn [outcomeOf stateOf traceOf fst snd].
  assert (Hleaf : leafOf w lid
                    (setWindows
                       (Windows.update w (DocTree.updateLeaf lid (tabOpened p)) (_windows st)) st)
                  = Some (tabOpened p tm))
    by (apply (leafOf_updated w lid (tabOpened p) st tree tm Hw Hl)).
  assert (Htab : tabOpened p tm
                 = mkTabManager (openFiles tm ++ [mkOpenDocument p false]) (Some p)).
  { unfold tabOpened, TabMan.openFile. rewrite Hopen. reflexivity. }
  split; [reflexivity|]. split; [exact Htr|].
  split; [rewrite Hleaf, Htab; reflexivity|].
  split; [reflexivity|]. split; [reflexivity|].
  split.
  - exists (lid, tabOpened p tm). split; [apply (leafOf_allLeafs w lid _ _ Hleaf)|].
    cbn [snd]. apply isOpen_In. unfold tabOpened. rewrite paths_openFile, Hopen.
    apply in_or_app. right. left. reflexivity.
  - intros Hnot. exact Hnot.
Qed.

End OpenFileSends.

(** ** Windows and leaves that are not there *)

Lemma has_lookup w ws : Windows.lookup w ws = None -> Windows.has w ws = false.
Proof.
  unfold Windows.lookup, Windows.has.
  induction ws as [|e ws IH]; cbn [find existsb]; [reflexivity|].
  destruct (String.eqb (fst e) w); [discriminate|]. exact IH.
Qed.

Lemma theWindow_unknown w st :
  Windows.lookup w (_windows st) = None -> theWindow w st = (Throw TypeError, st, []).
Proof. intros Hw. unfold theWindow, bind, gets. rewrite Hw. reflexivity. Qed.

Lemma theWindow_known w st tree :
  Windows.lookup w (_windows st) = Some tree -> theWindow w st = (Ret tree, st, []).
Proof. intros Hw. unfold theWindow, bind, gets. rewrite Hw. reflexivity. Qed.

(** X12. The methods that take a window id index the windows with it
    unguarded: for an id that is no key of the windows, [openFile],
    [closeFile], [setPinnedStatus], [closeLeaf], [moveFile] (for either of
    its two windows) and the window form of [isClean] throw a TypeError,
    having changed nothing and sent nothing. Only [closeWindow] and
    [leafIds] test the id first, with the operator [in]. For an id that
    is not a name inherited from [Object.prototype] they do nothing and
    answer the empty list. An inherited name such as "constructor"
    passes the test: [leafIds] then throws a TypeError, and [closeWindow],
    unless the manager shuts down or has a single window, deletes nothing
    and still writes the configuration. *)
Theorem unknown_window_throws :
  forall (platform : Platform) (st : DocumentManager) (windowId : string),
    Windows.lookup windowId (_windows st) = None ->
    (forall avoidNewTabs leafId filePath newTab,
        openFile avoidNewTabs windowId leafId filePath newTab st = (Throw TypeError, st, [])) /\
    (forall response ioOk leafId filePath,
        closeFile response ioOk windowId leafId filePath st = (Throw TypeError, st, [])) /\
    (forall leafId filePath shouldBePinned,
        setPinnedStatus windowId leafId filePath shouldBePinned st = (Throw TypeError, st, [])) /\
    (forall leafId, closeLeaf windowId leafId st = (Throw TypeError, st, [])) /\
    (forall other originLeaf targetLeaf filePath,
        moveFile windowId other originLeaf targetLeaf filePath st = (Throw TypeError, st, []) /\
        moveFile other windowId originLeaf targetLeaf filePath st = (Throw TypeError, st, [])) /\
    isClean (Some windowId) (Some whichWindow) st = (Throw TypeError, st, []) /\
    (JSObject.inherited windowId = false ->
     closeWindow windowId st = (Ret tt, st, []) /\
     leafIds windowId st = Ret []) /\
    (JSObject.inherited windowId = true ->
     closeWindow windowId st
     = (Ret tt, st,
        if _shuttingDown st || Nat.eqb (windowCount st) 1 then [] else [ConfigSet]) /\
     leafIds windowId st = Throw TypeError).
Proof.
  intros platform st w Hw.
  pose proof (theWindow_unknown w st Hw) as Hthrow.
  split; [|split; [|split; [|split; [|split; [|split; [|split]]]]]].
  - intros. unfold openFile. apply bind_throw. exact Hthrow.
  - intros. apply closeFile_no_window. exact Hw.
  - intros. unfold setPinnedStatus. apply bind_throw. exact Hthrow.
  - intros. unfold closeLeaf. apply bind_throw. exact Hthrow.
  - intros other originLeaf targetLeaf filePath. split.
    + unfold moveFile. apply bind_throw. exact Hthrow.
    + unfold moveFile.
      destruct (Windows.lookup other (_windows st)) as [tree|] eqn:Ho.
      * change (@nil Effect) with (@nil Effect ++ []).
        eapply bind_eq; [apply (theWindow_known other st tree Ho)|]. cbv beta.
        apply bind_throw. exact Hthrow.
      * apply bind_throw. apply theWindow_unknown. exact Ho.
  - unfold isClean. change (@nil Effect) with (@nil Effect ++ []).
    eapply bind_eq; [reflexivity|]. cbv beta. apply bind_throw. exact Hthrow.
  - intros Hown. split.
    + unfold closeWindow. unfold_m.
      destruct (_shuttingDown st); [reflexivity|].
      unfold Windows.hasProperty. rewrite (has_lookup w _ Hw), Hown. reflexivity.
    + unfold leafIds, Windows.hasProperty. rewrite (has_lookup w _ Hw), Hown. reflexivity.
  - intros Hinherited. split.
    + unfold closeWindow, syncToConfig, windowCount. unfold_m.
      destruct (_shuttingDown st) eqn:Hdown; [reflexivity|].
      unfold Windows.hasProperty. rewrite (has_lookup w _ Hw), Hinherited.
      cbn [orb andb].
      destruct (Nat.eqb (List.length (_windows st)) 1); cbn [negb fst snd app];
        [reflexivity|].
      rewrite (delete_absent w _ (has_lookup w _ Hw)), setWindows_same. reflexivity.
    + unfold leafIds, Windows.hasProperty. rewrite (has_lookup w _ Hw), Hinherited, Hw.
      reflexivity.
Qed.

(** X13. A leaf id the tree of the window does not know is passed over in
    silence: [openFile] and [closeFile] answer [false], [setPinnedStatus],
    [closeLeaf] and [moveFile] (for its origin as for its target leaf)
    return, and the leaf form of [isClean] answers [true]; nothing is
    changed and nothing is sent. *)
Theorem unknown_leaf_is_passed_over :
  forall (platform : Platform) (st : DocumentManager) (windowId leafId : string)
         (tree : DocumentTree),
    Windows.lookup windowId (_windows st) = Some tree ->
    DocTree.findLeaf leafId tree = None ->
    (forall avoidNewTabs filePath newTab,
        openFile avoidNewTabs windowId (Some leafId) filePath newTab st = (Ret false, st, [])) /\
    (forall response ioOk filePath,
        closeFile response ioOk windowId leafId filePath st = (Ret false, st, [])) /\
    (forall filePath shouldBePinned,
        setPinnedStatus windowId leafId filePath shouldBePinned st = (Ret tt, st, [])) /\
    closeLeaf windowId leafId st = (Ret tt, st, []) /\
    (forall other otherLeaf otherTree filePath,
        Windows.lookup other (_windows st) = Some otherTree ->
        moveFile windowId other leafId otherLeaf filePath st = (Ret tt, st, []) /\
        moveFile other windowId otherLeaf leafId filePath st = (Ret tt, st, [])) /\
    ((forall w t, In (w, t) (_windows st) -> DocTree.findLeaf leafId t = None) ->
     isClean (Some leafId) (Some whichLeaf) st = (Ret true, st, [])).
Proof.
  intros platform st w l tree Hw Hl.
  pose proof (theWindow_known w st tree Hw) as Hknown.
  split; [|split; [|split; [|split; [|split]]]].
  - intros. unfold openFile. change (@nil Effect) with (@nil Effect ++ []).
    eapply bind_eq; [exact Hknown|]. cbv beta.
    cbn [targetLeaf]. rewrite Hl. reflexivity.
  - intros. apply (closeFile_no_leaf _ _ w l _ st tree Hw Hl).
  - intros. unfold setPinnedStatus. change (@nil Effect) with (@nil Effect ++ []).
    eapply bind_eq; [exact Hknown|]. cbv beta. rewrite Hl. reflexivity.
  - unfold closeLeaf. change (@nil Effect) with (@nil Effect ++ []).
    eapply bind_eq; [exact Hknown|]. cbv beta. rewrite Hl. reflexivity.
  - intros other otherLeaf otherTree filePath Ho.
    pose proof (theWindow_known other st otherTree Ho) as Hother.
    split; unfold moveFile; change (@nil Effect) with (@nil Effect ++ [] ++ []).
    + eapply bind_eq; [exact Hknown|]. cbv beta.
      eapply bind_eq; [exact Hother|]. cbv beta.
      rewrite Hl. reflexivity.
    + eapply bind_eq; [exact Hother|]. cbv beta.
      eapply bind_eq; [exact Hknown|]. cbv beta.
      rewrite Hl. destruct (DocTree.findLeaf otherLeaf otherTree); reflexivity.
  - intros Hnone. unfold isClean. unfold_m. cbn [app fst snd].
    assert (Hex : existsb (fun e : string * DocumentTree =>
                             match DocTree.findLeaf l (snd e) with
                             | Some tabMan =>
                                 holdsModified (Authority.getModifiedDocumentPaths st) tabMan
                             | None => false
                             end) (_windows st) = false).
    { destruct (existsb _ (_windows st)) eqn:Hex; [|reflexivity].
      apply existsb_exists in Hex. destruct Hex as ([k t] & Hin & Hmod).
      cbn [snd] in Hmod. rewrite (Hnone k t Hin) in Hmod. discriminate. }
    rewrite Hex. reflexivity.
Qed.

(** ** moveFile *)

Lemma leafOf_inv w l st tm :
  leafOf w l st = Some tm ->
  exists tree, Windows.lookup w (_windows st) = Some tree /\ DocTree.findLeaf l tree = Some tm.
Proof.
  unfold leafOf. destruct (Windows.lookup w (_windows st)) as [tree|]; [|discriminate].
  intros H. exists tree. split; [reflexivity|exact H].
Qed.

Lemma moveFile_target wT lT p (inTarget : bool) s :
  when (negb inTarget)
    (broadcastEvent OPEN_FILE (leafContext wT lT (Some p)) ;;
     broadcastEvent ACTIVE_FILE (leafContext wT lT None) ;;
     syncToConfig) s
  = (Ret tt, s,
     if inTarget then []
     else [Broadcast OPEN_FILE (leafContext wT lT (Some p));
           Broadcast ACTIVE_FILE (leafContext wT lT None);
           ConfigSet]).
Proof. destruct inTarget; reflexivity. Qed.

Lemma moveFile_origin wO lO p s1 tmO1 :
  leafOf wO lO s1 = Some tmO1 ->
  (count <- readLeaf wO lO (fun tabMan => List.length (openFiles tabMan)) ;;
   if Nat.eqb count 1 then
     closeLeaf wO lO ;; syncToConfig
   else
     success <- leafCall wO lO (TabMan.closeFile p) ;;
     if success : bool then
       broadcastEvent CLOSE_FILE (leafContext wO lO (Some p)) ;;
       broadcastEvent ACTIVE_FILE (leafContext wO lO None) ;;
       syncToConfig
     else ret tt) s1
  = (Ret tt,
     if Nat.eqb (List.length (openFiles tmO1)) 1
     then setWindows (Windows.update wO (DocTree.removeNode lO) (_windows s1)) s1
     else setWindows (Windows.update wO (DocTree.updateLeaf lO (tabClosed p)) (_windows s1)) s1,
     if Nat.eqb (List.length (openFiles tmO1)) 1
     then [Broadcast LEAF_CLOSED (leafContext wO lO None); ConfigSet]
     else if TabMan.isOpen p tmO1
          then [Broadcast CLOSE_FILE (leafContext wO lO (Some p));
                Broadcast ACTIVE_FILE (leafContext wO lO None);
                ConfigSet]
          else []).
Proof.
  intros Hleaf1.
  destruct (leafOf_inv wO lO s1 tmO1 Hleaf1) as (tree1 & Hw1 & Hl1).
  unfold bind at 1.
  rewrite (readLeaf_run wO lO _ s1 tmO1 Hleaf1).
  destruct (Nat.eqb (List.length (openFiles tmO1)) 1).
  - unfold closeLeaf, removeLeaf, broadcastEvent, syncToConfig.
    unfold bind at 1. unfold bind at 1.
    rewrite (theWindow_known wO s1 tree1 Hw1), Hl1. reflexivity.
  - unfold bind at 1.
    rewrite (leafCall_run wO lO (TabMan.closeFile p) s1 tree1 tmO1 Hw1 Hl1), fst_closeFile.
    fold (tabClosed p).
    destruct (TabMan.isOpen p tmO1); reflexivity.
Qed.

Lemma moveFile_run wO wT lO lT p st treeO treeT tmO tmT tmO1 :
  Windows.lookup wO (_windows st) = Some treeO ->
  Windows.lookup wT (_windows st) = Some treeT ->
  DocTree.findLeaf lO treeO = Some tmO ->
  DocTree.findLeaf lT treeT = Some tmT ->
  let s1 := setWindows (Windows.update wT (DocTree.updateLeaf lT (tabOpened p)) (_windows st)) st in
  leafOf wO lO s1 = Some tmO1 ->
  moveFile wO wT lO lT p st
  = (Ret tt,
     if Nat.eqb (List.length (openFiles tmO1)) 1
     then setWindows (Windows.update wO (DocTree.removeNode lO) (_windows s1)) s1
     else setWindows (Windows.update wO (DocTree.updateLeaf lO (tabClosed p)) (_windows s1)) s1,
     moveEvents wO wT lO lT p (TabMan.isOpen p tmT) (List.length (openFiles tmO1))
       (TabMan.isOpen p tmO1)).
Proof.
  intros HwO HwT HlO HlT s1 Hleaf1.
  assert (Hopened : fst (TabMan.openFile p tmT) = negb (TabMan.isOpen p tmT)).
  { unfold TabMan.openFile. destruct (TabMan.isOpen p tmT); reflexivity. }
  assert (Hgoal : exists tr,
             moveFile wO wT lO lT p st
             = (Ret tt,
                if Nat.eqb (List.length (openFiles tmO1)) 1
                then setWindows (Windows.update wO (DocTree.removeNode lO) (_windows s1)) s1
                else setWindows
                       (Windows.update wO (DocTree.updateLeaf lO (tabClosed p)) (_windows s1)) s1,
                tr) /\
             tr = moveEvents wO wT lO lT p (TabMan.isOpen p tmT)
                    (List.length (openFiles tmO1)) (TabMan.isOpen p tmO1)).
  { eexists. split.
    - unfold moveFile.
      step_with ltac:(apply (theWindow_known wO st treeO HwO)).
      step_with ltac:(apply (theWindow_known wT st treeT HwT)).
      rewrite HlO, HlT.
      step_with ltac:(apply (leafCall_run wT lT (TabMan.openFile p) st treeT tmT HwT HlT)).
      rewrite Hopened. fold (tabOpened p). fold s1.
      step_with ltac:(apply moveFile_target).
      apply (moveFile_origin wO lO p s1 tmO1 Hleaf1).
    - reflexivity. }
  destruct Hgoal as (tr & Hrun & Htr). rewrite Hrun, Htr. reflexivity.
Qed.

(** Leaves other than the one a call works on. *)
Lemma find_withLeaf_other i j f l :
  i <> j -> find (DocTree.hasId i) (DocTree.withLeaf j f l) = find (DocTree.hasId i) l.
Proof.
  intros Hne. induction l as [|x l IH]; [reflexivity|].
  cbn [DocTree.withLeaf]. destruct (DocTree.hasId j x) eqn:Hj.
  - cbn [find]. unfold DocTree.hasId in *. cbn [fst].
    apply String.eqb_eq in Hj.
    destruct (String.eqb (fst x) i) eqn:Hi; [|reflexivity].
    apply String.eqb_eq in Hi. congruence.
  - cbn [find]. rewrite IH. reflexivity.
Qed.

Lemma find_withoutLeaf_other i j l :
  i <> j -> find (DocTree.hasId i) (DocTree.withoutLeaf j l) = find (DocTree.hasId i) l.
Proof.
  intros Hne. induction l as [|x l IH]; [reflexivity|].
  cbn [DocTree.withoutLeaf]. destruct (DocTree.hasId j x) eqn:Hj.
  - cbn [find]. unfold DocTree.hasId in *.
    apply String.eqb_eq in Hj.
    destruct (String.eqb (fst x) i) eqn:Hi; [|reflexivity].
    apply String.eqb_eq in Hi. congruence.
  - cbn [find]. rewrite IH. reflexivity.
Qed.

Lemma ids_withLeaf i f l : map fst (DocTree.withLeaf i f l) = map fst l.
Proof.
  induction l as [|x l IH]; [reflexivity|].
  cbn [DocTree.withLeaf]. destruct (DocTree.hasId i x); cbn [map fst]; [reflexivity|].
  rewrite IH. reflexivity.
Qed.

Lemma ids_withoutLeaf i l : map fst (DocTree.withoutLeaf i l) = removeFirst i (map fst l).
Proof.
  induction l as [|x l IH]; [reflexivity|].
  cbn [DocTree.withoutLeaf map removeFirst]. unfold DocTree.hasId.
  destruct (String.eqb (fst x) i); [reflexivity|].
  cbn [map]. rewrite IH. reflexivity.
Qed.

Lemma findLeaf_updateLeaf_other i j f t :
  i <> j -> DocTree.findLeaf i (DocTree.updateLeaf j f t) = DocTree.findLeaf i t.
Proof.
  intros Hne. unfold DocTree.updateLeaf.
  pose proof (updateIn_leafs j f (node t)) as H.
  destruct (DocTree.updateIn j f (node t)) as [n'|]; [|reflexivity].
  destruct H as [_ Hleafs].
  unfold DocTree.findLeaf, DocTree.getAllLeafs. cbn [node].
  rewrite Hleafs, (find_withLeaf_other i j f _ Hne). reflexivity.
Qed.

Lemma ids_updateLeaf j f t :
  map fst (DocTree.getAllLeafs (DocTree.updateLeaf j f t)) = map fst (DocTree.getAllLeafs t).
Proof.
  unfold DocTree.updateLeaf.
  pose proof (updateIn_leafs j f (node t)) as H.
  destruct (DocTree.updateIn j f (node t)) as [n'|]; [|reflexivity].
  destruct H as [_ Hleafs].
  unfold DocTree.getAllLeafs. cbn [node]. rewrite Hleafs. apply ids_withLeaf.
Qed.

Lemma findLeaf_removeNode_other i j t :
  i <> j -> DocTree.findLeaf i (DocTree.removeNode j t) = DocTree.findLeaf i t.
Proof.
  intros Hne. unfold DocTree.removeNode.
  pose proof (removeFrom_leafs j (node t)) as H.
  destruct (DocTree.removeFrom j (node t)) as [| |n']; try reflexivity.
  destruct H as [_ Hleafs].
  unfold DocTree.findLeaf, DocTree.getAllLeafs. cbn [node].
  rewrite Hleafs, (find_withoutLeaf_other i j _ Hne). reflexivity.
Qed.

Lemma lookup_update_other w w' g ws :
  w <> w' -> Windows.lookup w (Windows.update w' g ws) = Windows.lookup w ws.
Proof.
  intros Hne. unfold Windows.lookup. induction ws as [|e ws IH]; [reflexivity|].
  cbn [Windows.update]. destruct (String.eqb (fst e) w') eqn:He'.
  - cbn [find fst]. apply String.eqb_eq in He'.
    destruct (String.eqb (fst e) w) eqn:He; [|reflexivity].
    apply String.eqb_eq in He. congruence.
  - cbn [find]. destruct (String.eqb (fst e) w); [reflexivity|]. exact IH.
Qed.

Lemma leafOf_update_other w l w' l' g st :
  w <> w' \/ l <> l' ->
  leafOf w l (setWindows (Windows.update w' (DocTree.updateLeaf l' g) (_windows st)) st)
  = leafOf w l st.
Proof.
  intros Hne. unfold leafOf. cbn [_windows setWindows].
  destruct (string_dec w w') as [->|Hw].
  - destruct Hne as [Hne|Hne]; [congruence|].
    rewrite lookup_update.
    destruct (Windows.lookup w' (_windows st)) as [t|]; [|reflexivity].
    cbn [option_map]. apply findLeaf_updateLeaf_other. exact Hne.
  - rewrite (lookup_update_other w w' _ _ Hw). reflexivity.
Qed.

Lemma leafOf_remove_other w l w' l' st :
  w <> w' \/ l <> l' ->
  leafOf w l (setWindows (Windows.update w' (DocTree.removeNode l') (_windows st)) st)
  = leafOf w l st.
Proof.
  intros Hne. unfold leafOf. cbn [_windows setWindows].
  destruct (string_dec w w') as [->|Hw].
  - destruct Hne as [Hne|Hne]; [congruence|].
    rewrite lookup_update.
    destruct (Windows.lookup w' (_windows st)) as [t|]; [|reflexivity].
    cbn [option_map]. apply findLeaf_removeNode_other. exact Hne.
  - rewrite (lookup_update_other w w' _ _ Hw). reflexivity.
Qed.

Lemma leafIds_known w st tree :
  Windows.lookup w (_windows st) = Some tree ->
  leafIds w st = Ret (map fst (DocTree.getAllLeafs tree)).
Proof.
  intros Hw. unfold leafIds, Windows.hasProperty. rewrite Hw.
  destruct (Windows.has w (_windows st)) eqn:Hhas; [reflexivity|].
  exfalso. unfold Windows.lookup, Windows.has in *.
  destruct (find (fun e => String.eqb (fst e) w) (_windows st)) as [e|] eqn:Hfind;
    [|discriminate].
  apply find_some in Hfind. destruct Hfind as [Hin He].
  assert (Hex : existsb (fun e => String.eqb (fst e) w) (_windows st) = true).
  { apply existsb_exists. exists e. split; assumption. }
  congruence.
Qed.

(** The leaf ids of a window once [moveFile] has closed the origin leaf. *)
Lemma leafIds_origin_closed wO wT lO lT g st treeO tmO :
  Windows.lookup wO (_windows st) = Some treeO ->
  DocTree.findLeaf lO treeO = Some tmO ->
  2 <= List.length (DocTree.getAllLeafs treeO) ->
  let s1 := setWindows (Windows.update wT (DocTree.updateLeaf lT g) (_windows st)) st in
  exists ids,
    leafIds wO st = Ret ids /\
    leafIds wO (setWindows (Windows.update wO (DocTree.removeNode lO) (_windows s1)) s1)
    = Ret (removeFirst lO ids).
Proof.
  intros Hw Hl Hlen s1.
  assert (H1 : exists tree1 tm1,
             Windows.lookup wO (_windows s1) = Some tree1 /\
             DocTree.findLeaf lO tree1 = Some tm1 /\
             map fst (DocTree.getAllLeafs tree1) = map fst (DocTree.getAllLeafs treeO)).
  { subst s1. cbn [_windows setWindows].
    destruct (string_dec wO wT) as [<-|Hne].
    - rewrite lookup_update, Hw. cbn [option_map].
      destruct (string_dec lO lT) as [<-|Hl'].
      + destruct (updateLeaf_leafs lO g treeO tmO Hl) as [_ Hf].
        eexists _, _. split; [reflexivity|]. split; [exact Hf|apply ids_updateLeaf].
      + eexists _, _. split; [reflexivity|]. split.
        * rewrite (findLeaf_updateLeaf_other lO lT g treeO Hl'). exact Hl.
        * apply ids_updateLeaf.
    - rewrite (lookup_update_other wO wT _ _ Hne), Hw.
      eexists _, _. split; [reflexivity|]. split; [exact Hl|reflexivity]. }
  destruct H1 as (tree1 & tm1 & Hw1 & Hl1 & Hids).
  assert (Hlen1 : 2 <= List.length (DocTree.getAllLeafs tree1)).
  { rewrite <- (length_map fst), Hids, length_map. exact Hlen. }
  exists (map fst (DocTree.getAllLeafs treeO)).
  split; [apply (leafIds_known wO st treeO Hw)|].
  rewrite (leafIds_known wO _ (DocTree.removeNode lO tree1)).
  - rewrite (removeNode_leafs lO tree1 tm1 Hl1 Hlen1), ids_withoutLeaf, Hids. reflexivity.
  - cbn [_windows setWindows]. rewrite lookup_update, Hw1. reflexivity.
Qed.

(** X14. [moveFile] between two different leaves opens the file in the
    target and then looks only at the number of tabs of the origin: an
    origin with exactly one tab is closed as a leaf, whether or not that
    tab is the file that moves; otherwise the file is closed in the
    origin. The loaded documents and the watched paths are left alone,
    and the events are those of [moveEvents]. *)
Theorem moveFile_between_leaves :
  forall (st : DocumentManager) (originWindow targetWindow originLeaf targetLeaf filePath : string)
         (originTree targetTree : DocumentTree) (origin target : TabManager),
    Windows.lookup originWindow (_windows st) = Some originTree ->
    Windows.lookup targetWindow (_windows st) = Some targetTree ->
    DocTree.findLeaf originLeaf originTree = Some origin ->
    DocTree.findLeaf targetLeaf targetTree = Some target ->
    originWindow <> targetWindow \/ originLeaf <> targetLeaf ->
    let r := moveFile originWindow targetWindow originLeaf targetLeaf filePath st in
    outcomeOf r = Ret tt /\
    documents (stateOf r) = documents st /\
    _watcher (stateOf r) = _watcher st /\
    traceOf r
    = moveEvents originWindow targetWindow originLeaf targetLeaf filePath
        (TabMan.isOpen filePath target) (List.length (openFiles origin))
        (TabMan.isOpen filePath origin) /\
    leafOf targetWindow targetLeaf (stateOf r) = Some (tabOpened filePath target) /\
    (List.length (openFiles origin) <> 1 ->
     leafOf originWindow originLeaf (stateOf r) = Some (tabClosed filePath origin)) /\
    (List.length (openFiles origin) = 1 ->
     2 <= List.length (DocTree.getAllLeafs originTree) ->
     exists ids,
       leafIds originWindow st = Ret ids /\
       leafIds originWindow (stateOf r) = Ret (removeFirst originLeaf ids)).
Proof.
  intros st wO wT lO lT p treeO treeT tmO tmT HwO HwT HlO HlT Hne r.
  set (s1 := setWindows
               (Windows.update wT (DocTree.updateLeaf lT (tabOpened p)) (_windows st)) st).
  assert (Hleaf1 : leafOf wO lO s1 = Some tmO).
  { subst s1. rewrite (leafOf_update_other wO lO wT lT _ st Hne).
    unfold leafOf. rewrite HwO. exact HlO. }
  assert (HleafT : leafOf wT lT s1 = Some (tabOpened p tmT))
    by (apply (leafOf_updated wT lT (tabOpened p) st treeT tmT HwT HlT)).
  assert (Hne' : wT <> wO \/ lT <> lO) by (destruct Hne; [left|right]; congruence).
  pose proof (moveFile_run wO wT lO lT p st treeO treeT tmO tmT tmO
                HwO HwT HlO HlT Hleaf1) as Hrun.
  subst r. rewrite Hrun. cbn [outcomeOf stateOf traceOf fst snd]. fold s1.
  split; [reflexivity|].
  split; [destruct (Nat.eqb (List.length (openFiles tmO)) 1); reflexivity|].
  split; [destruct (Nat.eqb (List.length (openFiles tmO)) 1); reflexivity|].
  split; [reflexivity|].
  split.
  { destruct (Nat.eqb (List.length (openFiles tmO)) 1).
    - rewrite (leafOf_remove_other wT lT wO lO s1 Hne'). exact HleafT.
    - rewrite (leafOf_update_other wT lT wO lO _ s1 Hne'). exact HleafT. }
  split.
  - intros Hcount. apply Nat.eqb_neq in Hcount. rewrite Hcount.
    destruct (leafOf_inv wO lO s1 tmO Hleaf1) as (tree1 & Hw1 & Hl1).
    apply (leafOf_updated wO lO (tabClosed p) s1 tree1 tmO Hw1 Hl1).
  - intros Hcount Hlen. rewrite Hcount. cbn [Nat.eqb].
    apply (leafIds_origin_closed wO wT lO lT (tabOpened p) st treeO tmO HwO HlO Hlen).
Qed.

(** X15. Moving a file onto the leaf that already holds it closes it
    there: nothing is opened and no OPEN_FILE event is sent, and then the
    tab is closed, or, if it was the only tab of the leaf, the leaf
    itself is closed. *)
Theorem moveFile_onto_own_leaf :
  forall (st : DocumentManager) (windowId leafId filePath : string)
         (tree : DocumentTree) (tm : TabManager),
    Windows.lookup windowId (_windows st) = Some tree ->
    DocTree.findLeaf leafId tree = Some tm ->
    TabMan.isOpen filePath tm = true ->
    TabMan.unique tm ->
    let r := moveFile windowId windowId leafId leafId filePath st in
    outcomeOf r = Ret tt /\
    traceOf r
    = (if Nat.eqb (List.length (openFiles tm)) 1
       then [Broadcast LEAF_CLOSED (leafContext windowId leafId None); ConfigSet]
       else [Broadcast CLOSE_FILE (leafContext windowId leafId (Some filePath));
             Broadcast ACTIVE_FILE (leafContext windowId leafId None);
             ConfigSet]) /\
    (List.length (openFiles tm) <> 1 ->
     exists tm',
       leafOf windowId leafId (stateOf r) = Some tm' /\
       TabMan.isOpen filePath tm' = false /\
       TabMan.paths tm' = removeFirst filePath (TabMan.paths tm)) /\
    (List.length (openFiles tm) = 1 ->
     2 <= List.length (DocTree.getAllLeafs tree) ->
     exists ids,
       leafIds windowId st = Ret ids /\
       leafIds windowId (stateOf r) = Ret (removeFirst leafId ids)).
Proof.
  intros st w l p tree tm Hw Hl Hopen Huniq r.
  set (s1 := setWindows
               (Windows.update w (DocTree.updateLeaf l (tabOpened p)) (_windows st)) st).
  assert (Htab : tabOpened p tm = mkTabManager (openFiles tm) (Some p)).
  { unfold tabOpened, TabMan.openFile. rewrite Hopen. reflexivity. }
  assert (Hleaf1 : leafOf w l s1 = Some (tabOpened p tm))
    by (apply (leafOf_updated w l (tabOpened p) st tree tm Hw Hl)).
  pose proof (moveFile_run w w l l p st tree tree tm tm (tabOpened p tm)
                Hw Hw Hl Hl Hleaf1) as Hrun.
  assert (Hlen : List.length (openFiles (tabOpened p tm)) = List.length (openFiles tm))
    by (rewrite Htab; reflexivity).
  assert (Hopen1 : TabMan.isOpen p (tabOpened p tm) = true)
    by (rewrite Htab; exact Hopen).
  rewrite Hlen, Hopen1, Hopen in Hrun.
  subst r. rewrite Hrun. cbn [outcomeOf stateOf traceOf fst snd]. fold s1.
  split; [reflexivity|].
  split; [unfold moveEvents; reflexivity|].
  split.
  - intros Hcount. apply Nat.eqb_neq in Hcount. rewrite Hcount.
    destruct (leafOf_inv w l s1 _ Hleaf1) as (tree1 & Hw1 & Hl1).
    exists (tabClosed p (tabOpened p tm)).
    split; [apply (leafOf_updated w l (tabClosed p) s1 tree1 _ Hw1 Hl1)|].
    split.
    + apply isOpen_closeFile_same. rewrite Htab. exact Huniq.
    + unfold tabClosed. rewrite paths_closeFile, Htab. reflexivity.
  - intros Hcount Hlen2. rewrite Hcount. cbn [Nat.eqb].
    apply (leafIds_origin_closed w w l l (tabOpened p) st tree tm Hw Hl Hlen2).
Qed.

(** ** Watcher events that are not ignored *)

(** X16. A watcher event for a path without an entry in the ignore list.
    On "unlink" the tabs for the path are closed in every leaf, but the
    document stays loaded and the path stays watched: neither the loaded
    documents nor the watcher are touched. On "change" the remote change
    is handed on and the manager stays as it is. Any other event does
    nothing. *)
Theorem watcher_event_dispatch :
  forall (platform : Platform) (st : DocumentManager) (event filePath : string),
    ~ In filePath (_ignoreChanges st) ->
    let r := onWatcherEvent event filePath st in
    outcomeOf r = Ret tt /\
    documents (stateOf r) = documents st /\
    _watcher (stateOf r) = _watcher st /\
    _ignoreChanges (stateOf r) = _ignoreChanges st /\
    (event = "unlink"%string ->
     traceOf r = closeEvents filePath (_windows st) /\
     (uniqueTabs st -> ~ referenced filePath (stateOf r))) /\
    (event = "change"%string -> r = (Ret tt, st, [HandleRemoteChange filePath])) /\
    (event <> "unlink"%string -> event <> "change"%string -> r = (Ret tt, st, [])).
Proof.
  intros platform st event p Hfree r.
  subst r. rewrite (onWatcherEvent_processed event p st Hfree).
  unfold processEvent.
  destruct (String.eqb event "unlink") eqn:Hunlink.
  - apply String.eqb_eq in Hunlink. subst event.
    destruct (closeFileEverywhere_run p st) as (tr & Hrun & _).
    assert (Htrace : traceOf (closeFileEverywhere p st) = closeEvents p (_windows st)).
    { unfold closeFileEverywhere.
      pose proof (visitWindows_emits unit (forceClose p)
                    (fun w i tm =>
                       if TabMan.isOpen p tm
                       then [Broadcast CLOSE_FILE (leafContext w i (Some p))] else [])
                    (_windows st) tt (forceClose_emits p)) as He.
      destruct (visitWindows (forceClose p) (_windows st) tt) as [[ws' u] tr'].
      exact He. }
    rewrite Htrace. rewrite Hrun. cbn [outcomeOf stateOf fst snd].
    repeat (split; [reflexivity|]).
    split; [|split; [discriminate|intros Hne; congruence]].
    intros _. split; [reflexivity|].
    intros Huniq (l & Hl & Hopen).
    cbn [_windows setWindows] in Hl. rewrite allLeafs_mapWindows in Hl.
    apply in_map_iff in Hl. destruct Hl as (l0 & <- & Hl0).
    unfold onStrip in Hopen. cbn [snd] in Hopen.
    unfold uniqueTabs in Huniq. rewrite Forall_forall in Huniq.
    rewrite (forceClosed_closed p (snd l0) (Huniq l0 Hl0)) in Hopen. discriminate.
  - destruct (String.eqb event "change") eqn:Hchange.
    + apply String.eqb_eq in Hchange. subst event.
      unfold handleRemoteChange, emit. cbn [outcomeOf stateOf traceOf fst snd].
      repeat (split; [reflexivity|]).
      split; [discriminate|]. split; [reflexivity|]. intros _ Hne. congruence.
    + apply String.eqb_neq in Hunlink. apply String.eqb_neq in Hchange.
      unfold ret. cbn [outcomeOf stateOf traceOf fst snd].
      repeat (split; [reflexivity|]).
      split; [intros He; congruence|]. split; [intros He; congruence|].
      reflexivity.
Qed.

(** ** Windows *)

Lemma lookup_delete w ws : Windows.lookup w (Windows.delete w ws) = None.
Proof.
  unfold Windows.lookup, Windows.delete.
  induction ws as [|e ws IH]; [reflexivity|].
  cbn [filter]. destruct (String.eqb (fst e) w) eqn:He; cbn [negb find]; [exact IH|].
  rewrite He. exact IH.
Qed.

Lemma lookup_delete_other w w' ws :
  w' <> w -> Windows.lookup w' (Windows.delete w ws) = Windows.lookup w' ws.
Proof.
  intros Hne. unfold Windows.lookup, Windows.delete.
  induction ws as [|e ws IH]; [reflexivity|].
  cbn [filter find]. destruct (String.eqb (fst e) w) eqn:He; cbn [negb find].
  - apply String.eqb_eq in He.
    destruct (String.eqb (fst e) w') eqn:He'; [|exact IH].
    apply String.eqb_eq in He'. congruence.
  - destruct (String.eqb (fst e) w'); [reflexivity|exact IH].
Qed.


(** X17. [closeWindow] on one of several windows forgets that window and
    nothing else: the other windows stay under their keys, the
    configuration is written once, nobody is asked, and the documents
    that were open in the window stay loaded and watched. While the
    manager shuts down, [closeWindow] does nothing. *)
Theorem closeWindow_forgets_window :
  forall (platform : Platform) (st : DocumentManager) (windowId : string),
    (_shuttingDown st = true -> closeWindow windowId st = (Ret tt, st, [])) /\
    (_shuttingDown st = false ->
     Windows.has windowId (_windows st) = true ->
     windowCount st <> 1 ->
     let r := closeWindow windowId st in
     outcomeOf r = Ret tt /\
     traceOf r = [ConfigSet] /\
     Windows.lookup windowId (_windows (stateOf r)) = None /\
     (forall w, w <> windowId ->
                Windows.lookup w (_windows (stateOf r)) = Windows.lookup w (_windows st)) /\
     (distinctKeys st -> S (windowCount (stateOf r)) = windowCount st) /\
     documents (stateOf r) = documents st /\
     _watcher (stateOf r) = _watcher st).
Proof.
  intros platform st w. split.
  - intros Hdown. unfold closeWindow. unfold_m. rewrite Hdown. reflexivity.
  - intros Hup Hhas Hcount r.
    assert (Hrun : closeWindow w st
                   = (Ret tt, setWindows (Windows.delete w (_windows st)) st, [ConfigSet])).
    { unfold closeWindow, syncToConfig, Windows.hasProperty. unfold_m. rewrite Hup, Hhas.
      cbn [orb].
      unfold windowCount in Hcount. apply Nat.eqb_neq in Hcount. rewrite Hcount.
      reflexivity. }
    subst r. rewrite Hrun. cbn [outcomeOf stateOf traceOf fst snd _windows setWindows].
    split; [reflexivity|]. split; [reflexivity|].
    split; [apply lookup_delete|].
    split; [intros w' Hne; apply lookup_delete_other; exact Hne|].
    split; [|split; reflexivity].
    intros Hnd. unfold windowCount. cbn [_windows setWindows].
    apply length_delete; [exact Hnd|]. apply has_In. exact Hhas.
Qed.


(** ** The calls on the watcher *)

(** X19. [syncWatchedFilePaths] calls [unwatch] for exactly the watched
    paths that no tab holds and [add] for exactly the open paths that
    were not watched, all the [unwatch] calls going first; a path that is
    watched and open gets no call. Windows, documents and the ignore list
    are not touched. *)
Theorem syncWatchedFilePaths_calls :
  forall st : DocumentManager,
    let r := syncWatchedFilePaths st in
    (forall p, In (WatcherUnwatch p) (traceOf r) <->
               In p (_watcher st) /\ ~ referenced p st) /\
    (forall p, In (WatcherAdd p) (traceOf r) <->
               referenced p st /\ ~ In p (_watcher st)) /\
    (exists n,
        Forall (fun e => exists p, e = WatcherUnwatch p) (firstn n (traceOf r)) /\
        Forall (fun e => exists p, e = WatcherAdd p) (skipn n (traceOf r))) /\
    _windows (stateOf r) = _windows st /\
    documents (stateOf r) = documents st /\
    _ignoreChanges (stateOf r) = _ignoreChanges st.
Proof.
  intros st r. subst r. rewrite syncWatchedFilePaths_run.
  cbn [outcomeOf stateOf traceOf fst snd].
  assert (Hun : forall p, In (WatcherUnwatch p) (unwatchCalls (getOpenFiles st) (_watcher st))
                          <-> In p (_watcher st) /\ ~ referenced p st).
  { intros p. unfold unwatchCalls. rewrite in_map_iff. split.
    - intros (x & He & Hx). inversion He; subst x. apply filter_In in Hx.
      destruct Hx as [Hin Hnot]. split; [exact Hin|].
      apply negb_true_iff in Hnot. apply includes_false in Hnot.
      rewrite In_getOpenFiles in Hnot. exact Hnot.
    - intros [Hin Hnot]. exists p. split; [reflexivity|].
      apply filter_In. split; [exact Hin|].
      apply negb_true_iff. apply includes_false. rewrite In_getOpenFiles. exact Hnot. }
  assert (Hadd : forall p, In (WatcherAdd p) (addCalls (_watcher st) (getOpenFiles st))
                           <-> referenced p st /\ ~ In p (_watcher st)).
  { intros p. unfold addCalls. rewrite in_map_iff. split.
    - intros (x & He & Hx). inversion He; subst x. apply filter_In in Hx.
      destruct Hx as [Hin Hnot]. split; [apply In_getOpenFiles; exact Hin|].
      apply negb_true_iff in Hnot. apply includes_false in Hnot. exact Hnot.
    - intros [Hin Hnot]. exists p. split; [reflexivity|].
      apply filter_In. split; [apply In_getOpenFiles; exact Hin|].
      apply negb_true_iff. apply includes_false. exact Hnot. }
  split; [|split; [|split]].
  - intros p. rewrite in_app_iff, Hun. split; [|tauto].
    intros [H|H]; [exact H|].
    unfold addCalls in H. apply in_map_iff in H. destruct H as (x & He & _). discriminate.
  - intros p. rewrite in_app_iff, Hadd. split; [|tauto].
    intros [H|H]; [|exact H].
    unfold unwatchCalls in H. apply in_map_iff in H. destruct H as (x & He & _). discriminate.
  - exists (List.length (unwatchCalls (getOpenFiles st) (_watcher st))).
    rewrite firstn_app, skipn_app, Nat.sub_diag, firstn_all, skipn_all.
    cbn [firstn skipn app]. rewrite app_nil_r. split.
    + unfold unwatchCalls. apply Forall_forall. intros e He.
      apply in_map_iff in He. destruct He as (x & <- & _). exists x. reflexivity.
    + unfold addCalls. apply Forall_forall. intros e He.
      apply in_map_iff in He. destruct He as (x & <- & _). exists x. reflexivity.
  - repeat split.
Qed.

(** ** isClean *)

Lemma holdsModified_false modPaths tm :
  (forall q, In q modPaths -> TabMan.isOpen q tm = false) ->
  holdsModified modPaths tm = false.
Proof.
  intros Hnone. unfold holdsModified.
  destruct (existsb _ (openFiles tm)) eqn:Hex; [|reflexivity].
  apply existsb_exists in Hex. destruct Hex as (f & Hf & Hin).
  apply includes_In in Hin.
  assert (Hopen : TabMan.isOpen (path f) tm = true).
  { apply isOpen_In. unfold TabMan.paths. apply in_map. exact Hf. }
  rewrite (Hnone (path f) Hin) in Hopen. discriminate.
Qed.

Lemma holdsModified_true modPaths tm q :
  In q modPaths -> TabMan.isOpen q tm = true -> holdsModified modPaths tm = true.
Proof.
  intros Hq Hopen. unfold holdsModified. apply existsb_exists.
  apply isOpen_In in Hopen. unfold TabMan.paths in Hopen.
  apply in_map_iff in Hopen. destruct Hopen as (f & Hp & Hf).
  exists f. split; [exact Hf|]. apply includes_In. rewrite Hp. exact Hq.
Qed.

Lemma findLeaf_In l tree tm :
  DocTree.findLeaf l tree = Some tm -> In (l, tm) (DocTree.getAllLeafs tree).
Proof.
  unfold DocTree.findLeaf.
  destruct (find (DocTree.hasId l) (DocTree.getAllLeafs tree)) as [[i tm0]|] eqn:Hfind;
    cbn [option_map snd]; [|discriminate].
  intros He. inversion He; subst tm0.
  apply find_some in Hfind. destruct Hfind as [Hin Hid].
  unfold DocTree.hasId in Hid. cbn [fst] in Hid. apply String.eqb_eq in Hid. subst i.
  exact Hin.
Qed.

Lemma lookup_In w ws tree : Windows.lookup w ws = Some tree -> In (w, tree) ws.
Proof.
  unfold Windows.lookup.
  destruct (find (fun e => String.eqb (fst e) w) ws) as [[k t]|] eqn:Hfind;
    cbn [option_map snd]; [|discriminate].
  intros He. inversion He; subst t.
  apply find_some in Hfind. destruct Hfind as [Hin Hk].
  cbn [fst] in Hk. apply String.eqb_eq in Hk. subst k. exact Hin.
Qed.

(** The answers of [isClean] when no leaf holds a modified path. *)
Lemma isClean_local st :
  (forall l q, In l (Windows.allLeafs (_windows st)) ->
               In q (Authority.getModifiedDocumentPaths st) ->
               TabMan.isOpen q (snd l) = false) ->
  (forall w tree, Windows.lookup w (_windows st) = Some tree ->
                  isClean (Some w) (Some whichWindow) st = (Ret true, st, [])) /\
  (forall l, isClean (Some l) (Some whichLeaf) st = (Ret true, st, []) /\
             isClean (Some l) None st = (Ret true, st, [])).
Proof.
  intros Hnone.
  assert (Hleaf : forall w tree l tm,
             In (w, tree) (_windows st) -> In (l, tm) (DocTree.getAllLeafs tree) ->
             holdsModified (Authority.getModifiedDocumentPaths st) tm = false).
  { intros w tree l tm Hw Hl. apply holdsModified_false. intros q Hq.
    apply (Hnone (l, tm) q); [|exact Hq].
    unfold Windows.allLeafs. apply in_flat_map. exists (w, tree). split; assumption. }
  split.
  - intros w tree Hw. unfold isClean, theWindow. unfold_m. rewrite Hw. cbn [app fst snd].
    assert (Hex : existsb (fun leaf : string * TabManager =>
                             holdsModified (Authority.getModifiedDocumentPaths st) (snd leaf))
                    (DocTree.getAllLeafs tree) = false).
    { destruct (existsb _ (DocTree.getAllLeafs tree)) eqn:Hex; [|reflexivity].
      apply existsb_exists in Hex. destruct Hex as ([l tm] & Hin & Hmod).
      cbn [snd] in Hmod. rewrite (Hleaf w tree l tm (lookup_In _ _ _ Hw) Hin) in Hmod.
      discriminate. }
    rewrite Hex. reflexivity.
  - intros l.
    assert (Hex : existsb (fun e : string * DocumentTree =>
                             match DocTree.findLeaf l (snd e) with
                             | Some tabMan =>
                                 holdsModified (Authority.getModifiedDocumentPaths st) tabMan
                             | None => false
                             end) (_windows st) = false).
    { destruct (existsb _ (_windows st)) eqn:Hex; [|reflexivity].
      apply existsb_exists in Hex. destruct Hex as ([k t] & Hin & Hmod).
      cbn [snd] in Hmod.
      destruct (DocTree.findLeaf l t) as [tm|] eqn:Hl; [|discriminate].
      rewrite (Hleaf k t l tm Hin (findLeaf_In _ _ _ Hl)) in Hmod. discriminate. }
    split; unfold isClean; unfold_m; cbn [app fst snd]; rewrite Hex; reflexivity.
Qed.

(** X20. [isClean] without arguments looks at the loaded documents, the
    two other forms at the tabs. If the whole manager is clean, so is
    every window and every leaf. The converse fails for a modified
    document no tab holds: the total answer is [false] as soon as some
    loaded document is modified, while a window answers [false] only if
    one of its leaves holds a modified path. *)
Theorem isClean_total_and_local :
  forall (st : DocumentManager),
    (isClean None None st
     = (Ret (Nat.eqb (List.length (Authority.getModifiedDocumentPaths st)) 0), st, [])) /\
    (forall p, Authority.isModified p st = true -> outcomeOf (isClean None None st) = Ret false) /\
    (outcomeOf (isClean None None st) = Ret true ->
     (forall w tree, Windows.lookup w (_windows st) = Some tree ->
                     isClean (Some w) (Some whichWindow) st = (Ret true, st, [])) /\
     (forall l, isClean (Some l) (Some whichLeaf) st = (Ret true, st, []))) /\
    (forall w tree l tm p,
        Windows.lookup w (_windows st) = Some tree ->
        DocTree.findLeaf l tree = Some tm ->
        TabMan.isOpen p tm = true ->
        In p (Authority.getModifiedDocumentPaths st) ->
        isClean (Some w) (Some whichWindow) st = (Ret false, st, []) /\
        isClean (Some l) (Some whichLeaf) st = (Ret false, st, [])).
Proof.
  intros st.
  assert (Htotal : isClean None None st
                   = (Ret (Nat.eqb (List.length (Authority.getModifiedDocumentPaths st)) 0),
                      st, [])) by reflexivity.
  split; [exact Htotal|]. split; [|split].
  - intros p Hmod. rewrite Htotal. cbn [outcomeOf fst].
    destruct (isModified_found p st Hmod) as (idx & doc & _ & Hf & _ & Hd).
    unfold Authority.getModifiedDocumentPaths.
    unfold Docs.findDoc in Hf. apply find_some in Hf. destruct Hf as [Hin _].
    assert (Hin' : In doc (filter Docs.modified (documents st)))
      by (apply filter_In; split; assumption).
    destruct (filter Docs.modified (documents st)); [destruct Hin'|reflexivity].
  - rewrite Htotal. cbn [outcomeOf fst]. intros Hclean.
    assert (Hnil : Authority.getModifiedDocumentPaths st = []).
    { destruct (Authority.getModifiedDocumentPaths st); [reflexivity|discriminate]. }
    assert (Hnone : forall (l : string * TabManager) q,
               In l (Windows.allLeafs (_windows st)) ->
               In q (Authority.getModifiedDocumentPaths st) ->
               TabMan.isOpen q (snd l) = false).
    { intros l q _ Hq. rewrite Hnil in Hq. destruct Hq. }
    destruct (isClean_local st Hnone) as [Hwin Hleaf].
    split; [exact Hwin|]. intros l. apply (proj1 (Hleaf l)).
  - intros w tree l tm p Hw Hl Hopen Hmod.
    pose proof (holdsModified_true _ tm p Hmod Hopen) as Hholds.
    split; unfold isClean, theWindow; unfold_m; cbn [app fst snd].
    + rewrite Hw. cbn [app fst snd].
      assert (Hex : existsb (fun leaf : string * TabManager =>
                               holdsModified (Authority.getModifiedDocumentPaths st) (snd leaf))
                      (DocTree.getAllLeafs tree) = true).
      { apply existsb_exists. exists (l, tm). split; [apply findLeaf_In; exact Hl|exact Hholds]. }
      rewrite Hex. reflexivity.
    + assert (Hex : existsb (fun e : string * DocumentTree =>
                               match DocTree.findLeaf l (snd e) with
                               | Some tabMan =>
                                   holdsModified (Authority.getModifiedDocumentPaths st) tabMan
                               | None => false
                               end) (_windows st) = true).
      { apply existsb_exists. exists (w, tree). split; [apply lookup_In; exact Hw|].
        cbn [snd]. rewrite Hl. exact Hholds. }
      rewrite Hex. reflexivity.
Qed.

(** X21. After [closeFileEverywhere] for the only modified document, every
    window and every leaf reports clean, and yet the manager as a whole
    does not: the document is still loaded and still modified, with no
    tab left to save or close it from. *)
Theorem closeFileEverywhere_leaves_hidden_change :
  forall (st : DocumentManager) (filePath : string),
    uniqueTabs st ->
    Authority.getModifiedDocumentPaths st = [filePath] ->
    let st' := stateOf (closeFileEverywhere filePath st) in
    outcomeOf (isClean None None st') = Ret false /\
    (forall w tree, Windows.lookup w (_windows st') = Some tree ->
                    isClean (Some w) (Some whichWindow) st' = (Ret true, st', [])) /\
    (forall l, isClean (Some l) (Some whichLeaf) st' = (Ret true, st', [])) /\
    ~ referenced filePath st' /\
    Authority.getModifiedDocumentPaths st' = [filePath].
Proof.
  intros st p Huniq Hmod st'.
  destruct (closeFileEverywhere_run p st) as (tr & Hrun & _).
  assert (Hst : st' = setWindows (mapWindows (forceClosed p) (_windows st)) st).
  { subst st'. rewrite Hrun. reflexivity. }
  assert (Hmod' : Authority.getModifiedDocumentPaths st' = [p]).
  { rewrite Hst. exact Hmod. }
  assert (Hclosed : forall l, In l (Windows.allLeafs (_windows st')) ->
                              TabMan.isOpen p (snd l) = false).
  { intros l Hl. rewrite Hst in Hl. cbn [_windows setWindows] in Hl.
    rewrite allLeafs_mapWindows in Hl. apply in_map_iff in Hl.
    destruct Hl as (l0 & <- & Hl0). unfold onStrip. cbn [snd].
    unfold uniqueTabs in Huniq. rewrite Forall_forall in Huniq.
    apply forceClosed_closed. apply (Huniq l0 Hl0). }
  assert (Hnone : forall (l : string * TabManager) q,
             In l (Windows.allLeafs (_windows st')) ->
             In q (Authority.getModifiedDocumentPaths st') ->
             TabMan.isOpen q (snd l) = false).
  { intros l q Hl Hq. rewrite Hmod' in Hq. destruct Hq as [<-|[]]. apply Hclosed. exact Hl. }
  destruct (isClean_local st' Hnone) as [Hwin Hleaf].
  split.
  { unfold isClean. unfold_m. cbn [fst snd]. rewrite Hmod'. reflexivity. }
  split; [exact Hwin|].
  split; [intros l; apply (proj1 (Hleaf l))|].
  split; [|exact Hmod'].
  intros (l & Hl & Hopen). rewrite (Hclosed l Hl) in Hopen. discriminate.
Qed.

(** ** Who asks the user, and who writes *)

Section Emissions.
Variable T : Effect -> Prop.

Lemma emits_ret {A} (a : A) : emitsOnly T (ret a).
Proof. intros st. constructor. Qed.

Lemma emits_throw {A} e : emitsOnly T (@throw A e).
Proof. intros st. constructor. Qed.

Lemma emits_gets {A} (f : DocumentManager -> A) : emitsOnly T (gets f).
Proof. intros st. constructor. Qed.

Lemma emits_modify f : emitsOnly T (modify f).
Proof. intros st. constructor. Qed.

Lemma emits_emit e : T e -> emitsOnly T (emit e).
Proof. intros He st. constructor; [exact He|constructor]. Qed.

Lemma emits_bind {A B} (m : M A) (k : A -> M B) :
  emitsOnly T m -> (forall a, emitsOnly T (k a)) -> emitsOnly T (bind m k).
Proof.
  intros Hm Hk st. specialize (Hm st). unfold bind, traceOf in *.
  destruct (m st) as [[[a|e] st1] t1]; cbn [snd] in *.
  - specialize (Hk a st1). unfold traceOf in Hk.
    destruct (k a st1) as [[o st2] t2]. cbn [snd] in *.
    apply Forall_app. split; assumption.
  - exact Hm.
Qed.

Lemma emits_when b m : emitsOnly T m -> emitsOnly T (when b m).
Proof. intros Hm. destruct b; [exact Hm|apply emits_ret]. Qed.

Lemma emits_forM {A} (l : list A) body :
  (forall x, emitsOnly T (body x)) -> emitsOnly T (forM l body).
Proof.
  intros Hb. induction l as [|x l IH]; simpl.
  - apply emits_ret.
  - apply emits_bind; [apply Hb|intros _; exact IH].
Qed.

Lemma emits_leafCall {A} w l (f : TabManager -> A * TabManager) : emitsOnly T (leafCall w l f).
Proof. intros st. unfold leafCall, traceOf. destruct (leafOf w l st); constructor. Qed.

Lemma emits_readLeaf {A} w l (f : TabManager -> A) : emitsOnly T (readLeaf w l f).
Proof. intros st. unfold readLeaf, traceOf. destruct (leafOf w l st); constructor. Qed.

Lemma emits_forEachLeaf {S}
    (callback : TabManager -> string -> string -> S -> bool * TabManager * S) init :
  T ConfigSet -> emitsOnly T (forEachLeaf callback init).
Proof.
  intros Hc st. unfold forEachLeaf, traceOf.
  match goal with
  | |- context [visitWindows ?b ?ws ?s] =>
      pose proof (visitWindows_trace S b T ws s) as Htr;
      destruct (visitWindows b ws s) as [[ws' s'] tr]
  end.
  cbn [snd] in *. apply Htr. intros w i tm s.
  destruct (callback tm w i s) as [[changed tm'] s'']. cbn [snd].
  destruct changed; [constructor; [exact Hc|constructor]|constructor].
Qed.

Lemma emits_closeFileEverywhere p :
  (forall ev ctx, T (Broadcast ev ctx)) -> emitsOnly T (closeFileEverywhere p).
Proof.
  intros Hb st. unfold traceOf.
  pose proof (forceClose_emits p) as He.
  unfold closeFileEverywhere.
  pose proof (visitWindows_trace unit (forceClose p) T (_windows st) tt) as Htr.
  destruct (visitWindows (forceClose p) (_windows st) tt) as [[ws' u] tr].
  cbn [snd] in *. apply Htr. intros w i tm s. rewrite He.
  destruct (TabMan.isOpen p tm); [constructor; [apply Hb|constructor]|constructor].
Qed.
End Emissions.

Section SilentRequests.
Context {platform : Platform}.

(** Applies the rules above to the statements of a method. *)
Ltac emits_only :=
  repeat first
    [ apply emits_ret
    | apply emits_throw
    | apply emits_gets
    | apply emits_modify
    | apply emits_emit; split; reflexivity
    | apply emits_leafCall
    | apply emits_readLeaf
    | apply emits_forEachLeaf; split; reflexivity
    | apply emits_closeFileEverywhere; intros ? ?; split; reflexivity
    | apply emits_when
    | apply emits_forM; intros ?
    | apply emits_bind; [|intros ?]
    | match goal with
      | |- emitsOnly _ (match ?x with _ => _ end) => destruct x
      | |- emitsOnly _ (if ?x then _ else _) => destruct x
      end ].

Lemma silent_syncWatchedFilePaths : emitsOnly silent syncWatchedFilePaths.
Proof. unfold syncWatchedFilePaths, unwatch, watcherAdd. emits_only. Qed.

Lemma silent_openFile a w l p n : emitsOnly silent (openFile a w l p n).
Proof.
  unfold openFile, theWindow, isModified, syncToConfig, synchronizeDatabases, broadcastEvent.
  emits_only; apply silent_syncWatchedFilePaths.
Qed.

Lemma silent_hasMovedFile o n : emitsOnly silent (hasMovedFile o n).
Proof.
  unfold hasMovedFile, assignDoc, broadcastEvent.
  emits_only; apply silent_syncWatchedFilePaths.
Qed.

Lemma silent_hasMovedDir o n : emitsOnly silent (hasMovedDir o n).
Proof. unfold hasMovedDir. emits_only; apply silent_hasMovedFile. Qed.

Lemma silent_onWatcherEvent e p : emitsOnly silent (onWatcherEvent e p).
Proof. unfold onWatcherEvent, processEvent, handleRemoteChange. emits_only. Qed.

Lemma silent_pushUpdates p v us : emitsOnly silent (Authority.pushUpdates p v us).
Proof. unfold Authority.pushUpdates. emits_only. Qed.

Lemma silent_pullUpdates c p v : emitsOnly silent (Authority.pullUpdates c p v).
Proof. unfold Authority.pullUpdates. emits_only. Qed.

Lemma silent_setPinnedStatus w l p b : emitsOnly silent (setPinnedStatus w l p b).
Proof. unfold setPinnedStatus, theWindow, broadcastEvent, syncToConfig. emits_only. Qed.

Lemma silent_closeLeaf w l : emitsOnly silent (closeLeaf w l).
Proof. unfold closeLeaf, theWindow, removeLeaf, broadcastEvent. emits_only. Qed.

Lemma silent_notifyRemoteChange p : emitsOnly silent (notifyRemoteChange p).
Proof. unfold notifyRemoteChange, broadcastEvent. emits_only. Qed.

Lemma silent_closeWindow w : emitsOnly silent (closeWindow w).
Proof. unfold closeWindow, syncToConfig. emits_only. Qed.

Lemma silent_newWindow l k ds : emitsOnly silent (newWindow l k ds).
Proof. unfold newWindow, broadcastEvent, syncToConfig. emits_only. Qed.

Lemma silent_moveFile wO wT lO lT p : emitsOnly silent (moveFile wO wT lO lT p).
Proof.
  unfold moveFile, theWindow, broadcastEvent, syncToConfig.
  emits_only; apply silent_closeLeaf.
Qed.

Lemma unasked_saveFile ioOk p : emitsOnly (fun e => isPrompt e = false) (saveFile ioOk p).
Proof.
  unfold saveFile, saveFile_prepare, saveFile_finish, assignDoc, synchronizeDatabases,
    broadcastEvent.
  repeat first
    [ apply emits_ret
    | apply emits_throw
    | apply emits_gets
    | apply emits_modify
    | apply emits_emit; reflexivity
    | apply emits_when
    | apply emits_bind; [|intros ?]
    | match goal with
      | |- emitsOnly _ (match ?x with _ => _ end) => destruct x
      | |- emitsOnly _ (if ?x then _ else _) => destruct x
      end ].
Qed.
End SilentRequests.

Lemma silent_filters tr :
  Forall silent tr -> prompts tr = [] /\ filter isWrite tr = [].
Proof.
  intros H. unfold prompts. split; apply filter_none.
  - eapply Forall_impl; [|exact H]. intros e [Hp _]. exact Hp.
  - eapply Forall_impl; [|exact H]. intros e [_ Hw]. exact Hw.
Qed.

(** X22. Of all the requests only [closeFile] ever asks the user, and only
    [closeFile] and [saveFile] ever write a file. Opening, moving and
    renaming, closing a leaf or a window, unlinking a file on disk or
    closing it everywhere go through without a dialog and without a
    write, whatever the state of the documents they take tabs away
    from. *)
Theorem only_closeFile_asks :
  forall (platform : Platform) (r : Request) (st : DocumentManager),
    ((forall response ioOk w l p, r <> ReqCloseFile response ioOk w l p) ->
     prompts (traceOf (handle r st)) = []) /\
    ((forall response ioOk w l p, r <> ReqCloseFile response ioOk w l p) ->
     (forall ioOk p, r <> ReqSaveFile ioOk p) ->
     filter isWrite (traceOf (handle r st)) = []) /\
    (forall wO wT lO lT p,
        prompts (traceOf (moveFile wO wT lO lT p st)) = [] /\
        filter isWrite (traceOf (moveFile wO wT lO lT p st)) = []).
Proof.
  intros platform r st.
  assert (Hsilent : (forall response ioOk w l p, r <> ReqCloseFile response ioOk w l p) ->
                    (forall ioOk p, r <> ReqSaveFile ioOk p) ->
                    Forall silent (traceOf (handle r st))).
  { intros Hclose Hsave.
    assert (Hd : forall A (m : M A), emitsOnly silent m -> emitsOnly silent (discard m)).
    { intros A m Hm. unfold discard. apply emits_bind; [exact Hm|intros _; apply emits_ret]. }
    destruct r; cbn [handle].
    - apply Hd. apply silent_openFile.
    - exfalso. eapply Hclose. reflexivity.
    - apply emits_closeFileEverywhere. intros ev ctx. split; reflexivity.
    - exfalso. eapply Hsave. reflexivity.
    - apply Hd. apply silent_pushUpdates.
    - apply Hd. apply silent_pullUpdates.
    - apply silent_closeWindow.
    - apply silent_newWindow.
    - apply silent_hasMovedFile.
    - apply silent_hasMovedDir.
    - apply silent_onWatcherEvent.
    - apply silent_setPinnedStatus.
    - apply silent_closeLeaf.
    - apply silent_notifyRemoteChange.
    - apply silent_syncWatchedFilePaths. }
  split; [|split].
  - intros Hclose.
    destruct (match r with ReqSaveFile _ _ => true | _ => false end) eqn:Hkind.
    + destruct r; try discriminate. cbn [handle]. unfold prompts. apply filter_none.
      apply (emits_bind (fun e => isPrompt e = false)).
      * apply unasked_saveFile.
      * intros _. apply emits_ret.
    + apply silent_filters. apply Hsilent; [exact Hclose|].
      intros ioOk p He. subst r. discriminate.
  - intros Hclose Hsave. apply silent_filters. apply Hsilent; assumption.
  - intros wO wT lO lT p. apply silent_filters. apply silent_moveFile.
Qed.

(** ** boot *)













Section BootRuns.
Context {platform : Platform}.


End BootRuns.



(** ** What a request leaves alone *)

Section Frames.
Variable P : DocumentManager -> Prop.

Lemma frame_readLeaf {A} w l (f : TabManager -> A) : preserves P (readLeaf w l f).
Proof. intros st H. unfold readLeaf, stateOf. destruct (leafOf w l st); exact H. Qed.

Lemma frame_leafCall {A} w l (f : TabManager -> A * TabManager) :
  (forall ws st, P st -> P (setWindows ws st)) -> preserves P (leafCall w l f).
Proof.
  intros HW st H. unfold leafCall, stateOf. destruct (leafOf w l st); cbn [fst snd].
  - apply HW. exact H.
  - exact H.
Qed.

Lemma frame_forEachLeaf {S}
    (callback : TabManager -> string -> string -> S -> bool * TabManager * S) init :
  (forall ws st, P st -> P (setWindows ws st)) -> preserves P (forEachLeaf callback init).
Proof.
  intros HW st H. unfold forEachLeaf, stateOf.
  match goal with
  | |- context [visitWindows ?b ?ws ?s] => destruct (visitWindows b ws s) as [[ws' s'] tr]
  end.
  cbn [fst snd]. apply HW. exact H.
Qed.

Lemma frame_closeFileEverywhere p :
  (forall ws st, P st -> P (setWindows ws st)) -> preserves P (closeFileEverywhere p).
Proof.
  intros HW st H. unfold closeFileEverywhere, stateOf.
  destruct (visitWindows (forceClose p) (_windows st) tt) as [[ws' u] tr].
  cbn [fst snd]. apply HW. exact H.
Qed.

Lemma frame_syncWatchedFilePaths :
  (forall v st, P st -> P (setWatcher v st)) -> preserves P syncWatchedFilePaths.
Proof. intros HV st H. rewrite syncWatchedFilePaths_run. apply HV. exact H. Qed.
End Frames.

Section Footprint.
Context {platform : Platform}.

(** Applies the rules above to the statements of a method; an assignment
    to another field of the manager is seen through by computation. *)
Ltac framed :=
  repeat first
    [ apply preserves_ret
    | apply preserves_throw
    | apply preserves_gets
    | apply preserves_emit
    | apply frame_readLeaf
    | apply frame_leafCall; intros ? ? Hkept; exact Hkept
    | apply frame_forEachLeaf; intros ? ? Hkept; exact Hkept
    | apply frame_closeFileEverywhere; intros ? ? Hkept; exact Hkept
    | apply frame_syncWatchedFilePaths; intros ? ? Hkept; exact Hkept
    | apply preserves_when
    | apply preserves_forM; intros ?
    | apply preserves_bind; [|intros ?]
    | apply preserves_modify; intros ? Hkept;
      repeat match goal with
             | |- context [if ?b then _ else _] => destruct b
             end;
      exact Hkept
    | match goal with
      | |- preserves _ (match ?x with _ => _ end) => destruct x
      | |- preserves _ (if ?x then _ else _) => destruct x
      end ].

Ltac unfold_requests :=
  unfold discard, openFile, saveFile, saveFile_prepare, saveFile_finish, closeWindow,
    newWindow, hasMovedDir, hasMovedFile, onWatcherEvent, processEvent, handleRemoteChange,
    setPinnedStatus, closeLeaf, removeLeaf, notifyRemoteChange, Authority.pushUpdates,
    Authority.pullUpdates, theWindow, isModified, assignDoc, dropDocument, syncToConfig,
    synchronizeDatabases, broadcastEvent.

Lemma windows_untouched (W : list (string * DocumentTree)) r :
  touchesWindows r = false -> preserves (fun st => _windows st = W) (handle r).
Proof.
  intros Hr. destruct r; try discriminate; cbn [handle]; unfold_requests; framed.
Qed.

Lemma documents_untouched (D : list Document) r :
  touchesDocuments r = false -> preserves (fun st => documents st = D) (handle r).
Proof.
  intros Hr. destruct r; try discriminate; cbn [handle]; unfold_requests; framed.
Qed.

Lemma ignoreList_untouched (L : list string) r :
  touchesIgnoreList r = false -> preserves (fun st => _ignoreChanges st = L) (handle r).
Proof.
  intros Hr. destruct r; try discriminate; cbn [handle]; unfold_requests; framed.
Qed.

Lemma watcher_untouched (V : list string) r :
  touchesWatcher r = false -> preserves (fun st => _watcher st = V) (handle r).
Proof.
  intros Hr. destruct r; try discriminate; cbn [handle]; unfold_requests; framed.
Qed.

Lemma shuttingDown_untouched (b : bool) r :
  preserves (fun st => _shuttingDown st = b) (handle r).
Proof.
  destruct r; cbn [handle]; unfold_requests; unfold closeFile, afterClose; unfold_requests;
    framed.
Qed.
End Footprint.

Lemma runAll_preserves {platform : Platform} (P : DocumentManager -> Prop)
    (ok : Request -> bool) rs st :
  (forall r, ok r = false -> preserves P (handle r)) ->
  Forall (fun r => ok r = false) rs ->
  P st -> P (runAll rs st).
Proof.
  intros Hkeep Hrs. revert st. induction Hrs as [|r rs Hr _ IH]; intros st Hst; cbn [runAll].
  - exact Hst.
  - apply IH. apply (Hkeep r Hr st Hst).
Qed.

(** X25. What the requests leave alone. The windows are not touched by
    saving, by the exchange of updates, by a remote change or by the
    synchronisation of the watcher. The loaded documents are not touched
    by opening a file, by closing a window, a leaf or a file everywhere,
    by pinning, or by watcher events. The ignore list is touched only by
    saving, by [closeFile] and by watcher events. The watched paths are
    touched only by [openFile], [closeFile], the renames and the
    synchronisation itself: closing windows or leaves and closing a file
    everywhere never bring the watcher up to date, however many of these
    requests run. No request changes the shut-down flag. *)
Theorem request_footprint :
  forall (platform : Platform) (r : Request) (st : DocumentManager),
    (touchesWindows r = false -> _windows (stateOf (handle r st)) = _windows st) /\
    (touchesDocuments r = false -> documents (stateOf (handle r st)) = documents st) /\
    (touchesIgnoreList r = false ->
     _ignoreChanges (stateOf (handle r st)) = _ignoreChanges st) /\
    (touchesWatcher r = false -> _watcher (stateOf (handle r st)) = _watcher st) /\
    _shuttingDown (stateOf (handle r st)) = _shuttingDown st /\
    (forall rs, Forall (fun r => touchesWatcher r = false) rs ->
                _watcher (runAll rs st) = _watcher st) /\
    (forall rs, Forall (fun r => touchesDocuments r = false) rs ->
                documents (runAll rs st) = documents st).
Proof.
  intros platform r st.
  split; [intros Hr; apply (windows_untouched (_windows st) r Hr st eq_refl)|].
  split; [intros Hr; apply (documents_untouched (documents st) r Hr st eq_refl)|].
  split; [intros Hr; apply (ignoreList_untouched (_ignoreChanges st) r Hr st eq_refl)|].
  split; [intros Hr; apply (watcher_untouched (_watcher st) r Hr st eq_refl)|].
  split; [apply (shuttingDown_untouched (_shuttingDown st) r st eq_refl)|].
  split.
  - intros rs Hrs.
    apply (runAll_preserves (fun s => _watcher s = _watcher st) touchesWatcher rs st
             (watcher_untouched (_watcher st)) Hrs eq_refl).
  - intros rs Hrs.
    apply (runAll_preserves (fun s => documents s = documents st) touchesDocuments rs st
             (documents_untouched (documents st)) Hrs eq_refl).
Qed.

(** ** leafIds and getActiveFile *)

Lemma getActiveFile_found w l st tm :
  leafOf w l st = Some tm ->
  (forall w' t', In (w', t') (_windows st) -> w' <> w -> DocTree.findLeaf l t' = None) ->
  getActiveFile l st = activeFile tm.
Proof.
  unfold getActiveFile, leafOf, Windows.lookup.
  induction (_windows st) as [|[k t] ws IH]; cbn [find activeFileIn fst]; [discriminate|].
  intros Hleaf Hothers.
  destruct (String.eqb k w) eqn:Hk.
  - cbn [option_map snd] in Hleaf. rewrite Hleaf. reflexivity.
  - apply String.eqb_neq in Hk.
    rewrite (Hothers k t (or_introl eq_refl) Hk).
    apply IH; [exact Hleaf|].
    intros w' t' Hin Hne. apply (Hothers w' t' (or_intror Hin) Hne).
Qed.

Lemma In_update_other w g ws w' t' :
  In (w', t') (Windows.update w g ws) -> w' <> w -> In (w', t') ws.
Proof.
  intros Hin Hne. induction ws as [|e ws IH]; cbn [Windows.update] in Hin; [destruct Hin|].
  destruct (String.eqb (fst e) w) eqn:He.
  - destruct Hin as [Hin|Hin]; [|right; exact Hin].
    inversion Hin; subst. apply String.eqb_eq in He. congruence.
  - destruct Hin as [Hin|Hin]; [left; exact Hin|right; apply IH; exact Hin].
Qed.

(** X27. [leafIds] answers for a window with the ids [findLeaf] finds in
    its tree. For a name that is no key of the windows it answers with the
    empty list, unless the name is inherited from [Object.prototype]: then
    the test with [in] lets it through and the call throws a TypeError.
    [getActiveFile] answers for a leaf that only one window has with the
    active file of that leaf; for a leaf no window has it answers
    nothing. *)
Theorem leafIds_and_getActiveFile :
  forall (st : DocumentManager) (windowId leafId : string),
    (forall tree,
        Windows.lookup windowId (_windows st) = Some tree ->
        leafIds windowId st = Ret (map fst (DocTree.getAllLeafs tree)) /\
        (In leafId (map fst (DocTree.getAllLeafs tree)) <->
         exists tm, leafOf windowId leafId st = Some tm)) /\
    (Windows.lookup windowId (_windows st) = None ->
     leafIds windowId st
     = if JSObject.inherited windowId then Throw TypeError else Ret []) /\
    ((forall w t, In (w, t) (_windows st) -> DocTree.findLeaf leafId t = None) ->
     getActiveFile leafId st = None) /\
    (forall tm,
        leafOf windowId leafId st = Some tm ->
        (forall w t, In (w, t) (_windows st) -> w <> windowId ->
                     DocTree.findLeaf leafId t = None) ->
        getActiveFile leafId st = activeFile tm).
Proof.
  intros st w l. split; [|split; [|split]].
  - intros tree Hw. split; [apply (leafIds_known w st tree Hw)|].
    unfold leafOf. rewrite Hw. unfold DocTree.findLeaf. split.
    + intros Hin. apply in_map_iff in Hin. destruct Hin as ([i tm] & Hi & Hin).
      cbn [fst] in Hi. subst i.
      destruct (find (DocTree.hasId l) (DocTree.getAllLeafs tree)) as [x|] eqn:Hfind.
      * exists (snd x). reflexivity.
      * exfalso. pose proof (find_none _ _ Hfind (l, tm) Hin) as Hno.
        unfold DocTree.hasId in Hno. cbn [fst] in Hno. rewrite String.eqb_refl in Hno.
        discriminate.
    + intros (tm & Hfind).
      destruct (find (DocTree.hasId l) (DocTree.getAllLeafs tree)) as [x|] eqn:Hx;
        [|discriminate].
      apply find_some in Hx. destruct Hx as [Hin Hid].
      unfold DocTree.hasId in Hid. apply String.eqb_eq in Hid.
      apply in_map_iff. exists x. split; assumption.
  - intros Hw. unfold leafIds, Windows.hasProperty.
    rewrite (has_lookup w _ Hw), Hw. cbn [orb].
    destruct (JSObject.inherited w); reflexivity.
  - intros Hnone. unfold getActiveFile.
    induction (_windows st) as [|[k t] ws IH]; cbn [activeFileIn]; [reflexivity|].
    rewrite (Hnone k t (or_introl eq_refl)). apply IH.
    intros w' t' Hin. apply (Hnone w' t' (or_intror Hin)).
  - intros tm Hleaf Hothers. apply (getActiveFile_found w l st tm Hleaf Hothers).
Qed.

(** X28. After [openFile] on a leaf that only this window has, and whose
    active file, if any, is one of its tabs, [getActiveFile] answers for
    that leaf with the file that was opened: whether the file was already
    a tab, was added as a tab, or took the place of the active tab. *)
Theorem openFile_then_getActiveFile :
  forall (platform : Platform) (st : DocumentManager) (avoidNewTabs : bool)
         (windowId : string) (leafId : option string) (filePath : string) (newTab : option bool)
         (tree : DocumentTree) (lid : string) (tm : TabManager),
    Windows.lookup windowId (_windows st) = Some tree ->
    targetLeaf leafId tree = Some (lid, tm) ->
    (forall a, activeFile tm = Some a -> TabMan.isOpen a tm = true) ->
    (forall w t, In (w, t) (_windows st) -> w <> windowId -> DocTree.findLeaf lid t = None) ->
    let r := openFile avoidNewTabs windowId leafId filePath newTab st in
    outcomeOf r = Ret true /\
    getActiveFile lid (stateOf r) = Some filePath.
Proof.
  intros platform st avoid w l p newTab tree lid tm Hw Ht Hactive Hothers r.
  pose proof (targetLeaf_found l tree lid tm Ht) as Hl.
  set (s1 := setWindows
               (Windows.update w (DocTree.updateLeaf lid (tabOpened p)) (_windows st)) st).
  assert (Hleaf1 : leafOf w lid s1 = Some (tabOpened p tm))
    by (apply (leafOf_updated w lid (tabOpened p) st tree tm Hw Hl)).
  assert (Hothers1 : forall w' t', In (w', t') (_windows s1) -> w' <> w ->
                                   DocTree.findLeaf lid t' = None).
  { intros w' t' Hin Hne. apply (Hothers w' t'); [|exact Hne].
    apply (In_update_other w _ _ w' t' Hin Hne). }
  assert (Hdone1 : getActiveFile lid s1 = Some p).
  { rewrite (getActiveFile_found w lid s1 _ Hleaf1 Hothers1). apply activeFile_tabOpened. }
  destruct (TabMan.isOpen p tm) eqn:Hopen.
  - destruct (openFile_present avoid w l p newTab st tree lid tm Hw Ht Hopen) as (tr & Hrun).
    subst r. rewrite Hrun. cbn [outcomeOf stateOf fst snd]. split; [reflexivity|exact Hdone1].
  - destruct (openFile_absent avoid w l p newTab st tree lid tm Hw Ht Hopen) as (tr & Hrun).
    subst r. rewrite Hrun. cbn [outcomeOf stateOf fst snd]. split; [reflexivity|].
    fold s1.
    destruct (activeFile tm) as [a|] eqn:Ha; [|exact Hdone1].
    destruct (replacesActive avoid newTab a st); [|exact Hdone1].
    set (s2 := setWindows
                 (Windows.update w (DocTree.updateLeaf lid (tabClosed a)) (_windows s1)) s1).
    assert (Hne : a <> p).
    { intros ->. rewrite (Hactive p eq_refl) in Hopen. discriminate. }
    destruct (leafOf_inv w lid s1 _ Hleaf1) as (tree1 & Hw1 & Hl1).
    assert (Hleaf2 : leafOf w lid (setWatcher (syncedWatcher s2) s2)
                     = Some (tabClosed a (tabOpened p tm)))
      by (apply (leafOf_updated w lid (tabClosed a) s1 tree1 _ Hw1 Hl1)).
    rewrite (getActiveFile_found w lid _ _ Hleaf2).
    + rewrite activeFile_tabClosed_other; [apply activeFile_tabOpened|].
      unfold TabMan.isActive. rewrite activeFile_tabOpened.
      apply String.eqb_neq. congruence.
    + intros w' t' Hin Hne'. apply (Hothers1 w' t'); [|exact Hne'].
      apply (In_update_other w _ _ w' t' Hin Hne').
Qed.

(** ** Saving twice *)

(** X29. A save of a Markdown file reports to the statistics the
    difference between the words of the text and the words at the last
    save, and remembers the new count: a second save right after reports
    a difference of zero. A code file is written without any report and
    without synchronising the databases. Either way each save leaves one
    more entry for the path in the ignore list. *)
Theorem saveFile_counts_words_once :
  forall (platform : Platform) (st : DocumentManager) (p : string) (doc : Document),
    Docs.findDoc p (documents st) = Some doc ->
    let r1 := saveFile true p st in
    let r2 := saveFile true p (stateOf r1) in
    outcomeOf r2 = Ret true /\
    (isFile (descriptor doc) = true ->
     filter isWordCount (traceOf r1)
     = [UpdateWordCount (countWords (document doc) - lastSavedWordCount doc)] /\
     filter isWordCount (traceOf r2) = [UpdateWordCount 0]) /\
    (isFile (descriptor doc) = false ->
     traceOf r1
     = [FsSave (descriptor doc) (document doc);
        Broadcast CHANGE_FILE_STATUS (mkContext None None (Some p) (Some "modification"));
        Broadcast FILE_SAVED (mkContext None None (Some p) None)] /\
     traceOf r2 = traceOf r1) /\
    _ignoreChanges (stateOf r2) = _ignoreChanges st ++ [p; p].
Proof.
  intros platform st p doc Hf r1 r2.
  destruct (indexOf_findDoc _ _ _ Hf) as (idx & Hi & _ & _).
  pose proof (saveFile_succeeds st p idx doc Hi Hf) as Hrun1.
  rewrite (saveFile_prepare_found st p idx doc Hi Hf) in Hrun1.
  cbn [stateOf traceOf fst snd] in Hrun1.
  set (doc1 := markedSaved (isFile (descriptor doc)) (document doc) doc) in *.
  set (s1 := setIgnoreChanges (_ignoreChanges st ++ [p])
               (setDocuments (Docs.updateAt idx (markedSaved (isFile (descriptor doc))
                                                   (document doc)) (documents st)) st)) in *.
  destruct (markedSaved_fields (isFile (descriptor doc)) (document doc) doc)
    as (Hpath & _ & _ & Hdoc).
  destruct (findDoc_updateAt p (documents st) idx doc
              (markedSaved (isFile (descriptor doc)) (document doc)) Hi Hf Hpath)
    as (Hf1 & Hi1).
  assert (Hs1 : stateOf r1 = s1) by (subst r1; rewrite Hrun1; reflexivity).
  assert (Hdesc : descriptor doc1 = descriptor doc).
  { subst doc1. unfold markedSaved. destruct (isFile (descriptor doc)); reflexivity. }
  assert (Hdocument : document doc1 = document doc) by exact Hdoc.
  pose proof (saveFile_succeeds s1 p idx doc1 Hi1 Hf1) as Hrun2.
  rewrite (saveFile_prepare_found s1 p idx doc1 Hi1 Hf1) in Hrun2.
  cbn [stateOf traceOf fst snd] in Hrun2.
  rewrite Hdesc, Hdocument in Hrun2.
  subst r2. rewrite Hs1, Hrun2. subst r1. rewrite Hrun1.
  cbn [outcomeOf stateOf traceOf fst snd].
  split; [reflexivity|]. split; [|split].
  - intros Hfile. rewrite Hfile. cbn [app filter isWordCount]. split; [reflexivity|].
    assert (Hcount : lastSavedWordCount doc1 = countWords (document doc)).
    { subst doc1. unfold markedSaved. rewrite Hfile. reflexivity. }
    rewrite Hcount, Z.sub_diag. reflexivity.
  - intros Hcode. rewrite Hcode. cbn [app]. split; reflexivity.
  - cbn [_ignoreChanges setIgnoreChanges setDocuments]. subst s1.
    cbn [_ignoreChanges setIgnoreChanges setDocuments].
    rewrite <- app_assoc. reflexivity.
Qed.

(** ** closeLeaf *)

(** X30. [closeLeaf] on a leaf of a window with several leaves takes that
    leaf out of the tree together with its tabs: the other leaves stay as
    they are, the only effect is one LEAF_CLOSED event (no CLOSE_FILE for
    the tabs, and the configuration is not written), and the loaded
    documents and watched paths are as before. *)
Theorem closeLeaf_drops_leaf_with_tabs :
  forall (st : DocumentManager) (windowId leafId : string)
         (tree : DocumentTree) (tm : TabManager),
    Windows.lookup windowId (_windows st) = Some tree ->
    DocTree.findLeaf leafId tree = Some tm ->
    2 <= List.length (DocTree.getAllLeafs tree) ->
    let r := closeLeaf windowId leafId st in
    outcomeOf r = Ret tt /\
    traceOf r = [Broadcast LEAF_CLOSED (leafContext windowId leafId None)] /\
    documents (stateOf r) = documents st /\
    _watcher (stateOf r) = _watcher st /\
    (exists ids,
        leafIds windowId st = Ret ids /\
        leafIds windowId (stateOf r) = Ret (removeFirst leafId ids)) /\
    exists tree',
      Windows.lookup windowId (_windows (stateOf r)) = Some tree' /\
      DocTree.getAllLeafs tree' = DocTree.withoutLeaf leafId (DocTree.getAllLeafs tree) /\
      forall other, other <> leafId ->
                    DocTree.findLeaf other tree' = DocTree.findLeaf other tree.
Proof.
  intros st w l tree tm Hw Hl Hlen r.
  assert (Hrun : closeLeaf w l st
                 = (Ret tt,
                    setWindows (Windows.update w (DocTree.removeNode l) (_windows st)) st,
                    [Broadcast LEAF_CLOSED (leafContext w l None)])).
  { unfold closeLeaf, removeLeaf, broadcastEvent.
    unfold bind at 1. rewrite (theWindow_known w st tree Hw), Hl. reflexivity. }
  subst r. rewrite Hrun. cbn [outcomeOf stateOf traceOf fst snd].
  split; [reflexivity|]. split; [reflexivity|]. split; [reflexivity|]. split; [reflexivity|].
  assert (Hw' : Windows.lookup w
                  (_windows (setWindows
                               (Windows.update w (DocTree.removeNode l) (_windows st)) st))
                = Some (DocTree.removeNode l tree)).
  { cbn [_windows setWindows]. rewrite lookup_update, Hw. reflexivity. }
  split.
  - exists (map fst (DocTree.getAllLeafs tree)).
    split; [apply (leafIds_known w st tree Hw)|].
    rewrite (leafIds_known w _ _ Hw'), (removeNode_leafs l tree tm Hl Hlen), ids_withoutLeaf.
    reflexivity.
  - exists (DocTree.removeNode l tree). split; [exact Hw'|].
    split; [apply (removeNode_leafs l tree tm Hl Hlen)|].
    intros other Hne. apply findLeaf_removeNode_other. exact Hne.
Qed.

(** * Examples

    The theorems above at concrete managers, on the POSIX platform. *)

Section Examples.
#[local] Existing Instance Posix.platform.

(** A stale push and an accepted push on a concrete document. *)
Lemma pushUpdates_stale_or_advance_witness :
  Authority.pushUpdates "/n/a.md" 2 [Ex.insertX] Ex.authorityOnly
    = (Throw StaleBase, Ex.authorityOnly, []) /\
  exists st' tr doc',
    Authority.pushUpdates "/n/a.md" 3 [Ex.insertX; Ex.deleteB] Ex.authorityOnly
      = (Ret 5%Z, st', tr) /\
    Docs.findDoc "/n/a.md" (documents st') = Some doc' /\
    currentVersion doc' = 5%Z /\
    document doc' = "xbc" /\
    updates doc' = [(4%Z, Ex.insertX); (5%Z, Ex.deleteB)] /\
    lastSavedVersion doc' = 3%Z.
Proof.
  split.
  - apply (proj1 (pushUpdates_stale_or_advance Ex.authorityOnly "/n/a.md" 2
                    [Ex.insertX] (Ex.doc "/n/a.md" "abc" 3 3) eq_refl)).
    discriminate.
  - apply (proj2 (pushUpdates_stale_or_advance Ex.authorityOnly "/n/a.md" 3
                    [Ex.insertX; Ex.deleteB] (Ex.doc "/n/a.md" "abc" 3 3) eq_refl)).
    reflexivity.
Defined.

(** Saving document c of the example, the write failing: the call is
    rejected after the saved version was advanced. *)
Lemma saveFile_marks_saved_before_write_witness :
  Docs.findDoc "/n/c.md" (documents Ex.desk) = Some (Ex.doc "/n/c.md" "gamma" 5 4) /\
  saveFile false "/n/c.md" Ex.desk
    = (Throw IOFailure, stateOf (saveFile_prepare "/n/c.md" Ex.desk),
       traceOf (saveFile_prepare "/n/c.md" Ex.desk)) /\
  Authority.isModified "/n/c.md"
    (stateOf (saveFile_finish "/n/c.md" (descriptor (Ex.doc "/n/c.md" "gamma" 5 4))
                (runEdits [("/n/c.md", 5%Z, [Ex.insertX])]
                   (stateOf (saveFile_prepare "/n/c.md" Ex.desk))))) = true.
Proof.
  split; [reflexivity|].
  split.
  - exact (proj1 (proj2 (proj2 (proj2
             (saveFile_marks_saved_before_write Posix.platform Ex.desk "/n/c.md"
                (Ex.doc "/n/c.md" "gamma" 5 4) eq_refl))))).
  - apply (proj2 (proj2 (proj2 (proj2 (proj2
             (saveFile_marks_saved_before_write Posix.platform Ex.desk "/n/c.md"
                (Ex.doc "/n/c.md" "gamma" 5 4) eq_refl)))))).
    discriminate.
Defined.

(** Closing the modified document c of the example in its only leaf, the
    user cancelling. *)
Lemma closeFile_cancel_no_mutation_witness :
  instances "/n/c.md" Ex.desk = 1 /\
  Authority.isModified "/n/c.md" Ex.desk = true /\
  closeFile Cancel true "w1" "l2" "/n/c.md" Ex.desk = (Ret false, Ex.desk, [AskSaveChanges]).
Proof.
  split; [reflexivity|]. split; [reflexivity|].
  pose proof (closeFile_cancel_no_mutation Posix.platform Ex.desk true "w1" "l2" "/n/c.md"
                eq_refl eq_refl) as H.
  cbv zeta in H.
  destruct H as (Hst & _ & Hleaf).
  destruct (Hleaf (mkTabManager [Ex.tab "/n/c.md"] (Some "/n/c.md")) eq_refl) as [Ho Ht].
  destruct (closeFile Cancel true "w1" "l2" "/n/c.md" Ex.desk) as [[o s] t].
  cbn in *. subst. reflexivity.
Defined.


(** Document b of the example, open in window [w1] and pinned in window
    [w2], is closed in both without a consent dialog. *)
Lemma closeFileEverywhere_closes_all_witness :
  uniqueTabs Ex.desk /\
  prompts (traceOf (closeFileEverywhere "/n/b.md" Ex.desk)) = [] /\
  Windows.allLeafs (_windows (stateOf (closeFileEverywhere "/n/b.md" Ex.desk)))
  = [("l1", mkTabManager [Ex.tab "/n/a.md"] (Some "/n/a.md"));
     ("l2", mkTabManager [Ex.tab "/n/c.md"] (Some "/n/c.md"));
     ("l3", mkTabManager [Ex.tab "/n/d.md"] (Some "/n/d.md"))] /\
  ~ referenced "/n/b.md" (stateOf (closeFileEverywhere "/n/b.md" Ex.desk)).
Proof.
  assert (Hu : uniqueTabs Ex.desk).
  { unfold uniqueTabs, TabMan.unique. cbn.
    repeat (constructor; [repeat (constructor; [cbn; intuition discriminate|]); constructor|]).
    constructor. }
  split; [exact Hu|].
  destruct (closeFileEverywhere_closes_all Ex.desk "/n/b.md" Hu) as (_ & Hp & Hl & _ & Hr).
  split; [exact Hp|]. split; [exact Hl|exact Hr].
Defined.


(** In the example, closing window [w2] and then, twice, window [w1]
    leaves window [w1]. *)
Lemma closeWindow_keeps_last_window_witness :
  windowCount (stateOf (closeWindow "w2" Ex.desk)) = 1 /\
  closeWindow "w1" (stateOf (closeWindow "w2" Ex.desk))
  = (Ret tt, stateOf (closeWindow "w2" Ex.desk), []) /\
  1 <= windowCount (runAll [ReqCloseWindow "w2"; ReqCloseWindow "w1"; ReqCloseWindow "w1"] Ex.desk).
Proof.
  split; [reflexivity|]. split.
  - apply (proj1 (closeWindow_keeps_last_window Posix.platform
                    (stateOf (closeWindow "w2" Ex.desk)) "w1" [])).
    reflexivity.
  - apply (proj2 (closeWindow_keeps_last_window Posix.platform Ex.desk "w2"
                    [ReqCloseWindow "w2"; ReqCloseWindow "w1"; ReqCloseWindow "w1"])).
    + unfold distinctKeys. cbn.
      repeat (constructor; [cbn; intuition discriminate|]). constructor.
    + cbn. lia.
Defined.

(** C8. The safeguard of [closeWindow] holds, but the number of windows is
    not at least 1 after [boot]. Let the store hold one window whose tree
    cannot be read, under any key [k]: [boot] catches the exception and
    mounts nothing, and its fallback, which asks whether the store has no
    key rather than whether a window was mounted, makes no window either.
    [boot] returns with no window at all, and [closeWindow] leaves it at
    that; with an empty store the same [boot] makes one window. *)
Theorem boot_leaves_no_window :
  forall (accessible : string -> bool) (k key leafId windowId : string),
    let r := boot accessible [(k, None)] key leafId Ex.blank in
    r = (Ret tt, Ex.blank, [SynchronizeDatabases []; ConfigSet]) /\
    windowCount (stateOf r) = 0 /\
    windowCount (stateOf (closeWindow windowId (stateOf r))) = 0 /\
    windowCount (stateOf (boot accessible [] key leafId Ex.blank)) = 1.
Proof.
  intros accessible k key leafId windowId r.
  assert (Hr : r = (Ret tt, Ex.blank, [SynchronizeDatabases []; ConfigSet])) by reflexivity.
  split; [exact Hr|]. rewrite Hr. cbn [stateOf fst snd].
  split; [reflexivity|]. split; [|reflexivity].
  unfold closeWindow, Windows.hasProperty. unfold_m.
  generalize (JSObject.inherited windowId). intros [|]; reflexivity.
Qed.

(** In the example with [avoidNewTabs] set: opening d in leaf [l1] closes
    the unmodified active file a; opening a in leaf [l2] keeps the modified
    active file c. *)
Lemma openFile_closes_only_unmodified_witness :
  (exists tm',
      leafOf "w1" "l1" (stateOf (openFile true "w1" (Some "l1") "/n/d.md" None Ex.desk)) = Some tm' /\
      TabMan.isOpen "/n/a.md" tm' = false) /\
  (exists tm',
      leafOf "w1" "l2" (stateOf (openFile true "w1" (Some "l2") "/n/a.md" None Ex.desk)) = Some tm' /\
      TabMan.isOpen "/n/c.md" tm' = true).
Proof.
  split.
  - destruct (openFile_closes_only_unmodified Posix.platform Ex.desk true "w1" (Some "l1")
                "/n/d.md" None
                (mkDocumentTree
                   (DTBranch "b1" horizontal
                      [Ex.leaf "l1" [Ex.tab "/n/a.md"; Ex.tab "/n/b.md"] (Some "/n/a.md");
                       Ex.leaf "l2" [Ex.tab "/n/c.md"] (Some "/n/c.md")]))
                "l1" (mkTabManager [Ex.tab "/n/a.md"; Ex.tab "/n/b.md"] (Some "/n/a.md"))
                "/n/a.md" eq_refl eq_refl eq_refl eq_refl)
      as (tm' & Hleaf & _ & _ & Hiff).
    { unfold TabMan.unique. cbn.
      repeat (constructor; [cbn; intuition discriminate|]). constructor. }
    exists tm'. split; [exact Hleaf|].
    apply (Hiff eq_refl eq_refl eq_refl). reflexivity.
  - destruct (openFile_closes_only_unmodified Posix.platform Ex.desk true "w1" (Some "l2")
                "/n/a.md" None
                (mkDocumentTree
                   (DTBranch "b1" horizontal
                      [Ex.leaf "l1" [Ex.tab "/n/a.md"; Ex.tab "/n/b.md"] (Some "/n/a.md");
                       Ex.leaf "l2" [Ex.tab "/n/c.md"] (Some "/n/c.md")]))
                "l2" (mkTabManager [Ex.tab "/n/c.md"] (Some "/n/c.md"))
                "/n/c.md" eq_refl eq_refl eq_refl eq_refl)
      as (tm' & Hleaf & _ & Hkeep & _).
    { unfold TabMan.unique. cbn. constructor; [intros []|constructor]. }
    exists tm'. split; [exact Hleaf|].
    apply Hkeep. reflexivity.
Defined.

(** C10. [hasMovedDir] reaches every loaded document whose path starts with
    [oldPath], the path [/a/bc/g.md] for the directory [/a/b] included. But
    it does not put [newPath] itself in the place of [oldPath]: moving
    [/a/b] to [/a/$$] leaves the documents under [/a/$], since [replace]
    reads [$$] in its second argument as one dollar sign. *)
Theorem hasMovedDir_reads_dollar_patterns :
  trackedPaths (stateOf (hasMovedDir "/a/b" "/a/$$" Ex.shelf))
  = ["/a/$/f.md"; "/a/$c/g.md"; "/a/c/h.md"] /\
  map (movedPath "/a/b" "/a/$$") (trackedPaths Ex.shelf)
  = ["/a/$$/f.md"; "/a/$$c/g.md"; "/a/c/h.md"] /\
  trackedPaths (stateOf (hasMovedDir "/a/b" "/a/$$" Ex.shelf))
  <> map (movedPath "/a/b" "/a/$$") (trackedPaths Ex.shelf).
Proof.
  split; [vm_compute; reflexivity|]. split; [vm_compute; reflexivity|].
  vm_compute. discriminate.
Qed.

(** The replacement free of dollar signs: every path that starts with
    [/a/b] is rewritten, [/a/bc/g.md] among them, in the documents and in
    the tabs. *)
Example hasMovedDir_shared_prefix :
  trackedPaths (stateOf (hasMovedDir "/a/b" "/a/z" Ex.shelf))
  = map (movedPath "/a/b" "/a/z") (trackedPaths Ex.shelf) /\
  trackedPaths (stateOf (hasMovedDir "/a/b" "/a/z" Ex.shelf))
  = ["/a/z/f.md"; "/a/zc/g.md"; "/a/c/h.md"] /\
  getOpenFiles (stateOf (hasMovedDir "/a/b" "/a/z" Ex.shelf))
  = ["/a/z/f.md"; "/a/zc/g.md"; "/a/c/h.md"].
Proof. repeat split; vm_compute; reflexivity. Qed.

(** A renamed path that meets a loaded one: [hasMovedFile] looks the
    document up by path and finds the one renamed a moment ago, so that the
    text of the first document ends under the path due to the second. *)
Example hasMovedDir_meets_loaded_path :
  map (fun d => (filePath d, document d))
    (documents (stateOf (hasMovedDir "/a/b" "/a/bb" Ex.twins)))
  = [("/a/bbb/x", "first"); ("/a/bb/x", "second")].
Proof. vm_compute. reflexivity. Qed.

(** A failed save of document b of the example: the unlink event that
    follows is dropped. *)
Lemma failed_save_hides_next_event_witness :
  Docs.findDoc "/n/b.md" (documents Ex.desk) = Some (Ex.doc "/n/b.md" "beta" 2 2) /\
  _windows (stateOf (onWatcherEvent "unlink" "/n/b.md"
                       (stateOf (saveFile false "/n/b.md" Ex.desk))))
  = _windows Ex.desk.
Proof.
  split; [reflexivity|].
  apply (failed_save_hides_next_event Posix.platform Ex.desk "/n/b.md"
           (Ex.doc "/n/b.md" "beta" 2 2) "unlink" eq_refl).
Defined.

Lemma closeFile_without_asking_witness :
  outcomeOf (closeFile Cancel true "w1" "l1" "/n/b.md" Ex.desk) = Ret true /\
  prompts (traceOf (closeFile Cancel true "w1" "l1" "/n/b.md" Ex.desk)) = [] /\
  documents (stateOf (closeFile Cancel true "w1" "l1" "/n/b.md" Ex.desk)) = documents Ex.desk.
Proof.
  pose proof (closeFile_without_asking Posix.platform Ex.desk Cancel true "w1" "l1" "/n/b.md"
                (mkDocumentTree
                   (DTBranch "b1" horizontal
                      [Ex.leaf "l1" [Ex.tab "/n/a.md"; Ex.tab "/n/b.md"] (Some "/n/a.md");
                       Ex.leaf "l2" [Ex.tab "/n/c.md"] (Some "/n/c.md")]))
                (mkTabManager [Ex.tab "/n/a.md"; Ex.tab "/n/b.md"] (Some "/n/a.md"))
                eq_refl eq_refl eq_refl (or_introl eq_refl)) as H.
  cbv zeta in H. destruct H as (Hout & Hpr & Hd & _).
  split; [exact Hout|]. split; [exact Hpr|exact Hd].
Defined.

Lemma closeFile_save_answer_witness :
  outcomeOf (closeFile Save true "w1" "l2" "/n/c.md" Ex.desk) = Ret true /\
  outcomeOf (closeFile Save false "w1" "l2" "/n/c.md" Ex.desk) = Throw IOFailure /\
  Authority.isModified "/n/c.md" (stateOf (closeFile Save false "w1" "l2" "/n/c.md" Ex.desk))
  = false.
Proof.
  pose proof (closeFile_save_answer Posix.platform Ex.desk "w1" "l2" "/n/c.md"
                (mkDocumentTree
                   (DTBranch "b1" horizontal
                      [Ex.leaf "l1" [Ex.tab "/n/a.md"; Ex.tab "/n/b.md"] (Some "/n/a.md");
                       Ex.leaf "l2" [Ex.tab "/n/c.md"] (Some "/n/c.md")]))
                (mkTabManager [Ex.tab "/n/c.md"] (Some "/n/c.md"))
                (Ex.doc "/n/c.md" "gamma" 5 4)
                eq_refl eq_refl eq_refl eq_refl eq_refl eq_refl) as H.
  cbv zeta in H. destruct H as ((Hout & _) & (Hthrow & _ & _ & _ & Hclean & _)).
  split; [exact Hout|]. split; [exact Hthrow|exact Hclean].
Defined.

Lemma closeFile_discards_for_other_leaf_witness :
  outcomeOf (closeFile Discard true "w1" "l1" "/n/c.md" Ex.desk) = Ret false /\
  Docs.findDoc "/n/c.md"
    (documents (stateOf (closeFile Discard true "w1" "l1" "/n/c.md" Ex.desk))) = None /\
  instances "/n/c.md" (stateOf (closeFile Discard true "w1" "l1" "/n/c.md" Ex.desk)) = 1.
Proof.
  assert (Hnd : NoDup (trackedPaths Ex.desk)).
  { unfold trackedPaths. cbn.
    repeat (constructor; [cbn; intuition discriminate|]). constructor. }
  pose proof (closeFile_discards_for_other_leaf Posix.platform Ex.desk true "w1" "l1" "/n/c.md"
                (mkDocumentTree
                   (DTBranch "b1" horizontal
                      [Ex.leaf "l1" [Ex.tab "/n/a.md"; Ex.tab "/n/b.md"] (Some "/n/a.md");
                       Ex.leaf "l2" [Ex.tab "/n/c.md"] (Some "/n/c.md")]))
                (mkTabManager [Ex.tab "/n/a.md"; Ex.tab "/n/b.md"] (Some "/n/a.md"))
                eq_refl eq_refl eq_refl eq_refl eq_refl Hnd) as H.
  cbv zeta in H. destruct H as (Hout & _ & _ & Hinst & Hgone & _).
  split; [exact Hout|]. split; [exact Hgone|exact Hinst].
Defined.

Lemma saveFile_makes_unmodified_witness :
  Docs.findDoc "/n/c.md" (documents Ex.desk) = Some (Ex.doc "/n/c.md" "gamma" 5 4) /\
  outcomeOf (saveFile true "/n/c.md" Ex.desk) = Ret true /\
  Authority.isModified "/n/c.md" (stateOf (saveFile true "/n/c.md" Ex.desk)) = false.
Proof.
  split; [reflexivity|].
  pose proof (saveFile_makes_unmodified Posix.platform Ex.desk "/n/c.md") as H.
  cbv zeta in H. destruct H as (H & _).
  destruct (H (Ex.doc "/n/c.md" "gamma" 5 4) eq_refl) as (Hout & Hclean & _).
  split; [exact Hout|exact Hclean].
Defined.

Lemma notifyRemoteChange_drops_witness :
  Docs.findDoc "/n/z.md" (documents Ex.desk) = None /\
  documents (stateOf (notifyRemoteChange "/n/z.md" Ex.desk))
  = [Ex.doc "/n/a.md" "alpha" 3 3; Ex.doc "/n/b.md" "beta" 2 2; Ex.doc "/n/c.md" "gamma" 5 4].
Proof.
  split; [reflexivity|].
  pose proof (notifyRemoteChange_drops Ex.desk "/n/z.md") as H.
  cbv zeta in H. destruct H as (_ & _ & _ & _ & H).
  apply (H [Ex.doc "/n/a.md" "alpha" 3 3; Ex.doc "/n/b.md" "beta" 2 2;
            Ex.doc "/n/c.md" "gamma" 5 4]
           (Ex.doc "/n/d.md" "delta" 1 0) eq_refl eq_refl).
Defined.

Lemma hasMovedFile_carries_document_witness :
  Docs.findDoc "/n/c.md" (documents Ex.desk) = Some (Ex.doc "/n/c.md" "gamma" 5 4) /\
  Docs.findDoc "/m/c.md" (documents Ex.desk) = None /\
  Authority.isModified "/m/c.md" (stateOf (hasMovedFile "/n/c.md" "/m/c.md" Ex.desk)) = true /\
  hasMovedFile "/n/z.md" "/m/z.md" Ex.desk = (Ret tt, Ex.desk, []).
Proof.
  split; [reflexivity|]. split; [reflexivity|].
  pose proof (hasMovedFile_carries_document Posix.platform Ex.desk "/n/c.md" "/m/c.md") as H.
  cbv zeta in H. destruct H as (_ & _ & _ & H).
  destruct (H (Ex.doc "/n/c.md" "gamma" 5 4) eq_refl eq_refl) as (_ & _ & _ & Hmod & _).
  split; [exact Hmod|].
  pose proof (hasMovedFile_carries_document Posix.platform Ex.desk "/n/z.md" "/m/z.md") as H0.
  cbv zeta in H0. destruct H0 as (_ & _ & H0 & _).
  apply H0. reflexivity.
Defined.

Lemma openFile_already_open_witness :
  openFile true "w1" None "/n/b.md" None Ex.desk
  = (Ret true,
     setWindows
       (Windows.update "w1" (DocTree.updateLeaf "l1" (tabOpened "/n/b.md")) (_windows Ex.desk))
       Ex.desk,
     [Broadcast ACTIVE_FILE (leafContext "w1" "l1" (Some "/n/b.md"))]).
Proof.
  apply (openFile_already_open Ex.desk true "w1" None "/n/b.md" None
           (mkDocumentTree
              (DTBranch "b1" horizontal
                 [Ex.leaf "l1" [Ex.tab "/n/a.md"; Ex.tab "/n/b.md"] (Some "/n/a.md");
                  Ex.leaf "l2" [Ex.tab "/n/c.md"] (Some "/n/c.md")]))
           "l1" (mkTabManager [Ex.tab "/n/a.md"; Ex.tab "/n/b.md"] (Some "/n/a.md"))
           eq_refl eq_refl eq_refl).
Defined.

Lemma openFile_adds_unwatched_tab_witness :
  referenced "/n/e.md" (stateOf (openFile false "w1" (Some "l2") "/n/e.md" None Ex.desk)) /\
  ~ In "/n/e.md" (_watcher (stateOf (openFile false "w1" (Some "l2") "/n/e.md" None Ex.desk))).
Proof.
  pose proof (openFile_adds_unwatched_tab Ex.desk false "w1" (Some "l2") "/n/e.md" None
                (mkDocumentTree
                   (DTBranch "b1" horizontal
                      [Ex.leaf "l1" [Ex.tab "/n/a.md"; Ex.tab "/n/b.md"] (Some "/n/a.md");
                       Ex.leaf "l2" [Ex.tab "/n/c.md"] (Some "/n/c.md")]))
                "l2" (mkTabManager [Ex.tab "/n/c.md"] (Some "/n/c.md"))
                eq_refl eq_refl eq_refl (fun a _ => or_introl eq_refl)) as H.
  cbv zeta in H. destruct H as (_ & _ & _ & _ & _ & Href & Hnot).
  split; [exact Href|]. apply Hnot. cbn. intuition discriminate.
Defined.


Lemma unknown_window_throws_witness :
  closeLeaf "w9" "l1" Ex.desk = (Throw TypeError, Ex.desk, []) /\
  closeWindow "w9" Ex.desk = (Ret tt, Ex.desk, []) /\
  leafIds "w9" Ex.desk = Ret [] /\
  leafIds "constructor" Ex.desk = Throw TypeError /\
  closeWindow "constructor" Ex.desk = (Ret tt, Ex.desk, [ConfigSet]).
Proof.
  pose proof (unknown_window_throws Posix.platform Ex.desk "w9" eq_refl) as H.
  destruct H as (_ & _ & _ & Hleaf & _ & _ & Hplain & _).
  destruct (Hplain eq_refl) as [Hwin Hids].
  pose proof (unknown_window_throws Posix.platform Ex.desk "constructor" eq_refl) as H'.
  destruct H' as (_ & _ & _ & _ & _ & _ & _ & Hinherited).
  destruct (Hinherited eq_refl) as [Hwin' Hids'].
  split; [apply Hleaf|]. split; [exact Hwin|]. split; [exact Hids|].
  split; [exact Hids'|exact Hwin'].
Defined.

Lemma unknown_leaf_is_passed_over_witness :
  closeLeaf "w2" "l1" Ex.desk = (Ret tt, Ex.desk, []) /\
  moveFile "w2" "w1" "l1" "l2" "/n/b.md" Ex.desk = (Ret tt, Ex.desk, []).
Proof.
  pose proof (unknown_leaf_is_passed_over Posix.platform Ex.desk "w2" "l1"
                (mkDocumentTree
                   (Ex.leaf "l3" [Ex.pinnedTab "/n/b.md"; Ex.tab "/n/d.md"] (Some "/n/b.md")))
                eq_refl eq_refl) as H.
  destruct H as (_ & _ & _ & Hleaf & Hmove & _).
  split; [exact Hleaf|].
  apply (proj1 (Hmove "w1" "l2"
                  (mkDocumentTree
                     (DTBranch "b1" horizontal
                        [Ex.leaf "l1" [Ex.tab "/n/a.md"; Ex.tab "/n/b.md"] (Some "/n/a.md");
                         Ex.leaf "l2" [Ex.tab "/n/c.md"] (Some "/n/c.md")]))
                  "/n/b.md" eq_refl)).
Defined.


Lemma moveFile_between_leaves_witness :
  TabMan.isOpen "/n/a.md" (mkTabManager [Ex.tab "/n/c.md"] (Some "/n/c.md")) = false /\
  leafIds "w1" (stateOf (moveFile "w1" "w2" "l2" "l3" "/n/a.md" Ex.desk)) = Ret ["l1"] /\
  leafOf "w2" "l3" (stateOf (moveFile "w1" "w2" "l2" "l3" "/n/a.md" Ex.desk))
  = Some (mkTabManager [Ex.pinnedTab "/n/b.md"; Ex.tab "/n/d.md"; Ex.tab "/n/a.md"]
            (Some "/n/a.md")).
Proof.
  assert (Hne : "w1"%string <> "w2"%string \/ "l2"%string <> "l3"%string)
    by (left; discriminate).
  pose proof (moveFile_between_leaves Ex.desk "w1" "w2" "l2" "l3" "/n/a.md"
                (mkDocumentTree
                   (DTBranch "b1" horizontal
                      [Ex.leaf "l1" [Ex.tab "/n/a.md"; Ex.tab "/n/b.md"] (Some "/n/a.md");
                       Ex.leaf "l2" [Ex.tab "/n/c.md"] (Some "/n/c.md")]))
                (mkDocumentTree
                   (Ex.leaf "l3" [Ex.pinnedTab "/n/b.md"; Ex.tab "/n/d.md"] (Some "/n/b.md")))
                (mkTabManager [Ex.tab "/n/c.md"] (Some "/n/c.md"))
                (mkTabManager [Ex.pinnedTab "/n/b.md"; Ex.tab "/n/d.md"] (Some "/n/b.md"))
                eq_refl eq_refl eq_refl eq_refl Hne) as H.
  cbv zeta in H. destruct H as (_ & _ & _ & _ & Htarget & _ & Hids).
  split; [reflexivity|]. split.
  - destruct Hids as (ids & Hbefore & Hafter); [reflexivity|cbn; lia|].
    inversion Hbefore; subst ids. exact Hafter.
  - exact Htarget.
Defined.

Lemma moveFile_onto_own_leaf_witness :
  exists tm',
    leafOf "w1" "l1" (stateOf (moveFile "w1" "w1" "l1" "l1" "/n/a.md" Ex.desk)) = Some tm' /\
    TabMan.isOpen "/n/a.md" tm' = false.
Proof.
  assert (Hu : TabMan.unique (mkTabManager [Ex.tab "/n/a.md"; Ex.tab "/n/b.md"] (Some "/n/a.md"))).
  { unfold TabMan.unique. cbn.
    repeat (constructor; [cbn; intuition discriminate|]). constructor. }
  pose proof (moveFile_onto_own_leaf Ex.desk "w1" "l1" "/n/a.md"
                (mkDocumentTree
                   (DTBranch "b1" horizontal
                      [Ex.leaf "l1" [Ex.tab "/n/a.md"; Ex.tab "/n/b.md"] (Some "/n/a.md");
                       Ex.leaf "l2" [Ex.tab "/n/c.md"] (Some "/n/c.md")]))
                (mkTabManager [Ex.tab "/n/a.md"; Ex.tab "/n/b.md"] (Some "/n/a.md"))
                eq_refl eq_refl eq_refl Hu) as H.
  cbv zeta in H. destruct H as (_ & _ & Hclosed & _).
  destruct Hclosed as (tm' & Hleaf & Hgone & _); [cbn; lia|].
  exists tm'. split; [exact Hleaf|exact Hgone].
Defined.

Lemma watcher_event_dispatch_witness :
  ~ In "/n/d.md"%string (_ignoreChanges Ex.desk) /\
  documents (stateOf (onWatcherEvent "unlink" "/n/d.md" Ex.desk)) = documents Ex.desk /\
  onWatcherEvent "change" "/n/d.md" Ex.desk = (Ret tt, Ex.desk, [HandleRemoteChange "/n/d.md"]).
Proof.
  assert (Hfree : ~ In "/n/d.md"%string (_ignoreChanges Ex.desk)) by (intros []).
  split; [exact Hfree|].
  split.
  - pose proof (watcher_event_dispatch Posix.platform Ex.desk "unlink" "/n/d.md" Hfree) as H.
    cbv zeta in H. destruct H as (_ & Hdocs & _). exact Hdocs.
  - pose proof (watcher_event_dispatch Posix.platform Ex.desk "change" "/n/d.md" Hfree) as H.
    cbv zeta in H. destruct H as (_ & _ & _ & _ & _ & Hchange & _). apply Hchange. reflexivity.
Defined.

Lemma closeWindow_forgets_window_witness :
  Windows.lookup "w2" (_windows (stateOf (closeWindow "w2" Ex.desk))) = None /\
  documents (stateOf (closeWindow "w2" Ex.desk)) = documents Ex.desk.
Proof.
  pose proof (closeWindow_forgets_window Posix.platform Ex.desk "w2") as H.
  destruct H as (_ & H).
  assert (Hcount : windowCount Ex.desk <> 1) by (cbn; lia).
  specialize (H eq_refl eq_refl Hcount). cbv zeta in H.
  destruct H as (_ & _ & Hgone & _ & _ & Hdocs & _).
  split; [exact Hgone|exact Hdocs].
Defined.


Lemma isClean_total_and_local_witness :
  Authority.isModified "/n/c.md" Ex.desk = true /\
  outcomeOf (isClean None None Ex.desk) = Ret false /\
  isClean (Some "w1") (Some whichWindow) Ex.desk = (Ret false, Ex.desk, []).
Proof.
  pose proof (isClean_total_and_local Ex.desk) as H.
  destruct H as (_ & Htotal & _ & Hlocal).
  split; [reflexivity|]. split.
  - apply (Htotal "/n/c.md"). reflexivity.
  - apply (proj1 (Hlocal "w1"
                    (mkDocumentTree
                       (DTBranch "b1" horizontal
                          [Ex.leaf "l1" [Ex.tab "/n/a.md"; Ex.tab "/n/b.md"] (Some "/n/a.md");
                           Ex.leaf "l2" [Ex.tab "/n/c.md"] (Some "/n/c.md")]))
                    "l2" (mkTabManager [Ex.tab "/n/c.md"] (Some "/n/c.md")) "/n/c.md"
                    eq_refl eq_refl eq_refl (or_introl eq_refl))).
Defined.

Lemma closeFileEverywhere_leaves_hidden_change_witness :
  outcomeOf (isClean None None
               (stateOf (closeFileEverywhere "/n/c.md"
                           (stateOf (saveFile true "/n/d.md" Ex.desk))))) = Ret false /\
  ~ referenced "/n/c.md"
      (stateOf (closeFileEverywhere "/n/c.md" (stateOf (saveFile true "/n/d.md" Ex.desk)))).
Proof.
  assert (Hu : uniqueTabs (stateOf (saveFile true "/n/d.md" Ex.desk))).
  { unfold uniqueTabs, TabMan.unique. cbn.
    repeat (constructor; [repeat (constructor; [cbn; intuition discriminate|]); constructor|]).
    constructor. }
  pose proof (closeFileEverywhere_leaves_hidden_change
                (stateOf (saveFile true "/n/d.md" Ex.desk)) "/n/c.md" Hu eq_refl) as H.
  cbv zeta in H. destruct H as (Htotal & _ & _ & Hgone & _).
  split; [exact Htotal|exact Hgone].
Defined.

Lemma only_closeFile_asks_witness :
  prompts (traceOf (handle (ReqCloseFileEverywhere "/n/c.md") Ex.desk)) = [] /\
  filter isWrite (traceOf (handle (ReqCloseLeaf "w1" "l2") Ex.desk)) = [].
Proof.
  split.
  - apply (proj1 (only_closeFile_asks Posix.platform (ReqCloseFileEverywhere "/n/c.md") Ex.desk)).
    intros response ioOk w l p. discriminate.
  - apply (proj1 (proj2 (only_closeFile_asks Posix.platform (ReqCloseLeaf "w1" "l2") Ex.desk))).
    + intros response ioOk w l p. discriminate.
    + intros ioOk p. discriminate.
Defined.



Lemma request_footprint_witness :
  _watcher (runAll [ReqCloseFileEverywhere "/n/c.md"; ReqCloseLeaf "w1" "l2";
                    ReqCloseWindow "w2"] Ex.desk)
  = ["/n/a.md"; "/n/b.md"; "/n/c.md"; "/n/d.md"] /\
  documents (stateOf (handle (ReqOpenFile true "w1" None "/n/e.md" None) Ex.desk))
  = documents Ex.desk.
Proof.
  split.
  - apply (proj1 (proj2 (proj2 (proj2 (proj2 (proj2
             (request_footprint Posix.platform (ReqCloseWindow "w2") Ex.desk))))))).
    repeat constructor.
  - apply (proj1 (proj2 (request_footprint Posix.platform
                           (ReqOpenFile true "w1" None "/n/e.md" None) Ex.desk))).
    reflexivity.
Defined.


Lemma leafIds_and_getActiveFile_witness :
  leafOf "w2" "l3" Ex.desk
  = Some (mkTabManager [Ex.pinnedTab "/n/b.md"; Ex.tab "/n/d.md"] (Some "/n/b.md")) /\
  getActiveFile "l3" Ex.desk = Some "/n/b.md"%string /\
  leafIds "w2" Ex.desk = Ret ["l3"] /\
  leafIds "toString" Ex.desk = Throw TypeError.
Proof.
  split; [reflexivity|].
  pose proof (leafIds_and_getActiveFile Ex.desk "w2" "l3") as H.
  destruct H as (Hids & _ & _ & Hactive).
  split; [|split].
  - apply (Hactive (mkTabManager [Ex.pinnedTab "/n/b.md"; Ex.tab "/n/d.md"] (Some "/n/b.md"))
             eq_refl).
    intros w t [He|[He|[]]] Hne; inversion He; subst; [reflexivity|congruence].
  - apply (proj1 (Hids (mkDocumentTree
                          (Ex.leaf "l3" [Ex.pinnedTab "/n/b.md"; Ex.tab "/n/d.md"]
                             (Some "/n/b.md"))) eq_refl)).
  - apply (proj1 (proj2 (leafIds_and_getActiveFile Ex.desk "toString" "l3"))). reflexivity.
Defined.

Lemma openFile_then_getActiveFile_witness :
  getActiveFile "l2" (stateOf (openFile true "w1" (Some "l2") "/n/e.md" None Ex.desk))
  = Some "/n/e.md"%string.
Proof.
  pose proof (openFile_then_getActiveFile Posix.platform Ex.desk true "w1" (Some "l2") "/n/e.md"
                None
                (mkDocumentTree
                   (DTBranch "b1" horizontal
                      [Ex.leaf "l1" [Ex.tab "/n/a.md"; Ex.tab "/n/b.md"] (Some "/n/a.md");
                       Ex.leaf "l2" [Ex.tab "/n/c.md"] (Some "/n/c.md")]))
                "l2" (mkTabManager [Ex.tab "/n/c.md"] (Some "/n/c.md"))
                eq_refl eq_refl) as H.
  assert (Hact : forall a, activeFile (mkTabManager [Ex.tab "/n/c.md"] (Some "/n/c.md")) = Some a ->
                           TabMan.isOpen a (mkTabManager [Ex.tab "/n/c.md"] (Some "/n/c.md"))
                           = true).
  { intros a Ha. inversion Ha; subst. reflexivity. }
  assert (Hoth : forall w t, In (w, t) (_windows Ex.desk) -> w <> "w1"%string ->
                             DocTree.findLeaf "l2" t = None).
  { intros w t [He|[He|[]]] Hne; inversion He; subst; [congruence|reflexivity]. }
  specialize (H Hact Hoth). cbv zeta in H. exact (proj2 H).
Defined.

Lemma saveFile_counts_words_once_witness :
  Docs.findDoc "/n/c.md" (documents Ex.desk) = Some (Ex.doc "/n/c.md" "gamma" 5 4) /\
  _ignoreChanges (stateOf (saveFile true "/n/c.md" (stateOf (saveFile true "/n/c.md" Ex.desk))))
  = ["/n/c.md"; "/n/c.md"].
Proof.
  split; [reflexivity|].
  pose proof (saveFile_counts_words_once Posix.platform Ex.desk "/n/c.md"
                (Ex.doc "/n/c.md" "gamma" 5 4) eq_refl) as H.
  cbv zeta in H. destruct H as (_ & _ & _ & Hign). exact Hign.
Defined.

Lemma closeLeaf_drops_leaf_with_tabs_witness :
  leafIds "w1" (stateOf (closeLeaf "w1" "l2" Ex.desk)) = Ret ["l1"] /\
  documents (stateOf (closeLeaf "w1" "l2" Ex.desk)) = documents Ex.desk.
Proof.
  assert (Hlen : 2 <= List.length
                        (DocTree.getAllLeafs
                           (mkDocumentTree
                              (DTBranch "b1" horizontal
                                 [Ex.leaf "l1" [Ex.tab "/n/a.md"; Ex.tab "/n/b.md"]
                                    (Some "/n/a.md");
                                  Ex.leaf "l2" [Ex.tab "/n/c.md"] (Some "/n/c.md")]))))
    by (cbn; lia).
  pose proof (closeLeaf_drops_leaf_with_tabs Ex.desk "w1" "l2"
                (mkDocumentTree
                   (DTBranch "b1" horizontal
                      [Ex.leaf "l1" [Ex.tab "/n/a.md"; Ex.tab "/n/b.md"] (Some "/n/a.md");
                       Ex.leaf "l2" [Ex.tab "/n/c.md"] (Some "/n/c.md")]))
                (mkTabManager [Ex.tab "/n/c.md"] (Some "/n/c.md"))
                eq_refl eq_refl Hlen) as H.
  cbv zeta in H. destruct H as (_ & _ & Hdocs & _ & (ids & Hbefore & Hafter) & _).
  inversion Hbefore; subst ids.
  split; [exact Hafter|exact Hdocs].
Defined.

End Examples.
